(** * Sandboxed execution engine of flux-api-backend

    A shallow embedding of the three services that make up the execution
    engine (all three live in [src/services/execution]):

    - [DockerManager]  : container registry, ceiling, run with deadline,
                         destroy / force stop, health check;
    - [CodeExecutor]   : validation deny-list, strategy selection, result
                         cache, vm2 and Docker execution;
    - [SandboxService] : [executeEndpoint], the per-request pipeline
                         (rate limit, access, validation, run, save
                         directive, audit log, endpoint statistics).

    JavaScript values are a small JSON-like datatype, module-level mutable
    state ([Map]s, the Prisma tables) is one explicit [World] record that
    is threaded through a state-and-exception monad, and everything the
    host cannot decide by itself (the Docker daemon, the vm2 interpreter,
    the clock, database failures) is an explicit oracle argument. *)

From Stdlib Require Import ZArith Ascii String List Bool Lia.
From stdpp Require Import base option list gmap strings.

Set Warnings "-register-all".
Local Open Scope Z_scope.
Local Open Scope string_scope.
Local Open Scope list_scope.

(* ===================================================================== *)
(** * JavaScript values                                                   *)
(* ===================================================================== *)

Module Js.

(** The values that cross the sandbox boundary.  Numbers are integers:
    no claim depends on fractional values. *)
Inductive jsval : Type :=
| JUndefined
| JNull
| JBool (b : bool)
| JNum (n : Z)
| JStr (s : string)
| JArr (items : list jsval)
| JObj (fields : list (string * jsval)).

(** [ToBoolean]. *)
Definition truthy (v : jsval) : bool :=
  match v with
  | JUndefined | JNull => false
  | JBool b => b
  | JNum n => negb (Z.eqb n 0)
  | JStr s => negb (String.eqb s "")
  | JArr _ | JObj _ => true
  end.

Definition nullish (v : jsval) : bool :=
  match v with
  | JUndefined | JNull => true
  | _ => false
  end.

(** [a || b] *)
Definition or (a b : jsval) : jsval := if truthy a then a else b.

Fixpoint assoc (k : string) (fields : list (string * jsval)) : jsval :=
  match fields with
  | [] => JUndefined
  | (k', v) :: rest => if String.eqb k k' then v else assoc k rest
  end.

(** [v.k] on a value that is not null or undefined; only plain objects
    carry the properties read by the engine. *)
Definition get (v : jsval) (k : string) : jsval :=
  match v with
  | JObj fields => assoc k fields
  | _ => JUndefined
  end.

Fixpoint put (k : string) (v : jsval) (fields : list (string * jsval))
  : list (string * jsval) :=
  match fields with
  | [] => [(k, v)]
  | (k', v') :: rest =>
      if String.eqb k k' then (k, v) :: rest else (k', v') :: put k v rest
  end.

(** [{ ...o, k: v }] *)
Definition with_field (o : jsval) (k : string) (v : jsval) : jsval :=
  match o with
  | JObj fields => JObj (put k v fields)
  | _ => JObj [(k, v)]
  end.

Definition isArray (v : jsval) : bool :=
  match v with JArr _ => true | _ => false end.

(** [v === false] *)
Definition is_false (v : jsval) : bool :=
  match v with JBool false => true | _ => false end.

(** [v === s] for a string literal [s]. *)
Definition is_string (v : jsval) (s : string) : bool :=
  match v with JStr s' => String.eqb s' s | _ => false end.

(** Decimal text of an integer, as [String(n)] prints it. *)
Definition digit (d : Z) : ascii := ascii_of_nat (Z.to_nat (48 + d)).

Fixpoint digits (fuel : nat) (n : Z) (acc : string) : string :=
  match fuel with
  | O => acc
  | S fuel' =>
      let acc' := String (digit (n mod 10)) acc in
      if Z.ltb n 10 then acc' else digits fuel' (n / 10) acc'
  end.

Definition num_to_string (n : Z) : string :=
  if Z.ltb n 0 then "-" +:+ digits (S (Z.to_nat (Z.log2 (- n)))) (- n) ""
  else digits (S (Z.to_nat (Z.log2 n))) n "".

(** [String(v)], the coercion [JSON.parse] applies to its argument. *)
Fixpoint toString (v : jsval) : string :=
  match v with
  | JUndefined => "undefined"
  | JNull => "null"
  | JBool true => "true"
  | JBool false => "false"
  | JNum n => num_to_string n
  | JStr s => s
  | JArr items =>
      (fix join (l : list jsval) : string :=
         match l with
         | [] => ""
         | [x] => if nullish x then "" else toString x
         | x :: rest =>
             (if nullish x then "" else toString x) +:+ "," +:+ join rest
         end) items
  | JObj _ => "[object Object]"
  end.

End Js.
Export Js.

(* ===================================================================== *)
(** * Text: code units, whitespace, lines                                 *)
(* ===================================================================== *)

Module Text.

(** A text is the list of its code units.  Code units are 8 bit wide
    here, which covers ASCII and Latin-1 source text. *)
Definition text := list ascii.

Definition chars (s : string) : text := list_ascii_of_string s.
Definition str (t : text) : string := string_of_list_ascii t.

Definition code_of (c : ascii) : nat := nat_of_ascii c.

(** ASCII case folding, which is what the [i] flag amounts to for the
    literal characters of the engine's patterns. *)
Definition to_lower (c : ascii) : ascii :=
  let n := code_of c in
  if (Nat.leb 65 n && Nat.leb n 90)%bool then ascii_of_nat (n + 32) else c.

(** [\s], and the characters [trim] strips: tab, LF, VT, FF, CR, space
    and the no-break space. *)
Definition is_space (c : ascii) : bool :=
  let n := code_of c in
  ((Nat.leb 9 n && Nat.leb n 13) || Nat.eqb n 32 || Nat.eqb n 160)%bool.

Fixpoint trim_start (t : text) : text :=
  match t with
  | c :: t' => if is_space c then trim_start t' else t
  | [] => []
  end.

Definition trim (t : text) : text := rev (trim_start (rev (trim_start t))).

Definition newline : ascii := ascii_of_nat 10.

(** [t.split('\n')] *)
Fixpoint split_lines (t : text) : list text :=
  match t with
  | [] => [[]]
  | c :: t' =>
      if Ascii.eqb c newline then [] :: split_lines t'
      else match split_lines t' with
           | l :: ls => (c :: l) :: ls
           | [] => [[c]]
           end
  end.

(** [line.trim().startsWith('{') || line.trim().startsWith('[')] *)
Definition looks_like_json (line : text) : bool :=
  match trim line with
  | c :: _ => (Ascii.eqb c "{" || Ascii.eqb c "[")%bool
  | [] => false
  end.

End Text.
Export Text.

(* ===================================================================== *)
(** * The regular expressions of the engine                               *)
(* ===================================================================== *)

Module Regex.

(** Every pattern in the engine is a sequence of single characters,
    character classes and greedy starred classes: no groups and no
    alternation.  [One c] consumes one code unit in class [c]; [Many c]
    is [c*]. *)
Inductive atom : Type :=
| One (cls : ascii -> bool)
| Many (cls : ascii -> bool).

Definition pattern := list atom.

(** Match [p] at the start of [t] the way a backtracking matcher does:
    a star takes as much as it can and gives back one unit at a time.
    The result is the text left after the match. *)
Fixpoint match_here (p : pattern) (t : text) : option text :=
  match p with
  | [] => Some t
  | One cls :: p' =>
      match t with
      | c :: t' => if cls c then match_here p' t' else None
      | [] => None
      end
  | Many cls :: p' =>
      (fix star (t : text) : option text :=
         match t with
         | c :: t' =>
             if cls c
             then match star t' with
                  | Some r => Some r
                  | None => match_here p' t
                  end
             else match_here p' t
         | [] => match_here p' []
         end) t
  end.

(** [pattern.test(t)] for a freshly created pattern: is there a match
    at some position? *)
Fixpoint test (p : pattern) (t : text) : bool :=
  match match_here p t with
  | Some _ => true
  | None => match t with
            | [] => false
            | _ :: t' => test p t'
            end
  end.

(** Number of matches [t.match(pattern)] returns under the [g] flag:
    successive leftmost matches, each search resuming where the last
    match ended (one unit further after an empty match).  [skip] counts
    the units still covered by the previous match. *)
Fixpoint count_from (p : pattern) (t : text) (skip : nat) : nat :=
  match skip with
  | S k =>
      match t with
      | [] => O
      | _ :: t' => count_from p t' k
      end
  | O =>
      match match_here p t with
      | Some rest =>
          S (match t with
             | [] => O
             | _ :: t' =>
                 count_from p t' (Nat.pred (length t - length rest))
             end)
      | None =>
          match t with
          | [] => O
          | _ :: t' => count_from p t' O
          end
      end
  end.

Definition count_matches (p : pattern) (t : text) : nat := count_from p t O.

(** Classes *)
Definition ci (c : ascii) : ascii -> bool :=
  fun x => Ascii.eqb (to_lower x) (to_lower c).
Definition ws : ascii -> bool := is_space.
Definition other_than (c : ascii) : ascii -> bool :=
  fun x => negb (Ascii.eqb x c).
Definition dquote : ascii := ascii_of_nat 34.
(** The class of the three quote characters: single, double, backtick. *)
Definition quote : ascii -> bool :=
  fun x => (Ascii.eqb x "'" || Ascii.eqb x dquote || Ascii.eqb x "`")%bool.

(** A literal under the [i] flag. *)
Definition lit (s : string) : pattern := map (fun c => One (ci c)) (chars s).

End Regex.
Export Regex.

(* ===================================================================== *)
(** * Shared state                                                        *)
(* ===================================================================== *)

Module Data.

(** Host functions the engine calls but does not define.  Theorems hold
    for every implementation of them. *)
Class Builtins : Type := {
  JSON_parse : string -> option jsval;      (* [None]: SyntaxError *)
  JSON_stringify : jsval -> string;
  base64 : string -> string;                (* Buffer.from(s).toString('base64') *)
  (* mockDataService.validateDataAgainstSchema(data, schema).errors *)
  validateDataAgainstSchema : jsval -> jsval -> list string;
  (* how Prisma reads [where: { userId: v }] for a [v] that is neither
     a string nor [undefined]: the user ids a filter object admits,
     or [None] for a PrismaClientValidationError *)
  prisma_userId_filter : jsval -> option (string -> bool)
}.

(** An entry of [DockerManager.activeContainers]; the container handle
    is identified with the container id. *)
Record ContainerData : Type := {
  createdAt : Z;
  lastUsed : Z
}.

(** What [DockerManager.executeCode] resolves with. *)
Record RunResult : Type := {
  run_success : bool;
  run_output : jsval;
  run_error : jsval;
  run_logs : jsval;
  run_executionTime : Z;
  run_exitCode : Z
}.

(** What the [CodeExecutor] strategies return. *)
Record ExecutionResult : Type := {
  success : bool;
  output : jsval;
  error : jsval;
  logs : jsval;
  executionTime : Z;
  strategy : string;
  containerId : option string
}.

Record CacheEntry : Type := {
  result : ExecutionResult;
  timestamp : Z
}.

Record UserStats : Type := {
  count : Z;
  resetTime : Z
}.

Record Collaborator : Type := {
  collab_userId : string;
  canEdit : bool
}.

Record Project : Type := {
  project_id : string;
  ownerId : string;
  collaborators : list Collaborator
}.

(** A row of [prisma.endpoint] together with its project. *)
Record Endpoint : Type := {
  ep_code : string;
  ep_method : string;
  ep_path : string;
  ep_projectId : string;
  ep_project : Project;
  callCount : Z;
  lastCalled : option Z
}.

(** A row of [prisma.mockDataCollection] together with its project. *)
Record Collection : Type := {
  col_name : string;
  col_data : jsval;
  col_schema : jsval;
  col_version : Z;          (* metadata.version, 0 when absent *)
  col_saveCount : Z;        (* metadata.saveCount, 0 when absent *)
  col_lastSavedBy : jsval;
  col_project : Project
}.

(** A row of [prisma.executionLog] (the fields the engine decides). *)
Record LogRecord : Type := {
  log_endpointId : string;
  log_userId : string;
  log_statusCode : Z;
  log_responseBody : jsval;
  log_error : jsval;
  log_sandboxId : option string;
  log_pendingSaves : option nat
}.

(** Calls made on the Docker daemon, oldest first. *)
Inductive DockerCall : Type :=
| DInfo
| DCreate (image : string)
| DStart (id : string)
| DExec (id : string)
| DKill (id : string)
| DStop (id : string)
| DRemove (id : string).

Record World : Type := {
  (* DockerManager *)
  activeContainers : gmap string ContainerData;
  maxContainers : nat;
  dockerCalls : list DockerCall;
  (* CodeExecutor *)
  executionCache : gmap string CacheEntry;
  sandboxLogs : list string;
  (* SandboxService *)
  executionStats : gmap string UserStats;
  saveQueue : gmap string (list jsval);
  (* database *)
  endpoints : gmap string Endpoint;
  mockDataCollections : gmap string Collection;
  executionLog : list LogRecord
}.

Definition set_activeContainers (f : gmap string ContainerData -> gmap string ContainerData)
    (w : World) : World :=
  {| activeContainers := f (activeContainers w);
     maxContainers := maxContainers w;
     dockerCalls := dockerCalls w;
     executionCache := executionCache w;
     sandboxLogs := sandboxLogs w;
     executionStats := executionStats w;
     saveQueue := saveQueue w;
     endpoints := endpoints w;
     mockDataCollections := mockDataCollections w;
     executionLog := executionLog w |}.

Definition set_dockerCalls (f : list DockerCall -> list DockerCall) (w : World) : World :=
  {| activeContainers := activeContainers w;
     maxContainers := maxContainers w;
     dockerCalls := f (dockerCalls w);
     executionCache := executionCache w;
     sandboxLogs := sandboxLogs w;
     executionStats := executionStats w;
     saveQueue := saveQueue w;
     endpoints := endpoints w;
     mockDataCollections := mockDataCollections w;
     executionLog := executionLog w |}.

Definition set_executionCache (f : gmap string CacheEntry -> gmap string CacheEntry)
    (w : World) : World :=
  {| activeContainers := activeContainers w;
     maxContainers := maxContainers w;
     dockerCalls := dockerCalls w;
     executionCache := f (executionCache w);
     sandboxLogs := sandboxLogs w;
     executionStats := executionStats w;
     saveQueue := saveQueue w;
     endpoints := endpoints w;
     mockDataCollections := mockDataCollections w;
     executionLog := executionLog w |}.

Definition set_sandboxLogs (f : list string -> list string) (w : World) : World :=
  {| activeContainers := activeContainers w;
     maxContainers := maxContainers w;
     dockerCalls := dockerCalls w;
     executionCache := executionCache w;
     sandboxLogs := f (sandboxLogs w);
     executionStats := executionStats w;
     saveQueue := saveQueue w;
     endpoints := endpoints w;
     mockDataCollections := mockDataCollections w;
     executionLog := executionLog w |}.

Definition set_executionStats (f : gmap string UserStats -> gmap string UserStats)
    (w : World) : World :=
  {| activeContainers := activeContainers w;
     maxContainers := maxContainers w;
     dockerCalls := dockerCalls w;
     executionCache := executionCache w;
     sandboxLogs := sandboxLogs w;
     executionStats := f (executionStats w);
     saveQueue := saveQueue w;
     endpoints := endpoints w;
     mockDataCollections := mockDataCollections w;
     executionLog := executionLog w |}.

Definition set_saveQueue (f : gmap string (list jsval) -> gmap string (list jsval))
    (w : World) : World :=
  {| activeContainers := activeContainers w;
     maxContainers := maxContainers w;
     dockerCalls := dockerCalls w;
     executionCache := executionCache w;
     sandboxLogs := sandboxLogs w;
     executionStats := executionStats w;
     saveQueue := f (saveQueue w);
     endpoints := endpoints w;
     mockDataCollections := mockDataCollections w;
     executionLog := executionLog w |}.

Definition set_endpoints (f : gmap string Endpoint -> gmap string Endpoint)
    (w : World) : World :=
  {| activeContainers := activeContainers w;
     maxContainers := maxContainers w;
     dockerCalls := dockerCalls w;
     executionCache := executionCache w;
     sandboxLogs := sandboxLogs w;
     executionStats := executionStats w;
     saveQueue := saveQueue w;
     endpoints := f (endpoints w);
     mockDataCollections := mockDataCollections w;
     executionLog := executionLog w |}.

Definition set_mockDataCollections
    (f : gmap string Collection -> gmap string Collection) (w : World) : World :=
  {| activeContainers := activeContainers w;
     maxContainers := maxContainers w;
     dockerCalls := dockerCalls w;
     executionCache := executionCache w;
     sandboxLogs := sandboxLogs w;
     executionStats := executionStats w;
     saveQueue := saveQueue w;
     endpoints := endpoints w;
     mockDataCollections := f (mockDataCollections w);
     executionLog := executionLog w |}.

Definition set_executionLog (f : list LogRecord -> list LogRecord) (w : World) : World :=
  {| activeContainers := activeContainers w;
     maxContainers := maxContainers w;
     dockerCalls := dockerCalls w;
     executionCache := executionCache w;
     sandboxLogs := sandboxLogs w;
     executionStats := executionStats w;
     saveQueue := saveQueue w;
     endpoints := endpoints w;
     mockDataCollections := mockDataCollections w;
     executionLog := f (executionLog w) |}.

(** ** Async functions: state passing with exceptions

    An [async] function either returns or throws an [Error] whose
    message is a string; mutations made before the throw stay. *)
Inductive outcome (A : Type) : Type :=
| Return (a : A)
| Throw (message : string).
Arguments Return {A} a.
Arguments Throw {A} message.

Definition M (A : Type) : Type := World -> outcome A * World.

Definition ret {A} (a : A) : M A := fun w => (Return a, w).
Definition throw {A} (message : string) : M A := fun w => (Throw message, w).
Definition bind {A B} (m : M A) (k : A -> M B) : M B :=
  fun w => match m w with
           | (Return a, w') => k a w'
           | (Throw e, w') => (Throw e, w')
           end.

(** [try { m } catch (error) { h error.message }] *)
Definition try_catch {A} (m : M A) (h : string -> M A) : M A :=
  fun w => match m w with
           | (Return a, w') => (Return a, w')
           | (Throw e, w') => h e w'
           end.

(** [try { m } finally { f }] *)
Definition try_finally {A} (m : M A) (f : M unit) : M A :=
  fun w => match m w with
           | (r, w') => match f w' with
                        | (Return _, w'') => (r, w'')
                        | (Throw e, w'') => (Throw e, w'')
                        end
           end.

Definition read {A} (f : World -> A) : M A := fun w => (Return (f w), w).
Definition modify (f : World -> World) : M unit := fun w => (Return tt, f w).
Definition docker_call (c : DockerCall) : M unit :=
  modify (set_dockerCalls (fun l => l ++ [c])).

#[global] Instance M_ret : MRet M := fun A a => ret a.
#[global] Instance M_bind : MBind M := fun A B k m => bind m k.

End Data.
Export Data.

(* ===================================================================== *)
(** * What a user script does                                             *)
(* ===================================================================== *)

Module Script.

Inductive ConsoleCall : Type :=
| ConsoleLog (message : string)
| ConsoleError (message : string)
| ConsoleWarn (message : string).

(** What user code can throw. *)
Inductive Thrown : Type :=
| ThrownError (message : string)    (* an Error object *)
| ThrownValue (v : jsval).          (* [throw v] for any other value *)

Inductive Completion : Type :=
| Returned (v : jsval)
| Threw (t : Thrown).

(** [error.message] in a [catch (error)] handler; [None] when reading it
    throws a TypeError. *)
Definition message_of (t : Thrown) : option jsval :=
  match t with
  | ThrownError m => Some (JStr m)
  | ThrownValue v => if nullish v then None else Some (get v "message")
  end.

End Script.
Export Script.

(* ===================================================================== *)
(** * DockerManager                                                       *)
(* ===================================================================== *)

Module DockerManager.

(** What the Docker daemon answers to [createContainer] + [start]. *)
Inductive CreateOutcome : Type :=
| Started (id : string)        (* both calls resolve *)
| StartFailed (id : string)    (* container created, [start] rejects *)
| CreateFailed.                (* [docker.createContainer] rejects *)

Record CreateOracle : Type := {
  create_outcome : CreateOutcome;
  create_time : Z               (* Date.now() at registration *)
}.

Definition getImageForLanguage (language : string) : string :=
  if String.eqb language "node" then "node:18-alpine"
  else if String.eqb language "python" then "python:3.9-alpine"
  else "node:18-alpine".

(** [createContainer(language)] *)
Definition createContainer (language : string) (o : CreateOracle) : M string :=
  size_ ← read (fun w => size (activeContainers w));
  max_ ← read maxContainers;
  if Nat.leb max_ size_ then throw "CONTAINER_LIMIT_EXCEEDED"
  else
    try_catch
      (docker_call (DCreate (getImageForLanguage language)) ;;
       match create_outcome o with
       | CreateFailed => throw "docker.createContainer"
       | StartFailed id => docker_call (DStart id) ;; throw "container.start"
       | Started id =>
           docker_call (DStart id) ;;
           modify (set_activeContainers
                     (insert id {| createdAt := create_time o;
                                   lastUsed := create_time o |})) ;;
           ret id
       end)
      (fun _ => throw "CONTAINER_CREATION_FAILED").

(** [forceStopContainer(containerId)]: [kill_ok] tells whether
    [container.kill()] resolves. *)
Definition forceStopContainer (containerId : string) (kill_ok : bool) : M unit :=
  data ← read (fun w => activeContainers w !! containerId);
  match data with
  | None => ret tt
  | Some _ =>
      try_catch
        (docker_call (DKill containerId) ;;
         if kill_ok
         then modify (set_activeContainers (delete containerId))
         else throw "container.kill")
        (fun _ => ret tt)             (* console.error only *)
  end.

Record DestroyOracle : Type := {
  stop_ok : bool;                (* container.stop({t: 10}) resolves *)
  remove_ok : bool               (* container.remove({force: true}) resolves *)
}.

(** [destroyContainer(containerId)] *)
Definition destroyContainer (containerId : string) (o : DestroyOracle) : M unit :=
  data ← read (fun w => activeContainers w !! containerId);
  match data with
  | None => ret tt
  | Some _ =>
      try_catch
        (docker_call (DStop containerId) ;;
         if stop_ok o
         then modify (set_activeContainers (delete containerId))
         else throw "container.stop")
        (fun _ =>
           try_catch
             (docker_call (DRemove containerId) ;;
              if remove_ok o
              then modify (set_activeContainers (delete containerId))
              else throw "container.remove")
             (fun _ => ret tt))
  end.

(** The report of [healthCheck()]. *)
Record Health : Type := {
  status : string;
  containers_total : nat;
  containers_max : nat
}.

(** [healthCheck()]: [info_ok] tells whether [docker.info()] resolves. *)
Definition healthCheck (info_ok : bool) : M Health :=
  docker_call DInfo ;;
  if info_ok
  then
    total ← read (fun w => size (activeContainers w));
    max_ ← read maxContainers;
    ret {| status := "HEALTHY"; containers_total := total; containers_max := max_ |}
  else ret {| status := "UNHEALTHY"; containers_total := O; containers_max := O |}.

(** What happens to the attached stream of an exec. *)
Inductive StreamOutcome : Type :=
| Deadline                                   (* the timer fires first *)
| StreamEnd (stdout stderr : text) (inspect : Z + string)
                                             (* 'end'; exit code, or inspect rejects *)
| StreamError (message : string).            (* 'error' *)

Record ExecOracle : Type := {
  exec_time : Z;                  (* Date.now() when the run starts *)
  exec_failure : option string;   (* container.exec / exec.start rejects *)
  stream : StreamOutcome;
  kill_ok : bool;
  end_time : Z                    (* Date.now() when the stream ends *)
}.

(** The line the 'end' handler hands to [JSON.parse]: the last line,
    or else the first line that starts like a JSON value. *)
Definition json_line (trimmed : text) : text :=
  let lines := split_lines trimmed in
  let last_line := List.last lines [] in
  if negb (looks_like_json last_line)
  then match List.find looks_like_json lines with
       | Some l => l
       | None => last_line
       end
  else last_line.

(** The mutable locals of the 'end' handler. *)
Record Parsed : Type := {
  p_success : bool;
  p_output : jsval;
  p_error : jsval;
  p_logs : jsval
}.

Section Parse.
Context `{Builtins}.

Definition parse_stdout (stdout : text) (p : Parsed) : Parsed :=
  if match trim stdout with [] => true | _ => false end then p
  else
    match JSON_parse (str (json_line (trim stdout))) with
    | None =>
        {| p_success := p_success p; p_output := JStr (str (trim stdout));
           p_error := p_error p; p_logs := p_logs p |}
    | Some parsed =>
        if nullish parsed
        then (* [parsed.data] throws a TypeError *)
          {| p_success := p_success p; p_output := JStr (str (trim stdout));
             p_error := p_error p; p_logs := p_logs p |}
        else
          {| p_success := negb (is_false (get parsed "success"));
             p_output := Js.or (get parsed "data") parsed;
             p_error := if truthy (get parsed "error")
                        then get parsed "error" else p_error p;
             p_logs := Js.or (get parsed "logs") (JArr []) |}
    end.

Definition parse_stderr (stderr : text) (p : Parsed) : Parsed :=
  if match trim stderr with [] => true | _ => false end then p
  else
    match JSON_parse (str (json_line (trim stderr))) with
    | None =>
        {| p_success := p_success p; p_output := p_output p;
           p_error := JStr (str (trim stderr)); p_logs := p_logs p |}
    | Some parsedError =>
        if nullish parsedError
        then (* [success = false] ran, then [parsedError.error] throws *)
          {| p_success := false; p_output := p_output p;
             p_error := JStr (str (trim stderr)); p_logs := p_logs p |}
        else
          {| p_success := false; p_output := p_output p;
             p_error := Js.or (get parsedError "error") (JStr (str (trim stderr)));
             p_logs := Js.or (get parsedError "logs") (JArr []) |}
    end.

(** ** The harness of [wrapCode]

    [wrapCode(code)] is the program the container runs: it replaces
    [console.log] and [console.error] by functions that record the
    message in a [logs] array and then print through the original
    console, runs the code, and prints one JSON line: the result on
    stdout, or the error on stderr followed by [process.exit(1)].
    [console.warn] is left alone.  The script's console arguments are
    taken to be text, so that the printed line is the recorded message.
    Each intercepted call comes with the timestamp it was given. *)
Definition log_entry (kind message stamp : string) : jsval :=
  JObj [ ("type", JStr kind); ("message", JStr message); ("timestamp", JStr stamp) ].

Fixpoint harness_logs (calls : list (ConsoleCall * string)) : list jsval :=
  match calls with
  | [] => []
  | (ConsoleLog m, t) :: rest => log_entry "log" m t :: harness_logs rest
  | (ConsoleError m, t) :: rest => log_entry "error" m t :: harness_logs rest
  | (ConsoleWarn _, _) :: rest => harness_logs rest
  end.

(** What [console.log(s)] writes. *)
Definition line (s : string) : text := chars s ++ [newline].

Fixpoint printed_stdout (calls : list (ConsoleCall * string)) : text :=
  match calls with
  | [] => []
  | (ConsoleLog m, _) :: rest => line m ++ printed_stdout rest
  | _ :: rest => printed_stdout rest
  end.

Fixpoint printed_stderr (calls : list (ConsoleCall * string)) : text :=
  match calls with
  | [] => []
  | (ConsoleLog _, _) :: rest => printed_stderr rest
  | (ConsoleError m, _) :: rest => line m ++ printed_stderr rest
  | (ConsoleWarn m, _) :: rest => line m ++ printed_stderr rest
  end.

Record HarnessOracle : Type := {
  h_calls : list (ConsoleCall * string);
  h_completion : Completion;
  h_trace : text          (* what node prints for an uncaught exception *)
}.

(** The report the harness prints when the code threw. *)
Definition error_report (message logs : jsval) : jsval :=
  JObj [ ("success", JBool false); ("error", message); ("logs", logs) ].

(** The report the harness prints when the code returned. *)
Definition result_report (result logs : jsval) : jsval :=
  JObj [ ("success", JBool true); ("data", result); ("logs", logs) ].

(** The stream of the process that runs [wrapCode(code)]. *)
Definition wrapCode (o : HarnessOracle) : StreamOutcome :=
  let logs := JArr (harness_logs (h_calls o)) in
  match h_completion o with
  | Returned v =>
      StreamEnd
        (printed_stdout (h_calls o) ++ line (JSON_stringify (result_report v logs)))
        (printed_stderr (h_calls o))
        (inl 0)
  | Threw t =>
      match message_of t with
      | Some m =>
          StreamEnd
            (printed_stdout (h_calls o))
            (printed_stderr (h_calls o) ++ line (JSON_stringify (error_report m logs)))
            (inl 1)
      | None =>
          (* [error.message] throws inside the handler: uncaught *)
          StreamEnd (printed_stdout (h_calls o))
                    (printed_stderr (h_calls o) ++ h_trace o)
                    (inl 1)
      end
  end.

(** [executeCode(containerId, code, timeout)].  The program text does
    not influence the host side: what the container does with it is
    the oracle's [stream]. *)
Definition executeCode (containerId : string) (o : ExecOracle) : M RunResult :=
  data ← read (fun w => activeContainers w !! containerId);
  match data with
  | None => throw "CONTAINER_NOT_FOUND"
  | Some d =>
      modify (set_activeContainers
                (insert containerId {| createdAt := createdAt d;
                                       lastUsed := exec_time o |})) ;;
      docker_call (DExec containerId) ;;
      match exec_failure o with
      | Some e => throw e
      | None =>
          match stream o with
          | Deadline =>
              forceStopContainer containerId (kill_ok o) ;;
              throw "EXECUTION_TIMEOUT"
          | StreamError e => throw e
          | StreamEnd stdout stderr (inr e) => throw e
          | StreamEnd stdout stderr (inl code) =>
              let p0 := {| p_success := Z.eqb code 0; p_output := JNull;
                           p_error := JNull; p_logs := JArr [] |} in
              let p := parse_stderr stderr (parse_stdout stdout p0) in
              ret {| run_success := p_success p;
                     run_output := p_output p;
                     run_error := p_error p;
                     run_logs := p_logs p;
                     run_executionTime := end_time o - exec_time o;
                     run_exitCode := code |}
          end
      end
  end.
End Parse.

End DockerManager.

(* ===================================================================== *)
(** * CodeExecutor                                                        *)
(* ===================================================================== *)

Module CodeExecutor.

(** ** Validation *)

(** [require\(<q>name<q>\)] and [import\(<q>name<q>\)] with [q] any of
    the three quote characters. *)
Definition call_with_quoted (fn name : string) : pattern :=
  lit fn ++ lit "(" ++ [One quote] ++ lit name ++ [One quote] ++ lit ")".

Definition dangerousPatterns : list pattern :=
  [ call_with_quoted "require" "fs";
    call_with_quoted "require" "child_process";
    call_with_quoted "require" "os";
    lit "process.exit";
    lit "process.kill";
    lit "eval(";
    lit "Function(";
    lit "setTimeout(";
    lit "setInterval(";
    (* while\s*\(\s*true\s*\) *)
    lit "while" ++ [Many ws] ++ lit "(" ++ [Many ws] ++ lit "true"
      ++ [Many ws] ++ lit ")";
    (* for\s*\(\s*;\s*;\s*\) *)
    lit "for" ++ [Many ws] ++ lit "(" ++ [Many ws] ++ lit ";" ++ [Many ws]
      ++ lit ";" ++ [Many ws] ++ lit ")";
    call_with_quoted "import" "fs";
    call_with_quoted "import" "child_process" ].

Definition hasDangerousOperations (code : string) : bool :=
  existsb (fun p => test p (chars code)) dangerousPatterns.

(** [for\s*\(] and [while\s*\(] *)
Definition loopPatterns : list pattern :=
  [ lit "for" ++ [Many ws] ++ lit "(";
    lit "while" ++ [Many ws] ++ lit "(" ].

Definition loopCount (code : string) : nat :=
  fold_left (fun count p => (count + count_matches p (chars code))%nat)
            loopPatterns O.

Definition hasExcessiveLoops (code : string) : bool := Nat.ltb 5 (loopCount code).

Definition maxCodeLength : Z := 10000.

Definition isBlank (code : string) : bool :=
  match trim (chars code) with [] => true | _ => false end.

(** [validateCode(code)]: the first failing check throws its error. *)
Definition validations (code : string) : list (bool * string) :=
  [ (Z.ltb maxCodeLength (Z.of_nat (String.length code)), "CODE_TOO_LONG");
    (hasDangerousOperations code, "DANGEROUS_OPERATIONS_DETECTED");
    (hasExcessiveLoops code, "EXCESSIVE_LOOPS_DETECTED");
    (isBlank code, "EMPTY_CODE") ].

Fixpoint first_failure (vs : list (bool * string)) : outcome bool :=
  match vs with
  | [] => Return true
  | (check, err) :: rest => if check then Throw err else first_failure rest
  end.

Definition validateCode (code : string) : outcome bool :=
  first_failure (validations code).

(** ** Strategy selection *)

Definition complexPatterns : list pattern :=
  [ lit "async" ++ [One ws; Many ws] ++ lit "function";
    lit "await" ++ [One ws; Many ws];
    lit "Promise.";
    lit "setTimeout";
    lit "setInterval";
    lit "while" ++ [Many ws] ++ lit "(";
    (* for\s*\([^;]*;[^;]*;[^)]*\) *)
    lit "for" ++ [Many ws] ++ lit "("
      ++ [Many (other_than ";"); One (ci ";");
          Many (other_than ";"); One (ci ";");
          Many (other_than ")"); One (ci ")")];
    lit "JSON.parse";
    lit "JSON.stringify";
    lit "Math.random" ].

Definition hasComplexOperations (code : string) : bool :=
  existsb (fun p => test p (chars code)) complexPatterns.

Definition asyncPatterns : list pattern :=
  [ lit "async"; lit "await"; lit "Promise"; lit ".then("; lit ".catch(" ].

Definition hasAsyncOperations (code : string) : bool :=
  existsb (fun p => test p (chars code)) asyncPatterns.

Record ExecutionContext : Type := {
  code : string;
  timeout : Z;
  language : string;
  requireIsolation : bool;
  mockData : jsval;
  environment : jsval;
  request : jsval
}.

Definition shouldUseDocker (ctx : ExecutionContext) : bool :=
  negb (String.eqb (language ctx) "javascript")
  || hasComplexOperations (code ctx)
  || hasAsyncOperations (code ctx)
  || requireIsolation ctx.

(** A promise that has not been awaited.  It is an object of its own:
    reading a property of the value it will settle to off the promise
    gives [undefined]. *)
Inductive promise (A : Type) : Type :=
| Pending (settles_to : A).
Arguments Pending {A} settles_to.

Definition promise_property {A} (p : promise A) (name : string) : jsval :=
  JUndefined.

(** ** The vm2 strategy *)

(** The console substitute of [createSecureSandbox]: each call pushes
    one prefixed line on the sandbox's private [logs] array. *)
Definition console_line (c : ConsoleCall) : string :=
  match c with
  | ConsoleLog m => "LOG: " +:+ m
  | ConsoleError m => "ERROR: " +:+ m
  | ConsoleWarn m => "WARN: " +:+ m
  end.

Record VmOracle : Type := {
  vm_console : list ConsoleCall;    (* console calls made by the script *)
  vm_completion : Completion;
  vm_start : Z;
  vm_end : Z
}.

Definition executeWithVM2 (ctx : ExecutionContext) (o : VmOracle) : M ExecutionResult :=
  modify (set_sandboxLogs (fun l => l ++ map console_line (vm_console o))) ;;
  match vm_completion o with
  | Returned v =>
      ret {| success := true; output := v; error := JNull; logs := JArr [];
              executionTime := vm_end o - vm_start o; strategy := "vm2";
              containerId := None |}
  | Threw t =>
      match message_of t with
      | Some m =>
          ret {| success := false; output := JNull; error := m; logs := JArr [];
                  executionTime := vm_end o - vm_start o; strategy := "vm2";
                  containerId := None |}
      | None => throw "TypeError: Cannot read properties of null"
      end
  end.

(** [sandbox.getLogs()] *)
Definition getLogs : M (list string) := read sandboxLogs.

(** ** The Docker strategy *)

Record DockerOracle : Type := {
  d_create : DockerManager.CreateOracle;
  d_exec : DockerManager.ExecOracle;
  d_destroy : DockerManager.DestroyOracle;
  d_start : Z;
  d_end : Z
}.

(** Run [m] and hand its exception, if any, back as a value. *)
Definition attempt {A} (m : M A) : M (A + string) :=
  fun w => match m w with
           | (Return a, w') => (Return (inl a), w')
           | (Throw e, w') => (Return (inr e), w')
           end.

Section WithBuiltins.
Context `{Builtins}.

(** ** The program of the Docker strategy

    [wrapCodeForDocker(code)] is the text [executeWithDocker] hands to
    [dockerManager.executeCode], which wraps it once more in the
    harness of [wrapCode].  The inner program runs the code in a [try]:
    a returned value is written to stdout as the JSON text of a
    response, and what the code throws is caught and written to stderr
    as [Response.error(error.message, 500)], both without a line
    break.  Either way the inner program ends without a value, and the
    harness around it prints the report of a run that returned
    [undefined].  Only when reading [error.message] throws in the inner
    handler does the harness see an exception: the TypeError. *)

(** The message of the TypeError for [error.message] on [null] or
    [undefined]. *)
Definition type_error_message (t : Thrown) : string :=
  match t with
  | ThrownValue JUndefined => "Cannot read properties of undefined (reading 'message')"
  | _ => "Cannot read properties of null (reading 'message')"
  end.

(** The response the inner program writes for a returned value. *)
Definition formatted (result_ : jsval) : jsval :=
  if truthy result_
     && match result_ with JObj _ | JArr _ => true | _ => false end
     && truthy (get result_ "status") && truthy (get result_ "data")
  then result_
  else JObj [ ("status", JNum 200); ("data", result_) ].

(** What reaches stderr as JSON when the code threw. *)
Definition docker_error_report (t : Thrown) (logs_ : jsval) : jsval :=
  match message_of t with
  | Some m => JObj [ ("status", JNum 500); ("error", m) ]
  | None => DockerManager.error_report (JStr (type_error_message t)) logs_
  end.

(** The stream of the process that runs
    [wrapCode(wrapCodeForDocker(code, context))]. *)
Definition wrapCodeForDocker (o : DockerManager.HarnessOracle)
  : DockerManager.StreamOutcome :=
  let calls := DockerManager.h_calls o in
  let logs_ := JArr (DockerManager.harness_logs calls) in
  let done := DockerManager.line
                (JSON_stringify (DockerManager.result_report JUndefined logs_)) in
  match DockerManager.h_completion o with
  | Returned v =>
      DockerManager.StreamEnd
        (DockerManager.printed_stdout calls
           ++ chars (JSON_stringify (formatted v)) ++ done)
        (DockerManager.printed_stderr calls)
        (inl 0)
  | Threw t =>
      match message_of t with
      | Some _ =>
          DockerManager.StreamEnd
            (DockerManager.printed_stdout calls ++ done)
            (DockerManager.printed_stderr calls
               ++ chars (JSON_stringify (docker_error_report t logs_)))
            (inl 0)
      | None =>
          DockerManager.StreamEnd
            (DockerManager.printed_stdout calls)
            (DockerManager.printed_stderr calls
               ++ DockerManager.line (JSON_stringify (docker_error_report t logs_)))
            (inl 1)
      end
  end.

(** [parseDockerOutput(output)] *)
Definition parseDockerOutput (output : jsval) : jsval :=
  if negb (truthy output) then JNull
  else match JSON_parse (toString output) with
       | Some v => v
       | None => output
       end.

(** [executeWithDocker(executionContext)].  [containerId] is assigned
    only when [createContainer] resolves, so the [finally] block
    destroys exactly in that case. *)
Definition executeWithDocker (ctx : ExecutionContext) (o : DockerOracle)
  : M ExecutionResult :=
  created ← attempt (DockerManager.createContainer (language ctx) (d_create o));
  match created with
  | inr e => throw ("DOCKER_EXECUTION_FAILED: " +:+ e)
  | inl id =>
      try_finally
        (try_catch
           (r ← DockerManager.executeCode id (d_exec o);
            ret {| success := run_success r;
                    output := parseDockerOutput (run_output r);
                    error := run_error r;
                    logs := Js.or (run_logs r) (JArr []);
                    executionTime := d_end o - d_start o;
                    strategy := "docker";
                    containerId := Some id |})
           (fun e => throw ("DOCKER_EXECUTION_FAILED: " +:+ e)))
        (if String.eqb id "" then ret tt
         else DockerManager.destroyContainer id (d_destroy o))
  end.

(** [await dockerManager.healthCheck().status === 'HEALTHY']:
    [.status] is read off the promise [healthCheck()] returns, the
    [await] applies to that property, and the comparison to the
    awaited value. *)
Definition healthyGuard (info_ok : bool) : M bool :=
  report ← DockerManager.healthCheck info_ok;
  ret (is_string (promise_property (Pending report) "status") "HEALTHY").

Record AutoOracle : Type := {
  a_info_ok : bool;
  a_docker : DockerOracle;
  a_vm : VmOracle
}.

(** [autoExecute(executionContext)]; the guard is
    [shouldUseDocker && healthyGuard], short-circuiting. *)
Definition autoExecute (ctx : ExecutionContext) (o : AutoOracle) : M ExecutionResult :=
  useDocker ←
    (if shouldUseDocker ctx then healthyGuard (a_info_ok o) else ret false);
  if (useDocker : bool)
  then try_catch (executeWithDocker ctx (a_docker o))
                 (fun _ => executeWithVM2 ctx (a_vm o))
  else executeWithVM2 ctx (a_vm o).

(** ** The result cache *)

Definition cacheTTL : Z := 30000.

Definition generateCacheKey (ctx : ExecutionContext) : string :=
  base64 (code ctx +:+ JSON_stringify (mockData ctx)
            +:+ JSON_stringify (environment ctx)
            +:+ JSON_stringify (request ctx)).

Record ExecuteOracle : Type := {
  x_check : Z;                (* Date.now() at the cache lookup *)
  x_run : AutoOracle;
  x_store : Z                 (* Date.now() when the result is stored *)
}.

(** [executeCode(strategy, executionContext)] *)
Definition executeCode (strategy_ : string) (ctx : ExecutionContext)
    (o : ExecuteOracle) : M ExecutionResult :=
  let cacheKey := generateCacheKey ctx in
  cached ← read (fun w => executionCache w !! cacheKey);
  let run : M ExecutionResult :=
    r ← (if String.eqb strategy_ "docker"
         then executeWithDocker ctx (a_docker (x_run o))
         else if String.eqb strategy_ "vm2"
         then executeWithVM2 ctx (a_vm (x_run o))
         else autoExecute ctx (x_run o));
    (if success r
     then modify (set_executionCache
                    (insert cacheKey {| result := r; timestamp := x_store o |}))
     else ret tt) ;;
    ret r in
  match cached with
  | Some entry =>
      if Z.ltb (x_check o - timestamp entry) cacheTTL
      then ret (result entry)
      else run
  | None => run
  end.

(** [cleanupCache()] at time [now] *)
Definition cleanupCache (now : Z) : M unit :=
  modify (set_executionCache
            (filter (fun kv => ~ (now - timestamp kv.2 > cacheTTL)))).

(** [destroy()] *)
Definition destroy : M unit :=
  modify (set_executionCache (fun _ => ∅)).

End WithBuiltins.

End CodeExecutor.

(* ===================================================================== *)
(** * MockDataService.saveFromExecution                                   *)
(* ===================================================================== *)

Module MockDataService.

Record SaveOracle : Type := {
  update_ok : bool               (* prisma.mockDataCollection.update resolves *)
}.

(** The edit test for a user id that is a string: the owner, or a
    collaborator row of that user with [canEdit]. *)
Definition canEditCollection (p : Project) (userId : string) : bool :=
  String.eqb (ownerId p) userId
  || existsb canEdit
       (List.filter (fun c => String.eqb (collab_userId c) userId) (collaborators p)).

(** [collection.project.ownerId === userId ||
     collection.project.collaborators.some(collab => collab.canEdit === true)]
    where the query has kept the collaborator rows whose user id
    [selected] admits. *)
Definition canEditWith (p : Project) (userId : jsval) (selected : string -> bool)
  : bool :=
  match userId with
  | JStr uid => String.eqb (ownerId p) uid
  | _ => false
  end
  || existsb canEdit
       (List.filter (fun c => selected (collab_userId c)) (collaborators p)).

Fixpoint join_errors (errs : list string) : string :=
  match errs with
  | [] => ""
  | [e] => e
  | e :: rest => e +:+ ", " +:+ join_errors rest
  end.

Definition items_length (data : jsval) : nat :=
  match data with JArr items => length items | _ => O end.

Section WithBuiltins.
Context `{Builtins}.

(** How Prisma reads [collaborators: { where: { userId: userId } }] in
    the query for the collection: a string selects the rows of that
    user, [undefined] drops the filter and selects every row, and any
    other value is a filter object or a validation error. *)
Definition collaboratorsWhere (userId : jsval) : option (string -> bool) :=
  match userId with
  | JStr uid => Some (fun u => String.eqb u uid)
  | JUndefined => Some (fun _ => true)
  | v => prisma_userId_filter v
  end.

(** [saveFromExecution(collectionId, data, userId, executionContext)].
    The collection id is the argument of [findUnique], which must be
    a string; the user id only enters the nested filter on the
    collaborators.  The save log that follows the update swallows its
    own failures and is left out. *)
Definition saveFromExecution (collectionId data userId executionContext : jsval)
    (o : SaveOracle) : M jsval :=
  match collectionId, collaboratorsWhere userId with
  | JStr cid, Some selected =>
      found ← read (fun w => mockDataCollections w !! cid);
      match found with
      | None => throw "COLLECTION_NOT_FOUND"
      | Some c =>
          if negb (canEditWith (col_project c) userId selected)
          then throw "COLLECTION_EDIT_ACCESS_DENIED"
          else if negb (isArray data)
          then throw "DATA_MUST_BE_ARRAY"
          else
            (if truthy (col_schema c)
             then match validateDataAgainstSchema data (col_schema c) with
                  | [] => ret tt
                  | errs => throw ("SCHEMA_VALIDATION_FAILED: " +:+ join_errors errs)
                  end
             else ret tt) ;;
            let version := (if Z.eqb (col_version c) 0 then 1 else col_version c) + 1 in
            let saveCount := col_saveCount c + 1 in
            (if update_ok o
             then modify (set_mockDataCollections
                            (insert cid {| col_name := col_name c;
                                           col_data := data;
                                           col_schema := col_schema c;
                                           col_version := version;
                                           col_saveCount := saveCount;
                                           col_lastSavedBy := userId;
                                           col_project := col_project c |}))
             else throw "prisma.mockDataCollection.update") ;;
            ret (JObj
              [ ("success", JBool true);
                ("message",
                  JStr ("Saved " +:+ num_to_string (Z.of_nat (items_length data))
                          +:+ " items to " +:+ col_name c));
                ("collection",
                  JObj [ ("id", JStr cid);
                         ("name", JStr (col_name c));
                         ("itemCount", JNum (Z.of_nat (items_length data)));
                         ("version", JNum version) ]);
                ("executionContext", executionContext);
                ("metadata",
                  JObj [ ("saveCount", JNum saveCount);
                         ("version", JNum version) ]) ])
      end
  | _, _ => throw "PrismaClientValidationError"
  end.
End WithBuiltins.

End MockDataService.

(* ===================================================================== *)
(** * SandboxService                                                      *)
(* ===================================================================== *)

Module SandboxService.

Definition maxExecutionsPerUser : Z := 1000.

(** [checkRateLimit(userId)] at time [now].  A stored counter object is
    mutated in place, so a reset survives even when the call throws. *)
Definition checkRateLimit (userId : string) (now : Z) : M unit :=
  stored ← read (fun w => executionStats w !! userId);
  let userStats :=
    match stored with
    | Some s => s
    | None => {| count := 0; resetTime := now + 3600000 |}
    end in
  let userStats :=
    if Z.ltb (resetTime userStats) now
    then {| count := 0; resetTime := now + 3600000 |}
    else userStats in
  (match stored with
   | Some _ => modify (set_executionStats (insert userId userStats))
   | None => ret tt
   end) ;;
  if Z.leb maxExecutionsPerUser (count userStats)
  then throw "RATE_LIMIT_EXCEEDED"
  else modify (set_executionStats
                 (insert userId {| count := count userStats + 1;
                                   resetTime := resetTime userStats |})).

(** [logExecution(logData)]: a failed write is swallowed. *)
Definition logExecution (r : LogRecord) (write_ok : bool) : M unit :=
  if write_ok then modify (set_executionLog (fun l => l ++ [r])) else ret tt.

(** The request body of [executeEndpoint]. *)
Record ExecutionData : Type := {
  body : jsval;
  query : jsval;
  params : jsval;
  headers : jsval;
  mockDataCollectionId : jsval;
  environmentId : jsval;
  timeout : Z
}.

(** What [executeEndpoint] returns. *)
Record Response : Type := {
  resp_success : bool;
  resp_data : jsval;
  resp_error : jsval;
  resp_logs : jsval;
  resp_executionTime : Z;
  resp_savedData : jsval
}.

Record RequestOracle : Type := {
  o_info_ok : bool;                       (* docker.info() resolves *)
  o_now : Z;                              (* Date.now() in checkRateLimit *)
  o_log_ok : bool;                        (* executionLog.create resolves *)
  o_start : Z;                            (* startTime *)
  o_create : DockerManager.CreateOracle;
  o_exec : DockerManager.ExecOracle;
  o_done : Z;                             (* Date.now() after the run *)
  o_save : MockDataService.SaveOracle;    (* the save directive *)
  o_queue : list MockDataService.SaveOracle;  (* queued saves, in order *)
  o_update_ok : bool;                     (* endpoint.update resolves *)
  o_called : Z;                           (* new Date() for lastCalled *)
  o_destroy : DockerManager.DestroyOracle
}.

(** The project comes from a [select] that lists id, name, ownerId,
    collaborators, mockData and environments; [visibility] is not
    selected, so [endpoint.project.visibility] is [undefined]. *)
Definition project_visibility (p : Project) : jsval := JUndefined.

Definition hasAccess (p : Project) (userId : string) : bool :=
  String.eqb (ownerId p) userId
  || negb (Nat.eqb (length (List.filter (fun c => String.eqb (collab_userId c) userId)
                                        (collaborators p))) O)
  || is_string (project_visibility p) "PUBLIC".

(** The [completeSaveOp] object: the directive reported by the sandbox
    with four identifiers defaulted from the request. *)
Definition completeSaveOp (saveOp : jsval) (mockDataCollectionId : jsval)
    (endpointId userId projectId : string) : jsval :=
  let o1 := with_field saveOp "collectionId"
              (Js.or (get saveOp "collectionId") mockDataCollectionId) in
  let o2 := with_field o1 "endpointId"
              (Js.or (get saveOp "endpointId") (JStr endpointId)) in
  let o3 := with_field o2 "userId"
              (Js.or (get saveOp "userId") (JStr userId)) in
  with_field o3 "projectId" (Js.or (get saveOp "projectId") (JStr projectId)).

(** [savedData] of the response *)
Definition savedData (saveResults : list jsval) : jsval :=
  match saveResults with
  | [] => JNull
  | _ => JObj [ ("count", JNum (Z.of_nat (length saveResults)));
                ("results", JArr saveResults) ]
  end.

Section WithBuiltins.
Context `{Builtins}.

(** [parseOutput(output)] *)
Definition parseOutput (output : jsval) : jsval :=
  if negb (truthy output) then JNull
  else match JSON_parse (toString output) with
       | Some v => v
       | None => output
       end.

(** The block that looks for [output.data._saveOperation]; it yields
    the save results it pushed.  Any exception inside it is logged to
    the console and dropped. *)
Definition applySaveDirective (endpointId userId : string) (ep : Endpoint)
    (data : ExecutionData) (executionResult : RunResult)
    (o : MockDataService.SaveOracle) : M (list jsval) :=
  try_catch
    (let output := parseOutput (run_output executionResult) in
     if truthy output && truthy (get output "data")
        && truthy (get (get output "data") "_saveOperation")
     then
       let saveOp := get (get output "data") "_saveOperation" in
       let op := completeSaveOp saveOp (mockDataCollectionId data)
                   endpointId userId (ep_projectId ep) in
       (* console.log reads [completeSaveOp.data.length] *)
       (if nullish (get op "data")
        then throw "TypeError: Cannot read properties of undefined"
        else ret tt) ;;
       saveResult ← MockDataService.saveFromExecution
                      (get op "collectionId") (get op "data") (get op "userId")
                      (JObj [ ("endpointId", get op "endpointId");
                              ("executionId", get op "executionId") ]) o;
       ret [saveResult]
     else ret [])
    (fun _ => ret []).

(** The loop over [saveQueue.get(containerId)]: a failing save is
    recorded as an unsuccessful entry of the save results. *)
Fixpoint processQueue (userId : string) (pending : list jsval)
    (os : list MockDataService.SaveOracle) : M (list jsval) :=
  match pending with
  | [] => ret []
  | saveOp :: rest =>
      let o := match os with
               | o :: _ => o
               | [] => {| MockDataService.update_ok := true |}
               end in
      r ← try_catch
            ((if nullish (get saveOp "data")
              then throw "TypeError: Cannot read properties of undefined"
              else ret tt) ;;
             MockDataService.saveFromExecution
               (get saveOp "collectionId") (get saveOp "data") (JStr userId)
               (JObj [ ("endpointId", get saveOp "endpointId");
                       ("executionId", get saveOp "executionId") ]) o)
            (fun e => ret (JObj [ ("success", JBool false);
                                  ("error", JStr e);
                                  ("collectionName", get saveOp "collectionName") ]));
      rs ← processQueue userId rest (tl os);
      ret (r :: rs)
  end.

Definition processSaveQueue (userId containerId : string)
    (os : list MockDataService.SaveOracle) : M (list jsval) :=
  queued ← read (fun w => saveQueue w !! containerId);
  match queued with
  | None => ret []
  | Some pending =>
      rs ← processQueue userId pending os;
      modify (set_saveQueue (delete containerId)) ;;
      ret rs
  end.

Definition log_record (endpointId userId : string) (statusCode : Z)
    (responseBody err : jsval) (sandboxId : option string)
    (pendingSaves : option nat) : LogRecord :=
  {| log_endpointId := endpointId; log_userId := userId;
     log_statusCode := statusCode; log_responseBody := responseBody;
     log_error := err; log_sandboxId := sandboxId;
     log_pendingSaves := pendingSaves |}.

(** The part of the [try] block that follows [createContainer]. *)
Definition runAndRespond (endpointId userId : string) (ep : Endpoint)
    (data : ExecutionData) (o : RequestOracle) (containerId : string)
  : M Response :=
  executionResult ← DockerManager.executeCode containerId (o_exec o);
  let executionTime := o_done o - o_start o in
  saved1 ← applySaveDirective endpointId userId ep data executionResult (o_save o);
  saved2 ← processSaveQueue userId containerId (o_queue o);
  let saveResults := saved1 ++ saved2 in
  logExecution
    (log_record endpointId userId
       (if run_success executionResult then 200 else 500)
       (if run_success executionResult then run_output executionResult else JNull)
       (if run_success executionResult then JNull else run_error executionResult)
       (Some containerId) (Some (length saveResults)))
    (o_log_ok o) ;;
  (* prisma.endpoint.update: callCount { increment: 1 }, lastCalled *)
  (if o_update_ok o
   then modify (set_endpoints
                  (insert endpointId
                     {| ep_code := ep_code ep; ep_method := ep_method ep;
                        ep_path := ep_path ep; ep_projectId := ep_projectId ep;
                        ep_project := ep_project ep;
                        callCount := callCount ep + 1;
                        lastCalled := Some (o_called o) |}))
   else throw "prisma.endpoint.update") ;;
  ret {| resp_success := run_success executionResult;
         resp_data := if run_success executionResult
                      then parseOutput (run_output executionResult) else JNull;
         resp_error := run_error executionResult;
         resp_logs := Js.or (run_logs executionResult) (JArr []);
         resp_executionTime := executionTime;
         resp_savedData := savedData saveResults |}.

(** [executeEndpoint(endpointId, userId, executionData)] *)
Definition executeEndpoint (endpointId userId : string) (data : ExecutionData)
    (o : RequestOracle) : M Response :=
  DockerManager.healthCheck (o_info_ok o) ;;
  checkRateLimit userId (o_now o) ;;
  found ← read (fun w => endpoints w !! endpointId);
  match found with
  | None => throw "ENDPOINT_NOT_FOUND"
  | Some ep =>
      if negb (hasAccess (ep_project ep) userId)
      then throw "ENDPOINT_ACCESS_DENIED"
      else
        match CodeExecutor.validateCode (ep_code ep) with
        | Throw e =>
            logExecution
              (log_record endpointId userId 400 JNull
                 (JStr ("SANDBOX_VALIDATION_FAILED: " +:+ e)) None None)
              (o_log_ok o) ;;
            throw ("SANDBOX_VALIDATION_FAILED: " +:+ e)
        | Return _ =>
            created ← CodeExecutor.attempt
                        (DockerManager.createContainer "node" (o_create o));
            match created with
            | inr e =>
                logExecution
                  (log_record endpointId userId 500 JNull (JStr e) None None)
                  (o_log_ok o) ;;
                throw e
            | inl containerId =>
                try_finally
                  (try_catch
                     (runAndRespond endpointId userId ep data o containerId)
                     (fun e =>
                        logExecution
                          (log_record endpointId userId 500 JNull (JStr e)
                             (Some containerId) None)
                          (o_log_ok o) ;;
                        throw e))
                  (if String.eqb containerId "" then ret tt
                   else
                     modify (set_saveQueue (delete containerId)) ;;
                     DockerManager.destroyContainer containerId (o_destroy o))
            end
        end
  end.
End WithBuiltins.

End SandboxService.

(* ===================================================================== *)
(** * Overlapping calls of [createContainer]                              *)
(* ===================================================================== *)

Module Interleaving.
Import DockerManager.

(** [createContainer] suspends twice: at [await docker.createContainer]
    and at [await container.start()].  The code between two suspension
    points runs without interruption; at a suspension point any other
    call may run.  A call is therefore three atomic segments. *)
Inductive Phase : Type :=
| Called                          (* about to run the ceiling check *)
| AwaitingCreate                  (* check passed, daemon asked to create *)
| AwaitingStart (id : string)     (* created, daemon asked to start *)
| Resolved (id : string)
| Rejected (message : string).

Record Call : Type := {
  phase : Phase;
  language : string;
  oracle : CreateOracle
}.

Definition at_phase (c : Call) (p : Phase) : Call :=
  {| phase := p; language := language c; oracle := oracle c |}.

(** Run the next segment of one call. *)
Definition segment (c : Call) (w : World) : Call * World :=
  match phase c with
  | Called =>
      if Nat.leb (maxContainers w) (size (activeContainers w))
      then (at_phase c (Rejected "CONTAINER_LIMIT_EXCEEDED"), w)
      else (at_phase c AwaitingCreate,
            set_dockerCalls
              (fun l => l ++ [DCreate (getImageForLanguage (language c))]) w)
  | AwaitingCreate =>
      match create_outcome (oracle c) with
      | CreateFailed => (at_phase c (Rejected "CONTAINER_CREATION_FAILED"), w)
      | StartFailed id | Started id =>
          (at_phase c (AwaitingStart id),
           set_dockerCalls (fun l => l ++ [DStart id]) w)
      end
  | AwaitingStart id =>
      match create_outcome (oracle c) with
      | Started _ =>
          (at_phase c (Resolved id),
           set_activeContainers
             (insert id {| createdAt := create_time (oracle c);
                           lastUsed := create_time (oracle c) |}) w)
      | _ => (at_phase c (Rejected "CONTAINER_CREATION_FAILED"), w)
      end
  | Resolved _ | Rejected _ => (c, w)
  end.

(** The event loop picks call number [i] and runs its next segment. *)
Definition step (i : nat) (st : list Call * World) : list Call * World :=
  match fst st !! i with
  | None => st
  | Some c =>
      let '(c', w') := segment c (snd st) in
      (<[i := c']> (fst st), w')
  end.

Definition run (schedule : list nat) (st : list Call * World) : list Call * World :=
  fold_left (fun s i => step i s) schedule st.

(** What the finished call hands to its caller. *)
Definition settled (c : Call) : option (outcome string) :=
  match phase c with
  | Resolved id => Some (Return id)
  | Rejected e => Some (Throw e)
  | _ => None
  end.

Definition new_call (lang id : string) (now : Z) : Call :=
  {| phase := Called; language := lang;
     oracle := {| create_outcome := Started id; create_time := now |} |}.

End Interleaving.

(* ===================================================================== *)
(** * Vocabulary of the properties                                        *)
(* ===================================================================== *)

Module Props.
Import CodeExecutor SandboxService.

(** [lit] occurs in [code]. *)
Definition occurs (lit_ : string) (code_ : string) : Prop :=
  exists pre post : string, code_ = pre +:+ lit_ +:+ post.

(** [fn(<q>name<q>)] occurs in [code], for quote characters [q]. *)
Definition occurs_quoted_call (fn name : string) (code_ : string) : Prop :=
  exists (pre post : string) (q1 q2 : ascii),
    quote q1 = true /\ quote q2 = true /\
    code_ = pre +:+ fn +:+ "(" +:+ String q1 name +:+ String q2 ")" +:+ post.

(** The error names a check that [code] really fails. *)
Definition names_offence (err : string) (code_ : string) : Prop :=
  (err = "CODE_TOO_LONG" /\ maxCodeLength < Z.of_nat (String.length code_))
  \/ (err = "DANGEROUS_OPERATIONS_DETECTED" /\ hasDangerousOperations code_ = true)
  \/ (err = "EXCESSIVE_LOOPS_DETECTED" /\ hasExcessiveLoops code_ = true).

(** The text is one line that starts with an opening brace and ends
    with a closing brace, as the JSON text of an object does. *)
Definition compact_object_text (s : string) : bool :=
  match chars s with
  | c :: _ => Ascii.eqb c "{"
  | [] => false
  end
  && match rev (chars s) with
     | c :: _ => Ascii.eqb c "}"
     | [] => false
     end
  && forallb (fun c => negb (Ascii.eqb c newline)) (chars s).

(** Console output is a sequence of complete lines. *)
Definition complete_lines (t : text) : Prop :=
  t = [] \/ exists t0, t = t0 ++ [newline].

(** Number of containers the daemon was asked to create. *)
Definition created_count (calls : list DockerCall) : nat :=
  length (List.filter (fun c => match c with DCreate _ => true | _ => false end) calls).

(** Every entry of the result cache is a successful result. *)
Definition cache_all_successful (w : World) : Prop :=
  forall k e, executionCache w !! k = Some e -> success (result e) = true.

(** [bump ep t]: the endpoint row after [callCount: { increment: 1 }],
    [lastCalled: t]. *)
Definition bump (ep : Endpoint) (t : Z) : Endpoint :=
  {| ep_code := ep_code ep; ep_method := ep_method ep; ep_path := ep_path ep;
     ep_projectId := ep_projectId ep; ep_project := ep_project ep;
     callCount := callCount ep + 1; lastCalled := Some t |}.

(** The result of a vm2 run whose script threw an [Error]. *)
Definition vm2_failure (m : string) (t0 t1 : Z) : ExecutionResult :=
  {| success := false; output := JNull; error := JStr m; logs := JArr [];
     executionTime := t1 - t0; strategy := "vm2"; containerId := None |}.

(** The computation [m] leaves the component [f] of the world as it
    found it, whether it returns or throws. *)
Definition keeps {A B} (f : World -> B) (m : M A) : Prop :=
  forall w, f (snd (m w)) = f w.

Section Reachable.
Context `{Builtins}.

(** States the [CodeExecutor] can be in: it starts with an empty
    cache, and the cache is touched by [executeCode], [cleanupCache]
    and [destroy] only. *)
Inductive reachable : World -> Prop :=
| reach_init w : executionCache w = ∅ -> reachable w
| reach_execute w s ctx o :
    reachable w -> reachable (snd (executeCode s ctx o w))
| reach_cleanup w now :
    reachable w -> reachable (snd (cleanupCache now w))
| reach_destroy w :
    reachable w -> reachable (snd (CodeExecutor.destroy w))
| reach_elsewhere w w' :
    (* anything the other services do: it leaves the cache alone *)
    reachable w -> executionCache w' = executionCache w -> reachable w'.

(** Any number of cache sweeps, at the given times. *)
Definition sweeps (times : list Z) (w : World) : World :=
  fold_left (fun w' t => snd (cleanupCache t w')) times w.
End Reachable.

End Props.

(* ===================================================================== *)
(** * Concrete hosts, worlds and oracles for the examples                 *)
(* ===================================================================== *)

Module Scenario.
Import DockerManager CodeExecutor MockDataService SandboxService.

Definition quoted (s : string) : string :=
  String dquote s +:+ String dquote "".

(** JSON text of a value (strings are printed without escapes, which
    the examples do not need). *)
Fixpoint stringify (v : jsval) : string :=
  match v with
  | JUndefined | JNull => "null"
  | JBool true => "true"
  | JBool false => "false"
  | JNum n => num_to_string n
  | JStr s => quoted s
  | JArr items =>
      "[" +:+ (fix go (l : list jsval) : string :=
                 match l with
                 | [] => ""
                 | [x] => stringify x
                 | x :: rest => stringify x +:+ "," +:+ go rest
                 end) items +:+ "]"
  | JObj fields =>
      "{" +:+ (fix go (l : list (string * jsval)) : string :=
                 match l with
                 | [] => ""
                 | [(k, x)] => quoted k +:+ ":" +:+ stringify x
                 | (k, x) :: rest =>
                     quoted k +:+ ":" +:+ stringify x +:+ "," +:+ go rest
                 end) fields +:+ "}"
  end.

(** The filter objects the examples use: [{ equals: s }] and
    [{ not: s }]. *)
Definition string_filter (v : jsval) : option (string -> bool) :=
  match v with
  | JObj [(k, JStr s)] =>
      if String.eqb k "equals" then Some (fun u => String.eqb u s)
      else if String.eqb k "not" then Some (fun u => negb (String.eqb u s))
      else None
  | _ => None
  end.

(** A host whose [JSON.parse] recognises the JSON text of the listed
    values and rejects every other text. *)
Definition host (known : list jsval) : Builtins :=
  {| JSON_parse := fun s => List.find (fun v => String.eqb (stringify v) s) known;
     JSON_stringify := stringify;
     base64 := fun s => s;
     validateDataAgainstSchema := fun _ _ => [];
     prisma_userId_filter := string_filter |}.

Definition alice : string := "user_alice".

Definition project1 : Project :=
  {| project_id := "proj_1"; ownerId := alice; collaborators := [] |}.

Definition endpoint1 (code_ : string) : Endpoint :=
  {| ep_code := code_; ep_method := "GET"; ep_path := "/items";
     ep_projectId := "proj_1"; ep_project := project1;
     callCount := 7; lastCalled := None |}.

Definition collection (name : string) (items : list jsval) : Collection :=
  {| col_name := name; col_data := JArr items; col_schema := JNull;
     col_version := 1; col_saveCount := 0; col_lastSavedBy := JNull;
     col_project := project1 |}.

Definition world0 (ceiling : nat) : World :=
  {| activeContainers := ∅; maxContainers := ceiling; dockerCalls := [];
     executionCache := ∅; sandboxLogs := [];
     executionStats := ∅; saveQueue := ∅;
     endpoints := ∅; mockDataCollections := ∅; executionLog := [] |}.

(** One endpoint, two collections of the same project. *)
Definition world1 (code_ : string) : World :=
  set_endpoints (insert "ep_1" (endpoint1 code_))
    (set_mockDataCollections
       (fun m => <["col_A" := collection "orders" [JNum 1]]>
                   (<["col_B" := collection "users" [JNum 2]]> m))
       (world0 10)).

Definition request (collectionId : jsval) : ExecutionData :=
  {| body := JObj []; query := JObj []; params := JObj []; headers := JObj [];
     mockDataCollectionId := collectionId; environmentId := JUndefined;
     timeout := 5000 |}.

Definition create_ok (id : string) : CreateOracle :=
  {| create_outcome := Started id; create_time := 1000 |}.

Definition exec_with (s : StreamOutcome) (kill : bool) : ExecOracle :=
  {| exec_time := 1001; exec_failure := None; stream := s;
     kill_ok := kill; end_time := 1040 |}.

Definition destroy_ok : DestroyOracle := {| stop_ok := true; remove_ok := true |}.

Definition oracle1 (s : StreamOutcome) : RequestOracle :=
  {| o_info_ok := true; o_now := 900; o_log_ok := true; o_start := 950;
     o_create := create_ok "c1"; o_exec := exec_with s true; o_done := 1050;
     o_save := {| update_ok := true |}; o_queue := [];
     o_update_ok := true; o_called := 1060; o_destroy := destroy_ok |}.

(** The line the container harness prints for a returned value. *)
Definition harness_payload (result_ : jsval) : jsval :=
  JObj [ ("success", JBool true); ("data", result_); ("logs", JArr []) ].

Definition stdout_of (payload : jsval) : text :=
  chars (stringify payload) ++ [newline].

(** A save directive for [collectionId] carrying [items], wrapped the
    way the orchestrator looks for it. *)
Definition directive (collectionId : jsval) (items : list jsval) : jsval :=
  JObj [ ("type", JStr "save_mock_data");
         ("collectionId", collectionId);
         ("collectionName", JStr "users");
         ("data", JArr items);
         ("executionId", JStr "exec_1") ].

Definition returns_directive (d : jsval) : jsval :=
  JObj [ ("status", JNum 200);
         ("data", JObj [ ("success", JBool true); ("_saveOperation", d) ]) ].

Definition vm_oracle (console : list ConsoleCall) (c : Completion) : VmOracle :=
  {| vm_console := console; vm_completion := c; vm_start := 10; vm_end := 25 |}.

Definition context (code_ lang : string) (isolate : bool) : ExecutionContext :=
  {| code := code_; CodeExecutor.timeout := 5000; language := lang;
     requireIsolation := isolate; mockData := JObj []; environment := JObj [];
     CodeExecutor.request := JObj [] |}.

Definition docker_oracle (s : StreamOutcome) : DockerOracle :=
  {| d_create := create_ok "c1"; d_exec := exec_with s true;
     d_destroy := destroy_ok; d_start := 1000; d_end := 1050 |}.

(** A registry that holds the single container [c1]. *)
Definition one_container : World :=
  set_activeContainers (insert "c1" {| createdAt := 1000; lastUsed := 1000 |})
    (world0 10).

(** Calls of [createContainer] that are in flight together, one per
    container id the daemon will hand out. *)
Definition calls_for (ids : list string) : list Interleaving.Call :=
  map (fun id => Interleaving.new_call "node" id 1000) ids.

(** The schedule in which each of [n] calls runs up to its first
    suspension point before any of them is resumed, and so on. *)
Definition round_robin (n : nat) : list nat := seq 0 n ++ seq 0 n ++ seq 0 n.

Definition eleven_ids : list string :=
  [ "c1"; "c2"; "c3"; "c4"; "c5"; "c6"; "c7"; "c8"; "c9"; "c10"; "c11" ].

(** Sixty thousand characters of code. *)
Definition long_code : string :=
  string_of_list_ascii (repeat "a"%char (Z.to_nat 60000)).

Definition execute_oracle (info : bool) (s : StreamOutcome) (c : Completion)
    (t_check t_store : Z) : ExecuteOracle :=
  {| x_check := t_check;
     x_run := {| a_info_ok := info; a_docker := docker_oracle s;
                 a_vm := vm_oracle [] c |};
     x_store := t_store |}.

End Scenario.

(* ===================================================================== *)
(** * DockerManager.cleanupOldContainers                                  *)
(* ===================================================================== *)

Module Maintenance.
Import DockerManager.

(** [now - data.lastUsed > maxAge] *)
Definition expired (now maxAge : Z) (d : ContainerData) : bool :=
  Z.ltb maxAge (now - lastUsed d).

(** The ids collected in [toRemove].  The registry is walked in the
    order of the map; which order that is does not matter for what the
    registry holds afterwards. *)
Definition toRemove (now maxAge : Z) (w : World) : list string :=
  map fst (List.filter (fun kv => expired now maxAge (snd kv))
                       (map_to_list (activeContainers w))).

(** [for (const containerId of toRemove) await this.destroyContainer(containerId)];
    [o] tells how the daemon answers for each container. *)
Fixpoint destroyAll (ids : list string) (o : string -> DestroyOracle) : M unit :=
  match ids with
  | [] => ret tt
  | id :: rest => destroyContainer id (o id) ;; destroyAll rest o
  end.

(** [cleanupOldContainers(maxAge)] at time [now] *)
Definition cleanupOldContainers (maxAge now : Z) (o : string -> DestroyOracle) : M unit :=
  ids ← read (toRemove now maxAge);
  destroyAll ids o.

End Maintenance.

(* ===================================================================== *)
(** * SandboxService: health and history                                  *)
(* ===================================================================== *)

Module Monitoring.
Import SandboxService.

(** What [SandboxService.healthCheck] returns. *)
Record SandboxHealth : Type := {
  sh_status : string;
  sh_activeContainers : nat;
  sh_maxContainers : nat;
  sh_totalUsers : nat;
  sh_totalExecutions : Z;
  sh_rateLimit : Z;
  sh_pendingSaves : nat
}.

(** [Array.from(executionStats.values()).reduce((sum, s) => sum + s.count, 0)] *)
Definition totalExecutions (stats : gmap string UserStats) : Z :=
  map_fold (fun _ s sum => sum + count s) 0 stats.

(** [healthCheck()].  The UNHEALTHY report of the container manager has
    no [containers] field, so reading [dockerHealth.containers.total]
    throws. *)
Definition healthCheck (info_ok : bool) : M SandboxHealth :=
  dockerHealth ← DockerManager.healthCheck info_ok;
  stats ← read executionStats;
  pending ← read (fun w => size (saveQueue w));
  if String.eqb (DockerManager.status dockerHealth) "HEALTHY"
  then ret {| sh_status := DockerManager.status dockerHealth;
              sh_activeContainers := DockerManager.containers_total dockerHealth;
              sh_maxContainers := DockerManager.containers_max dockerHealth;
              sh_totalUsers := size stats;
              sh_totalExecutions := totalExecutions stats;
              sh_rateLimit := maxExecutionsPerUser;
              sh_pendingSaves := pending |}
  else throw "TypeError: Cannot read properties of undefined".

(** The fields of a log row that the history query selects and the log
    model carries. *)
Record HistoryEntry : Type := {
  he_statusCode : Z;
  he_error : jsval
}.

Definition history_entry (r : LogRecord) : HistoryEntry :=
  {| he_statusCode := log_statusCode r; he_error := log_error r |}.

(** [getExecutionHistory(endpointId, userId, limit)].  Rows are created
    in the order of the log, so [orderBy createdAt desc] lists the
    log backwards. *)
Definition getExecutionHistory (endpointId userId : string) (limit : nat)
  : M (list HistoryEntry) :=
  found ← read (fun w => endpoints w !! endpointId);
  match found with
  | None => throw "ACCESS_DENIED"
  | Some ep =>
      if negb (String.eqb (ownerId (ep_project ep)) userId)
         && Nat.eqb (length (List.filter
                               (fun c => String.eqb (collab_userId c) userId)
                               (collaborators (ep_project ep)))) O
      then throw "ACCESS_DENIED"
      else
        rows ← read executionLog;
        ret (map history_entry
               (firstn limit
                  (rev (List.filter
                          (fun r => String.eqb (log_endpointId r) endpointId)
                          rows))))
  end.

End Monitoring.

(* ===================================================================== *)
(** * The save helper bound into the execution context                    *)
(* ===================================================================== *)

Module ExecutionContextHelpers.




End ExecutionContextHelpers.

(* ===================================================================== *)
(** * The HTTP controller of the execute route                            *)
(* ===================================================================== *)

Module ExecuteController.
Import SandboxService.

(** What the controller sends. *)
Inductive HttpResponse : Type :=
| Ok200 (data : Response)                  (* res.json({success: true, data}) *)
| Bad400 (error message : string).         (* res.status(400).json({success: false, ...}) *)

(** [executeEndpoint(req, res)] of the controller: every exception of
    the service is answered with status 400 under one error label. *)
Definition respond (r : outcome Response) : HttpResponse :=
  match r with
  | Return result_ => Ok200 result_
  | Throw message => Bad400 "SANDBOX_VALIDATION_FAILED" message
  end.

End ExecuteController.

(* ===================================================================== *)
(** * More vocabulary                                                     *)
(* ===================================================================== *)

Module Props2.
Import CodeExecutor SandboxService.

(** Two texts are the same up to the case of ASCII letters. *)
Definition alike (t t' : text) : Prop := map to_lower t = map to_lower t'.

Definition same_up_to_case (a b : string) : Prop := alike (chars a) (chars b).

(** Two match results agree: both fail, or both succeed and leave
    texts that are the same up to case. *)
Definition alike_results (a b : option text) : Prop :=
  match a, b with
  | Some r, Some r' => alike r r'
  | None, None => True
  | _, _ => False
  end.

(** All characters of the text are white space. *)
Definition all_space (t : text) : bool := forallb is_space t.

(** [while (true)] and [for (;;)] with any text in the places where
    the patterns allow white space. *)
Definition endless_while (s1 s2 s3 : string) : string :=
  "while" +:+ s1 +:+ "(" +:+ s2 +:+ "true" +:+ s3 +:+ ")".

Definition endless_for (s1 s2 s3 s4 : string) : string :=
  "for" +:+ s1 +:+ "(" +:+ s2 +:+ ";" +:+ s3 +:+ ";" +:+ s4 +:+ ")".

Definition blank (s : string) : Prop := all_space (chars s) = true.

(** A run of [checkRateLimit] calls of one user at the given times. *)
Fixpoint rate_checks (userId : string) (times : list Z) (w : World)
  : list (outcome unit) * World :=
  match times with
  | [] => ([], w)
  | t :: rest =>
      let '(r, w1) := checkRateLimit userId t w in
      let '(rs, w2) := rate_checks userId rest w1 in
      (r :: rs, w2)
  end.

(** The verdict on the call number [i] (from 0) of a window that
    started with [used] executions on the counter. *)
Definition verdict (used : Z) (i : nat) : outcome unit :=
  if Z.ltb (used + Z.of_nat i) maxExecutionsPerUser
  then Return tt else Throw "RATE_LIMIT_EXCEEDED".

(** Classes that do not tell a letter from its lower-case form. *)
Definition case_blind (a : atom) : Prop :=
  match a with
  | One cls | Many cls => forall c, cls (to_lower c) = cls c
  end.

(** Patterns whose match must begin with a character that is not
    white space. *)
Definition starts_solid (p : pattern) : Prop :=
  match p with
  | One cls :: _ => forall c, is_space c = true -> cls c = false
  | _ => False
  end.

(** The script printed nothing on stderr. *)
Definition quiet (calls : list (ConsoleCall * string)) : Prop :=
  DockerManager.printed_stderr calls = [].

(** The run hit its deadline and the daemon killed the container. *)
Definition timed_out_and_killed (o : DockerManager.ExecOracle) : bool :=
  match DockerManager.exec_failure o, DockerManager.stream o with
  | None, DockerManager.Deadline => DockerManager.kill_ok o
  | _, _ => false
  end.

(** Calls about one container that take it down. *)
Definition takes_down (id : string) (c : DockerCall) : bool :=
  match c with
  | DKill id' | DStop id' | DRemove id' => String.eqb id' id
  | _ => false
  end.

(** The row of a collection after a save of [data] by [userId]. *)
(** The pattern of a loop head: the keyword, any white space, an
    opening parenthesis. *)
Definition head_pattern (kw : string) : pattern :=
  lit kw ++ [Many ws] ++ lit "(".

(** A loop head written with keyword [kw]. *)
Definition loop_head_of (kw : string) (h : text) : Prop :=
  exists s, all_space s = true /\ h = chars kw ++ s ++ chars "(".

(** A loop head: [for] or [while], white space if any, an opening
    parenthesis. *)
Definition loop_head (h : text) : Prop :=
  loop_head_of "for" h \/ loop_head_of "while" h.

(** The text holds [n] pieces of the given kind, one after another. *)
Fixpoint holds (piece : text -> Prop) (n : nat) (t : text) : Prop :=
  match n with
  | O => True
  | S n' => exists before h after,
      t = before ++ h ++ after /\ piece h /\ holds piece n' after
  end.

(** The code has [n] loop heads, in any letter case. *)
Definition loop_heads (n : nat) (code_ : string) : Prop :=
  exists lower, same_up_to_case code_ lower /\ holds loop_head n (chars lower).

(** No character of the text is the letter [k], in either case. *)
Definition avoids (k : ascii) (m : text) : Prop :=
  Forall (fun y => ci k y = false) m.

(** One of the spellings the deny-list has for filesystem access,
    [eval] and dynamic function construction, in any letter case. *)
Definition deny_listed (code_ : string) : Prop :=
  exists lower, same_up_to_case code_ lower
    /\ (Props.occurs_quoted_call "require" "fs" lower
        \/ Props.occurs_quoted_call "import" "fs" lower
        \/ Props.occurs "eval(" lower
        \/ Props.occurs "Function(" lower).

(** A call of [fn] as the language reads it: the name, white space if
    any, an opening parenthesis. *)
Definition calls (fn : string) (code_ : string) : Prop :=
  exists pre s post, blank s /\ code_ = pre +:+ fn +:+ s +:+ "(" +:+ post.

(** The counter of a user after one more admitted request at time
    [now]: a counter that is missing, or whose window has passed,
    starts again. *)
Definition charge (now : Z) (stored : option UserStats) : UserStats :=
  let fresh := {| count := 0; resetTime := now + 3600000 |} in
  let s := match stored with
           | Some s => if Z.ltb (resetTime s) now then fresh else s
           | None => fresh
           end in
  {| count := count s + 1; resetTime := resetTime s |}.

Definition saved_row (c : Collection) (data userId : jsval) : Collection :=
  {| col_name := col_name c;
     col_data := data;
     col_schema := col_schema c;
     col_version := (if Z.eqb (col_version c) 0 then 1 else col_version c) + 1;
     col_saveCount := col_saveCount c + 1;
     col_lastSavedBy := userId;
     col_project := col_project c |}.

End Props2.

(* ===================================================================== *)
(** * More worlds for the examples                                        *)
(* ===================================================================== *)

Module Examples.
Import DockerManager CodeExecutor MockDataService SandboxService.

(** The user has used up the quota of a window that closes at 10000. *)
Definition at_limit : World :=
  set_executionStats
    (insert Scenario.alice {| count := 1000; resetTime := 10000 |})
    (Scenario.world0 10).

(** A response that stands for "no response" in the examples. *)
Definition no_response : Response :=
  {| resp_success := false; resp_data := JUndefined; resp_error := JUndefined;
     resp_logs := JUndefined; resp_executionTime := 0;
     resp_savedData := JUndefined |}.

(** The daemon and the log work, the update of the endpoint row fails. *)
Definition update_fails (s : StreamOutcome) : RequestOracle :=
  {| o_info_ok := true; o_now := 900; o_log_ok := true; o_start := 950;
     o_create := Scenario.create_ok "c1"; o_exec := Scenario.exec_with s true;
     o_done := 1050; o_save := {| update_ok := true |}; o_queue := [];
     o_update_ok := false; o_called := 1060; o_destroy := Scenario.destroy_ok |}.

(** A project that [user_bob] may read but not edit, with one
    collection. *)
Definition shared_project : Project :=
  {| project_id := "proj_1"; ownerId := Scenario.alice;
     collaborators := [ {| collab_userId := "user_bob"; canEdit := false |} ] |}.

Definition shared_collection : Collection :=
  {| col_name := "orders"; col_data := JArr [JNum 1]; col_schema := JNull;
     col_version := 1; col_saveCount := 0; col_lastSavedBy := JNull;
     col_project := shared_project |}.

(** A collection of a project with one collaborator who may edit. *)
Definition team_collection : Collection :=
  {| col_name := "tasks"; col_data := JArr []; col_schema := JNull;
     col_version := 1; col_saveCount := 0; col_lastSavedBy := JNull;
     col_project :=
       {| project_id := "proj_2"; ownerId := Scenario.alice;
          collaborators := [ {| collab_userId := "user_carol"; canEdit := true |} ] |} |}.

Definition shared_endpoint : Endpoint :=
  {| ep_code := "return 1"; ep_method := "GET"; ep_path := "/items";
     ep_projectId := "proj_1"; ep_project := shared_project;
     callCount := 0; lastCalled := None |}.

Definition shared_world : World :=
  set_endpoints (insert "ep_1" shared_endpoint)
    (set_mockDataCollections (insert "col_S" shared_collection)
       (Scenario.world0 10)).

End Examples.

(* ===================================================================== *)
(** * Properties                                                          *)
(* ===================================================================== *)

(** ** Pattern matching *)

Module RegexFacts.

Lemma chars_app (a b : string) : chars (a +:+ b) = chars a ++ chars b.
Proof.
  unfold chars. induction a as [|c a IH]; simpl; [reflexivity|].
  now rewrite IH.
Qed.

Lemma ci_refl (c : ascii) : ci c c = true.
Proof. unfold ci. apply Ascii.eqb_refl. Qed.

Lemma match_here_one (cls : ascii -> bool) (c : ascii) (p : pattern) (t : text) :
  cls c = true -> match_here (One cls :: p) (c :: t) = match_here p t.
Proof. intros Hc. simpl. now rewrite Hc. Qed.

(** A literal matches its own text and hands over to the rest of the
    pattern. *)
Lemma match_here_lit (s : string) (p : pattern) (t : text) :
  match_here (lit s ++ p) (chars s ++ t) = match_here p t.
Proof.
  unfold lit, chars. induction s as [|c s IH]; [reflexivity|].
  cbn [list_ascii_of_string map app].
  rewrite match_here_one by apply ci_refl. exact IH.
Qed.

Lemma test_here (p : pattern) (t r : text) :
  match_here p t = Some r -> test p t = true.
Proof. intros Hm. destruct t; simpl; now rewrite Hm. Qed.

Lemma test_suffix (p : pattern) (pre t : text) :
  test p t = true -> test p (pre ++ t) = true.
Proof.
  intros Ht. induction pre as [|c pre IH]; [exact Ht|].
  cbn [app test]. destruct (match_here p (c :: pre ++ t)); [reflexivity|exact IH].
Qed.

(** A literal that occurs in the code is found by [test]. *)
Lemma test_lit_occurs (s : string) (code_ : string) :
  Props.occurs s code_ -> test (lit s) (chars code_) = true.
Proof.
  intros (pre & post & ->).
  rewrite chars_app. apply test_suffix. rewrite chars_app.
  apply test_here with (r := chars post).
  rewrite <- (app_nil_r (lit s)). now rewrite match_here_lit.
Qed.

Lemma test_quoted_call_occurs (fn name : string) (code_ : string) :
  Props.occurs_quoted_call fn name code_ ->
  test (CodeExecutor.call_with_quoted fn name) (chars code_) = true.
Proof.
  intros (pre & post & q1 & q2 & Hq1 & Hq2 & ->).
  rewrite chars_app. apply test_suffix.
  apply test_here with (r := chars post).
  unfold CodeExecutor.call_with_quoted.
  rewrite !chars_app.
  rewrite match_here_lit. rewrite match_here_lit.
  change (chars (String q1 name)) with (q1 :: chars name).
  cbn [app]. rewrite match_here_one by exact Hq1.
  rewrite match_here_lit.
  change (chars (String q2 ")")) with (q2 :: chars ")").
  cbn [app]. rewrite match_here_one by exact Hq2.
  rewrite <- (app_nil_r (lit ")")). now rewrite match_here_lit.
Qed.
End RegexFacts.

(** ** Running the monad step by step *)

Module MonadFacts.
Import Props.

Lemma bind_run {A B} (m : M A) (k : A -> M B) (w : World) :
  (m ≫= k) w = match m w with
               | (Return a, w') => k a w'
               | (Throw e, w') => (Throw e, w')
               end.
Proof. reflexivity. Qed.

Lemma bind_return {A B} (m : M A) (k : A -> M B) (w w' : World) (a : A) :
  m w = (Return a, w') -> (m ≫= k) w = k a w'.
Proof. intros Hm. rewrite bind_run, Hm. reflexivity. Qed.

Lemma bind_throw {A B} (m : M A) (k : A -> M B) (w w' : World) (e : string) :
  m w = (Throw e, w') -> (m ≫= k) w = (Throw e, w').
Proof. intros Hm. rewrite bind_run, Hm. reflexivity. Qed.

Lemma created_count_app (l1 l2 : list DockerCall) :
  created_count (l1 ++ l2) = (created_count l1 + created_count l2)%nat.
Proof.
  unfold created_count. rewrite List.filter_app, length_app. reflexivity.
Qed.

(** *** Frame rules *)

Section Keeps.
Context {B : Type} (f : World -> B).

Lemma keeps_ret {A} (a : A) : keeps f (ret a).
Proof. intros w. reflexivity. Qed.

Lemma keeps_throw {A} (e : string) : keeps f (@throw A e).
Proof. intros w. reflexivity. Qed.

Lemma keeps_read {A} (g : World -> A) : keeps f (read g).
Proof. intros w. reflexivity. Qed.

Lemma keeps_modify (g : World -> World) :
  (forall w, f (g w) = f w) -> keeps f (modify g).
Proof. intros Hg w. apply Hg. Qed.

Lemma keeps_bind {A C} (m : M A) (k : A -> M C) :
  keeps f m -> (forall a, keeps f (k a)) -> keeps f (m ≫= k).
Proof.
  intros Hm Hk w. rewrite bind_run. specialize (Hm w).
  destruct (m w) as [[a|e] w']; simpl in *; [|exact Hm].
  rewrite Hk. exact Hm.
Qed.

Lemma keeps_try_catch {A} (m : M A) (h : string -> M A) :
  keeps f m -> (forall e, keeps f (h e)) -> keeps f (try_catch m h).
Proof.
  intros Hm Hh w. unfold try_catch. specialize (Hm w).
  destruct (m w) as [[a|e] w']; simpl in *; [exact Hm|].
  rewrite Hh. exact Hm.
Qed.

Lemma keeps_try_finally {A} (m : M A) (g : M unit) :
  keeps f m -> keeps f g -> keeps f (try_finally m g).
Proof.
  intros Hm Hg w. unfold try_finally. specialize (Hm w).
  destruct (m w) as [r w']. specialize (Hg w').
  destruct (g w') as [[u|e] w'']; simpl in *; congruence.
Qed.

Lemma keeps_attempt {A} (m : M A) :
  keeps f m -> keeps f (CodeExecutor.attempt m).
Proof.
  intros Hm w. unfold CodeExecutor.attempt. specialize (Hm w).
  destruct (m w) as [[a|e] w']; exact Hm.
Qed.
End Keeps.

End MonadFacts.

(** ** What each operation leaves alone *)

Module FrameFacts.
Import Props MonadFacts DockerManager CodeExecutor MockDataService SandboxService.

Lemma healthCheck_run (info_ok : bool) (w : World) :
  exists h, healthCheck info_ok w
            = (Return h, set_dockerCalls (fun l => l ++ [DInfo]) w).
Proof. unfold healthCheck. destruct info_ok; eexists; reflexivity. Qed.

Lemma checkRateLimit_keeps {B} (f : World -> B) (userId : string) (now : Z) :
  (forall g w, f (set_executionStats g w) = f w) ->
  keeps f (checkRateLimit userId now).
Proof.
  intros Hf. unfold checkRateLimit.
  apply keeps_bind; [apply keeps_read|intros stored].
  apply keeps_bind.
  - destruct stored; [apply keeps_modify; intros; apply Hf|apply keeps_ret].
  - intros _. destruct (Z.leb _ _); [apply keeps_throw|].
    apply keeps_modify; intros; apply Hf.
Qed.

Lemma checkRateLimit_result (userId : string) (now : Z) (w : World) :
  fst (checkRateLimit userId now w) = Return tt
  \/ fst (checkRateLimit userId now w) = Throw "RATE_LIMIT_EXCEEDED".
Proof.
  unfold checkRateLimit. rewrite bind_run. unfold read.
  destruct (executionStats w !! userId) as [s|]; cbn beta iota zeta;
    rewrite bind_run; unfold modify, ret, throw;
    match goal with
    | |- context [if Z.leb ?a ?b then _ else _] => destruct (Z.leb a b)
    end; cbn; auto.
Qed.

Lemma logExecution_keeps {B} (f : World -> B) (r : LogRecord) (ok : bool) :
  (forall g w, f (set_executionLog g w) = f w) ->
  keeps f (logExecution r ok).
Proof.
  intros Hf. unfold logExecution. destruct ok; [|apply keeps_ret].
  apply keeps_modify; intros; apply Hf.
Qed.

Lemma logExecution_returns (r : LogRecord) (ok : bool) (w : World) :
  fst (logExecution r ok w) = Return tt.
Proof. unfold logExecution. destruct ok; reflexivity. Qed.

End FrameFacts.

(** ** Validation *)

Module ValidationFacts.
Import CodeExecutor SandboxService Props RegexFacts MonadFacts FrameFacts.

Lemma dangerous_of_pattern (p : pattern) (code_ : string) :
  In p dangerousPatterns -> test p (chars code_) = true ->
  hasDangerousOperations code_ = true.
Proof.
  intros Hin Ht. unfold hasDangerousOperations.
  apply existsb_exists. exists p. split; assumption.
Qed.

(** The checks run in order and the first one that fails decides the
    error. *)
Lemma validateCode_rejects (code_ : string) :
  maxCodeLength < Z.of_nat (String.length code_)
  \/ hasDangerousOperations code_ = true
  \/ hasExcessiveLoops code_ = true ->
  exists err, validateCode code_ = Throw err /\ names_offence err code_.
Proof.
  intros Hbad. unfold validateCode, validations, first_failure.
  destruct (Z.ltb_spec maxCodeLength (Z.of_nat (String.length code_))) as [Hlong|Hshort].
  { exists "CODE_TOO_LONG". split; [reflexivity|]. left. split; [reflexivity|exact Hlong]. }
  destruct (hasDangerousOperations code_) eqn:Hd.
  { exists "DANGEROUS_OPERATIONS_DETECTED". split; [reflexivity|].
    right; left. split; [reflexivity|exact Hd]. }
  destruct (hasExcessiveLoops code_) eqn:Hl.
  { exists "EXCESSIVE_LOOPS_DETECTED". split; [reflexivity|].
    right; right. split; [reflexivity|exact Hl]. }
  destruct Hbad as [H|[H|H]]; [lia|discriminate|discriminate].
Qed.

Section Orchestrator.
Context `{Builtins}.

(** A request whose endpoint code fails validation throws before the
    daemon is asked for a container. *)
Lemma executeEndpoint_invalid (endpointId userId : string) (data : ExecutionData)
    (o : RequestOracle) (w : World) (ep : Endpoint) (err : string) :
  endpoints w !! endpointId = Some ep ->
  validateCode (ep_code ep) = Throw err ->
  exists msg w',
    executeEndpoint endpointId userId data o w = (Throw msg, w') /\
    activeContainers w' = activeContainers w /\
    created_count (dockerCalls w') = created_count (dockerCalls w) /\
    (msg = "RATE_LIMIT_EXCEEDED" \/ msg = "ENDPOINT_ACCESS_DENIED"
     \/ msg = "SANDBOX_VALIDATION_FAILED: " +:+ err).
Proof.
  intros Hep Hval. unfold executeEndpoint.
  destruct (healthCheck_run (o_info_ok o) w) as [h Hh].
  rewrite (bind_return _ _ _ _ _ Hh).
  set (w0 := set_dockerCalls (fun l => l ++ [DInfo]) w).
  assert (Hcount0 : created_count (dockerCalls w0) = created_count (dockerCalls w)).
  { subst w0. cbn [dockerCalls set_dockerCalls]. rewrite created_count_app.
    change (created_count [DInfo]) with O. lia. }
  pose proof (checkRateLimit_keeps activeContainers userId (o_now o)
                (fun _ _ => eq_refl) w0) as Hac.
  pose proof (checkRateLimit_keeps dockerCalls userId (o_now o)
                (fun _ _ => eq_refl) w0) as Hdc.
  pose proof (checkRateLimit_keeps endpoints userId (o_now o)
                (fun _ _ => eq_refl) w0) as Hen.
  pose proof (checkRateLimit_result userId (o_now o) w0) as Hres.
  rewrite bind_run.
  destruct (checkRateLimit userId (o_now o) w0) as [r w1]. cbn [fst snd] in *.
  destruct Hres as [-> | ->].
  2:{ eexists; eexists. split; [reflexivity|].
      rewrite Hac, Hdc. auto. }
  rewrite bind_run. unfold read. rewrite Hen. subst w0. cbn [endpoints set_dockerCalls].
  rewrite Hep.
  destruct (negb (hasAccess (ep_project ep) userId)).
  { eexists; eexists. split; [reflexivity|]. rewrite Hac, Hdc. auto. }
  rewrite Hval. rewrite bind_run.
  unfold logExecution. destruct (o_log_ok o).
  - eexists; eexists. split; [reflexivity|]. cbn. rewrite Hac, Hdc. auto.
  - eexists; eexists. split; [reflexivity|]. cbn. rewrite Hac, Hdc. auto.
Qed.
End Orchestrator.
End ValidationFacts.

(** ** The container manager, one call at a time *)

Module LifecycleFacts.
Import Props MonadFacts DockerManager.

Lemma destroyContainer_returns (id : string) (o : DestroyOracle) (w : World) :
  fst (destroyContainer id o w) = Return tt.
Proof.
  unfold destroyContainer. rewrite bind_run. unfold read.
  destruct (activeContainers w !! id); [|reflexivity].
  unfold try_catch, docker_call. rewrite !bind_run. unfold modify, throw, ret.
  destruct (stop_ok o); [reflexivity|].
  destruct (remove_ok o); reflexivity.
Qed.

Lemma forceStopContainer_returns (id : string) (kill : bool) (w : World) :
  fst (forceStopContainer id kill w) = Return tt.
Proof.
  unfold forceStopContainer. rewrite bind_run. unfold read.
  destruct (activeContainers w !! id); [|reflexivity].
  unfold try_catch, docker_call. rewrite !bind_run. unfold modify, throw, ret.
  destruct kill; reflexivity.
Qed.

(** A creation below the ceiling that the daemon honours registers the
    container. *)
Lemma createContainer_started (lang id : string) (o : CreateOracle) (w : World) :
  (size (activeContainers w) < maxContainers w)%nat ->
  create_outcome o = Started id ->
  createContainer lang o w
  = (Return id,
     set_activeContainers
       (insert id {| createdAt := create_time o; lastUsed := create_time o |})
       (set_dockerCalls (fun l => (l ++ [DCreate (getImageForLanguage lang)]) ++ [DStart id])
          w)).
Proof.
  intros Hsize Hout.
  assert (Hle : Nat.leb (maxContainers w) (size (activeContainers w)) = false)
    by (apply Nat.leb_gt; exact Hsize).
  cbv [createContainer mbind M_bind bind read].
  rewrite Hle, Hout. reflexivity.
Qed.

Section Run.
Context `{Builtins}.

(** What [executeCode] resolves with when the stream ends. *)
Lemma executeCode_stream_end (id : string) (o : ExecOracle) (w : World)
    (d : ContainerData) (stdout stderr : text) (code : Z) :
  activeContainers w !! id = Some d ->
  exec_failure o = None ->
  stream o = StreamEnd stdout stderr (inl code) ->
  let p := parse_stderr stderr
             (parse_stdout stdout
                {| p_success := Z.eqb code 0; p_output := JNull;
                   p_error := JNull; p_logs := JArr [] |}) in
  executeCode id o w
  = (Return {| run_success := p_success p; run_output := p_output p;
               run_error := p_error p; run_logs := p_logs p;
               run_executionTime := end_time o - exec_time o;
               run_exitCode := code |},
     set_dockerCalls (fun l => l ++ [DExec id])
       (set_activeContainers
          (insert id {| createdAt := createdAt d; lastUsed := exec_time o |}) w)).
Proof.
  intros Hd Hfail Hstream p. unfold executeCode.
  rewrite bind_run. unfold read. rewrite Hd.
  unfold docker_call. rewrite !bind_run. unfold modify.
  rewrite Hfail, Hstream. reflexivity.
Qed.

(** A parsable report on stderr makes the run unsuccessful and
    supplies the error. *)
Lemma parse_stderr_report (stderr : text) (p : Parsed) (report : jsval) :
  trim stderr <> [] ->
  JSON_parse (str (json_line (trim stderr))) = Some report ->
  nullish report = false ->
  p_success (parse_stderr stderr p) = false /\
  p_error (parse_stderr stderr p)
  = Js.or (get report "error") (JStr (str (trim stderr))).
Proof.
  intros Hne Hparse Hnn. unfold parse_stderr.
  destruct (trim stderr) as [|c t] eqn:Ht; [congruence|].
  rewrite Hparse, Hnn. split; reflexivity.
Qed.
(** Any JSON value on stderr makes the run unsuccessful and leaves an
    error that is not empty. *)
Lemma parse_stderr_parsed (stderr : text) (p : Parsed) (parsed : jsval) :
  trim stderr <> [] ->
  JSON_parse (str (json_line (trim stderr))) = Some parsed ->
  p_success (parse_stderr stderr p) = false /\
  truthy (p_error (parse_stderr stderr p)) = true.
Proof.
  intros Hne Hparse. unfold parse_stderr.
  destruct (trim stderr) as [|c t] eqn:Ht; [congruence|].
  rewrite Hparse.
  destruct (nullish parsed); cbn [p_success p_error]; (split; [reflexivity|]).
  - reflexivity.
  - unfold Js.or. destruct (truthy (get parsed "error")) eqn:He; [exact He|reflexivity].
Qed.
End Run.

End LifecycleFacts.

(** ** Lines and trimming *)

Module TextFacts.
Import Props DockerManager.

Lemma newline_is_space : is_space newline = true.
Proof. reflexivity. Qed.

Lemma trim_start_spaces (pre t : text) :
  forallb is_space pre = true -> trim_start (pre ++ t) = trim_start t.
Proof.
  induction pre as [|c pre IH]; cbn; [reflexivity|].
  intros Hp. apply andb_true_iff in Hp. destruct Hp as [Hc Hp].
  rewrite Hc. auto.
Qed.

(** [trim_start] drops a prefix of spaces and stops at the first other
    character. *)
Lemma trim_start_split (t : text) :
  exists pre, forallb is_space pre = true /\ t = pre ++ trim_start t
              /\ match trim_start t with
                 | c :: _ => is_space c = false
                 | [] => True
                 end.
Proof.
  induction t as [|c t IH].
  - exists []. cbn. auto.
  - cbn [trim_start]. destruct (is_space c) eqn:Hc.
    + destruct IH as (pre & Hpre & Ht & Hhead).
      exists (c :: pre). cbn. rewrite Hc, Hpre. repeat split; [|exact Hhead].
      now rewrite <- Ht.
    + exists []. cbn. rewrite Hc. auto.
Qed.

Lemma trim_start_head (c : ascii) (t : text) :
  is_space c = false -> trim_start (c :: t) = c :: t.
Proof. intros Hc. cbn. now rewrite Hc. Qed.

Lemma split_lines_nonempty (t : text) : split_lines t <> [].
Proof.
  destruct t as [|c t]; cbn; [discriminate|].
  destruct (Ascii.eqb c newline); [discriminate|].
  destruct (split_lines t); discriminate.
Qed.

Lemma split_lines_single (t : text) :
  forallb (fun c => negb (Ascii.eqb c newline)) t = true -> split_lines t = [t].
Proof.
  induction t as [|c t IH]; cbn; [reflexivity|].
  intros Hn. apply andb_true_iff in Hn. destruct Hn as [Hc Hn].
  apply negb_true_iff in Hc. rewrite Hc, (IH Hn). reflexivity.
Qed.

(** The last line of a text is the last line of what follows any of
    its newlines. *)
Lemma split_lines_after_newline (a b : text) :
  exists l ls, split_lines (a ++ newline :: b) = l :: ls
               /\ ls <> []
               /\ List.last ls [] = List.last (split_lines b) [].
Proof.
  induction a as [|c a IH].
  - cbn [app split_lines]. rewrite Ascii.eqb_refl.
    exists [], (split_lines b). repeat split. apply split_lines_nonempty.
  - destruct IH as (l & ls & Hs & Hne & Hlast).
    cbn [app split_lines]. rewrite Hs.
    destruct (Ascii.eqb c newline).
    + exists [], (l :: ls). repeat split; [discriminate|].
      rewrite <- Hlast. destruct ls; [congruence|reflexivity].
    + exists (c :: l), ls. auto.
Qed.

Lemma last_line_after_newline (a b : text) :
  List.last (split_lines (a ++ newline :: b)) [] = List.last (split_lines b) [].
Proof.
  destruct (split_lines_after_newline a b) as (l & ls & Hs & Hne & Hlast).
  rewrite Hs, <- Hlast. destruct ls; [congruence|reflexivity].
Qed.

Lemma complete_lines_app_line (t : text) (s : string) :
  complete_lines t -> complete_lines (line s ++ t).
Proof.
  intros [->|[t0 ->]]; right.
  - exists (chars s). now rewrite app_nil_r.
  - exists (line s ++ t0). now rewrite app_assoc.
Qed.

Lemma printed_stderr_complete (calls : list (ConsoleCall * string)) :
  complete_lines (printed_stderr calls).
Proof.
  induction calls as [|[[m|m|m] t] rest IH]; cbn [printed_stderr];
    [left; reflexivity|exact IH|now apply complete_lines_app_line..].
Qed.

Section Report.
Variable J : text.
Variables (first_ last_ : ascii) (body : text).
Hypothesis J_first : J = first_ :: body.
Hypothesis J_last : rev J = last_ :: rev (removelast J).
Hypothesis first_brace : first_ = "{"%char.
Hypothesis last_solid : is_space last_ = false.
Hypothesis J_one_line : forallb (fun c => negb (Ascii.eqb c newline)) J = true.

Lemma first_solid : is_space first_ = false.
Proof. rewrite first_brace. reflexivity. Qed.

Lemma trim_report : trim J = J.
Proof.
  unfold trim. rewrite J_first at 1. rewrite trim_start_head by apply first_solid.
  rewrite <- J_first, J_last. rewrite trim_start_head by exact last_solid.
  rewrite <- J_last. apply rev_involutive.
Qed.

Lemma report_looks_like_json : looks_like_json J = true.
Proof.
  unfold looks_like_json. rewrite trim_report, J_first, first_brace. reflexivity.
Qed.

(** After complete lines of console output and followed by the newline
    of its own [console.error], the report is the line the host picks,
    and the trimmed text is not empty. *)
Lemma json_line_report (E : text) :
  complete_lines E ->
  json_line (trim (E ++ J ++ [newline])) = J
  /\ trim (E ++ J ++ [newline]) <> [].
Proof.
  intros HE.
  assert (Htrim : exists R, complete_lines R /\ trim (E ++ J ++ [newline]) = R ++ J).
  { destruct (trim_start_split E) as (pre & Hpre & HEsplit & Hhead).
    assert (Hstart : trim_start (E ++ J ++ [newline]) = trim_start E ++ J ++ [newline]).
    { rewrite HEsplit at 1. rewrite <- app_assoc, trim_start_spaces by exact Hpre.
      destruct (trim_start E) as [|c r] eqn:Hr.
      - cbn [app]. rewrite J_first. cbn [app]. now rewrite trim_start_head by apply first_solid.
      - cbn [app]. now rewrite trim_start_head by exact Hhead. }
    exists (trim_start E). split.
    - destruct (trim_start E) as [|c r] eqn:Hr; [left; reflexivity|].
      destruct HE as [HE|[E0 HE]].
      + rewrite HE in HEsplit. destruct pre; discriminate.
      + right. rewrite HE in HEsplit.
        assert (Hrev : rev (E0 ++ [newline]) = rev (pre ++ c :: r)) by now rewrite HEsplit.
        rewrite !rev_app_distr in Hrev. cbn [rev app] in Hrev.
        destruct (rev r) as [|x xs] eqn:Hrr.
        * cbn in Hrev. inversion Hrev; subst c.
          exists []. apply (f_equal (@rev ascii)) in Hrr. rewrite rev_involutive in Hrr.
          now rewrite Hrr.
        * cbn in Hrev. inversion Hrev; subst x.
          exists (c :: rev xs). apply (f_equal (@rev ascii)) in Hrr.
          rewrite rev_involutive in Hrr. cbn in Hrr. rewrite Hrr. reflexivity.
    - unfold trim. rewrite Hstart.
      rewrite !rev_app_distr. cbn [rev app].
      change (trim_start (newline :: ?x)) with (trim_start x).
      rewrite J_last. cbn [app]. rewrite trim_start_head by exact last_solid.
      change (last_ :: rev (removelast J) ++ rev (trim_start E))
        with ((last_ :: rev (removelast J)) ++ rev (trim_start E)).
      rewrite <- J_last, <- rev_app_distr. apply rev_involutive. }
  destruct Htrim as (R & HR & ->). split.
  - unfold json_line.
    assert (Hlast : List.last (split_lines (R ++ J)) [] = J).
    { destruct HR as [->|[R0 ->]].
      - cbn [app]. now rewrite split_lines_single by exact J_one_line.
      - rewrite <- app_assoc. cbn [app]. rewrite last_line_after_newline.
        now rewrite split_lines_single by exact J_one_line. }
    rewrite Hlast, report_looks_like_json. reflexivity.
  - rewrite J_first. destruct R; discriminate.
Qed.
End Report.

(** The same for any text that [compact_object_text] accepts. *)
Lemma json_line_compact (s : string) (E : text) :
  compact_object_text s = true ->
  complete_lines E ->
  json_line (trim (E ++ line s)) = chars s
  /\ trim (E ++ line s) <> [].
Proof.
  unfold compact_object_text, line. intros Hc HE.
  apply andb_true_iff in Hc. destruct Hc as [Hc Hline].
  apply andb_true_iff in Hc. destruct Hc as [Hfirst Hlast].
  destruct (chars s) as [|c body] eqn:Hs; [discriminate|].
  apply Ascii.eqb_eq in Hfirst.
  destruct (rev (c :: body)) as [|l r] eqn:Hr; [discriminate|].
  apply Ascii.eqb_eq in Hlast.
  apply (json_line_report (c :: body) c l body eq_refl); auto.
  - rewrite Hr. f_equal.
    assert (Hcb : c :: body = rev r ++ [l]).
    { apply (f_equal (@rev ascii)) in Hr. rewrite rev_involutive in Hr. exact Hr. }
    rewrite Hcb, removelast_last. now rewrite rev_involutive.
  - subst l. reflexivity.
Qed.

(** A line break at the end does not survive trimming. *)
Lemma trim_line_end (t : text) : trim (t ++ [newline]) = trim t.
Proof.
  unfold trim.
  destruct (trim_start_split t) as (pre & Hpre & Ht & Hhead).
  rewrite Ht at 1. rewrite <- app_assoc, (trim_start_spaces pre _ Hpre).
  destruct (trim_start t) as [|c rest].
  - reflexivity.
  - cbn [app]. rewrite (trim_start_head c _ Hhead).
    change (c :: rest ++ [newline]) with ((c :: rest) ++ [newline]).
    rewrite rev_unit. cbn [trim_start]. rewrite newline_is_space. reflexivity.
Qed.

(** A compact JSON text written after complete lines, without a line
    break of its own, is the line that is parsed. *)
Lemma json_line_compact_raw (s : string) (E : text) :
  compact_object_text s = true ->
  complete_lines E ->
  json_line (trim (E ++ chars s)) = chars s
  /\ trim (E ++ chars s) <> [].
Proof.
  intros Hc HE. rewrite <- (trim_line_end (E ++ chars s)), <- app_assoc.
  exact (json_line_compact s E Hc HE).
Qed.

End TextFacts.

(** ** Runtime errors and console output *)

Module ExecutorSpec.
Import Props MonadFacts LifecycleFacts TextFacts DockerManager CodeExecutor.

(** Claim C10.  Whatever the script does, the result of a vm2 run has
    an empty [logs] list, while every console call of the script has
    been pushed on the sandbox's own buffer.  (A vm2 run throws only
    when the script threw [null] or [undefined].) *)
Theorem vm2_result_has_no_logs (ctx : ExecutionContext) (o : VmOracle) (w : World) :
  sandboxLogs (snd (executeWithVM2 ctx o w))
    = sandboxLogs w ++ map console_line (vm_console o)
  /\ match fst (executeWithVM2 ctx o w) with
     | Return r => logs r = JArr [] /\ strategy r = "vm2"
     | Throw _ => exists v, vm_completion o = Threw (ThrownValue v) /\ nullish v = true
     end.
Proof.
  unfold executeWithVM2. rewrite bind_run. unfold modify.
  destruct (vm_completion o) as [v|[m|v]]; cbn.
  - auto.
  - auto.
  - destruct (nullish v) eqn:Hv; cbn; [|auto].
    split; [reflexivity|]. exists v. auto.
Qed.

(** A thrown [Error] object under vm2: the result is unsuccessful and
    carries the message of the error, and [executeCode] with the vm2
    strategy returns (the cached result on a fresh hit, that
    unsuccessful result otherwise). *)
Lemma vm2_error_object_is_returned `{Builtins} (ctx : ExecutionContext) (w : World)
    (m : string) (console : list ConsoleCall) (t0 t1 : Z) :
  let vm := {| vm_console := console; vm_completion := Threw (ThrownError m);
               vm_start := t0; vm_end := t1 |} in
  fst (executeWithVM2 ctx vm w) = Return (vm2_failure m t0 t1)
  /\ (forall (check store : Z) (info : bool) (d : DockerOracle),
        fst (executeCode "vm2" ctx
               {| x_check := check;
                  x_run := {| a_info_ok := info; a_docker := d; a_vm := vm |};
                  x_store := store |} w)
        = Return (match executionCache w !! generateCacheKey ctx with
                  | Some entry =>
                      if Z.ltb (check - timestamp entry) cacheTTL
                      then result entry else vm2_failure m t0 t1
                  | None => vm2_failure m t0 t1
                  end)).
Proof.
  intros vm. split.
  - reflexivity.
  - intros check store info d. unfold executeCode.
    rewrite bind_run. unfold read.
    assert (Hrun : forall w0,
               fst ((executeWithVM2 ctx vm ≫= fun r =>
                       (if success r
                        then modify (set_executionCache
                                       (insert (generateCacheKey ctx)
                                          {| result := r; timestamp := store |}))
                        else ret tt) ≫= fun _ => ret r) w0)
               = Return (vm2_failure m t0 t1)) by reflexivity.
    cbn [String.eqb Ascii.eqb Bool.eqb x_run a_vm x_store x_check].
    destruct (executionCache w !! generateCacheKey ctx) as [entry|].
    + destruct (Z.ltb (check - timestamp entry) cacheTTL); [reflexivity|apply Hrun].
    + apply Hrun.
Qed.

(** Whatever the code throws under the Docker strategy comes back as
    an unsuccessful result with an error that is not empty.  The
    program of [wrapCodeForDocker] catches the thrown value and writes
    its report on stderr; for a thrown [null] or [undefined] the
    harness of [wrapCode] around it reports the TypeError instead.  The
    host's [JSON.parse] is assumed to read the report, which
    [JSON.stringify] printed on one line. *)
Lemma docker_thrown_is_returned `{Builtins} (ctx : ExecutionContext) (w : World)
    (d : DockerOracle) (id : string) (calls : list (ConsoleCall * string))
    (trace : text) (t : Thrown) (parsed : jsval) :
  let report := docker_error_report t (JArr (harness_logs calls)) in
  (size (activeContainers w) < maxContainers w)%nat ->
  id <> "" ->
  create_outcome (d_create d) = Started id ->
  exec_failure (d_exec d) = None ->
  stream (d_exec d)
    = wrapCodeForDocker {| h_calls := calls; h_completion := Threw t;
                           h_trace := trace |} ->
  JSON_parse (JSON_stringify report) = Some parsed ->
  compact_object_text (JSON_stringify report) = true ->
  exists r,
    fst (executeWithDocker ctx d w) = Return r
    /\ success r = false
    /\ truthy (error r) = true
    /\ containerId r = Some id.
Proof.
  intros report Hsize Hid Hcreate Hfail Hstream Hround Hcompact.
  assert (Hout : exists stdout stderr code,
             stream (d_exec d) = StreamEnd stdout stderr (inl code)
             /\ json_line (trim stderr) = chars (JSON_stringify report)
             /\ trim stderr <> []).
  { unfold wrapCodeForDocker in Hstream.
    cbn [h_completion h_calls] in Hstream. fold report in Hstream.
    destruct (message_of t) as [m|].
    - do 3 eexists. split; [exact Hstream|].
      exact (json_line_compact_raw _ _ Hcompact (printed_stderr_complete calls)).
    - do 3 eexists. split; [exact Hstream|].
      exact (json_line_compact _ _ Hcompact (printed_stderr_complete calls)). }
  destruct Hout as (stdout & stderr & code & Hend & Hline & Hne).
  assert (Hparse : JSON_parse (str (json_line (trim stderr))) = Some parsed).
  { rewrite Hline. unfold str, chars.
    now rewrite string_of_list_ascii_of_string. }
  unfold executeWithDocker. rewrite bind_run. unfold attempt.
  rewrite (createContainer_started _ _ _ _ Hsize Hcreate).
  set (w1 := set_activeContainers _ _).
  assert (Hd : activeContainers w1 !! id
               = Some {| createdAt := create_time (d_create d);
                         lastUsed := create_time (d_create d) |}).
  { subst w1. cbn. apply lookup_insert_eq. }
  unfold try_finally, try_catch. rewrite bind_run.
  rewrite (executeCode_stream_end id (d_exec d) w1 _ _ stderr code Hd Hfail Hend).
  cbn zeta. unfold ret.
  destruct (parse_stderr_parsed stderr
              (parse_stdout stdout
                 {| p_success := Z.eqb code 0; p_output := JNull;
                    p_error := JNull; p_logs := JArr [] |})
              parsed Hne Hparse) as [Hs He].
  apply String.eqb_neq in Hid. rewrite Hid.
  match goal with
  | |- context [destroyContainer id ?o ?w0] =>
      pose proof (destroyContainer_returns id o w0) as Hdes;
      destruct (destroyContainer id o w0) as [rd wd]
  end.
  cbn in Hdes. subst rd.
  eexists. split; [reflexivity|]. cbn [success error containerId].
  split; [exact Hs|]. split; [exact He|reflexivity].
Qed.

(** Claim C7.  A script that throws a value without a message escapes
    the vm2 strategy.  For [throw null] the handler of [executeWithVM2]
    fails on [error.message], and [executeCode] with the vm2 strategy
    throws to its caller instead of returning a result; for
    [throw 'boom'] it returns an unsuccessful result whose error is
    [undefined].  A thrown [Error] object comes back as the claim says,
    and so does the same [throw null] under the Docker strategy, whose
    harness reports the TypeError. *)
Theorem thrown_null_escapes_vm2 :
  let run code_ t :=
    @executeCode (Scenario.host []) "vm2"
      (Scenario.context code_ "javascript" false)
      (Scenario.execute_oracle true Deadline (Threw t) 100 120)
      (Scenario.world0 10) in
  let report := docker_error_report (ThrownValue JNull) (JArr []) in
  let host := Scenario.host [report] in
  let docker :=
    @executeCode host "docker"
      (Scenario.context "throw null" "javascript" false)
      (Scenario.execute_oracle true
         (@wrapCodeForDocker host
            {| h_calls := []; h_completion := Threw (ThrownValue JNull);
               h_trace := [] |})
         (Threw (ThrownValue JNull)) 100 120)
      (Scenario.world0 10) in
  fst (run "throw null" (ThrownValue JNull))
    = Throw "TypeError: Cannot read properties of null"
  /\ (exists r, fst (run "throw 'boom'" (ThrownValue (JStr "boom"))) = Return r
                /\ success r = false /\ error r = JUndefined)
  /\ (exists r, fst (run "throw new Error('boom')" (ThrownError "boom")) = Return r
                /\ success r = false /\ error r = JStr "boom")
  /\ (exists r, fst docker = Return r
                /\ success r = false
                /\ error r = JStr "Cannot read properties of null (reading 'message')").
Proof.
  cbv zeta. split; [vm_compute; reflexivity|].
  split; [eexists; split; [vm_compute; reflexivity|split; reflexivity]|].
  split; [eexists; split; [vm_compute; reflexivity|split; reflexivity]|].
  eexists. split; [vm_compute; reflexivity|split; reflexivity].
Qed.

End ExecutorSpec.

(** ** Strategy selection *)

Module StrategySpec.
Import Props MonadFacts LifecycleFacts DockerManager CodeExecutor.

Section Auto.
Context `{Builtins}.



Lemma executeWithVM2_keeps {B} (f : World -> B) (ctx : ExecutionContext)
    (o : VmOracle) :
  (forall g w, f (set_sandboxLogs g w) = f w) ->
  keeps f (executeWithVM2 ctx o).
Proof.
  intros Hf. unfold executeWithVM2.
  apply keeps_bind; [apply keeps_modify; intros; apply Hf|intros _].
  destruct (vm_completion o) as [v|t]; [apply keeps_ret|].
  destruct (message_of t); [apply keeps_ret|apply keeps_throw].
Qed.
End Auto.




End StrategySpec.

(** ** The result cache *)

Module CacheSpec.
Import Props MonadFacts LifecycleFacts StrategySpec DockerManager CodeExecutor.

(** The container operations touch the registry and the call log only. *)
Section DockerFrame.
Context {B : Type} (f : World -> B).
Hypothesis f_registry : forall g w, f (set_activeContainers g w) = f w.
Hypothesis f_calls : forall g w, f (set_dockerCalls g w) = f w.

Ltac frame :=
  repeat first
    [ apply keeps_ret | apply keeps_throw | apply keeps_read
    | apply keeps_modify; intros; first [apply f_registry | apply f_calls]
    | apply keeps_bind; [|intros]
    | apply keeps_try_catch; [|intros]
    | apply keeps_try_finally
    | apply keeps_attempt
    | match goal with
      | |- keeps _ (match ?x with _ => _ end) => destruct x
      end ].

Lemma createContainer_keeps (lang : string) (o : CreateOracle) :
  keeps f (createContainer lang o).
Proof. unfold createContainer, docker_call. frame. Qed.

Lemma forceStopContainer_keeps (id : string) (kill : bool) :
  keeps f (forceStopContainer id kill).
Proof. unfold forceStopContainer, docker_call. frame. Qed.

Lemma destroyContainer_keeps (id : string) (o : DestroyOracle) :
  keeps f (destroyContainer id o).
Proof. unfold destroyContainer, docker_call. frame. Qed.

Lemma healthCheck_keeps (info_ok : bool) : keeps f (healthCheck info_ok).
Proof. unfold healthCheck, docker_call. frame. Qed.

Lemma run_keeps `{Builtins} (id : string) (o : ExecOracle) :
  keeps f (DockerManager.executeCode id o).
Proof.
  unfold DockerManager.executeCode, docker_call.
  apply keeps_bind; [apply keeps_read|intros data].
  destruct data as [d|]; [|apply keeps_throw].
  apply keeps_bind; [apply keeps_modify; intros; apply f_registry|intros _].
  apply keeps_bind; [apply keeps_modify; intros; apply f_calls|intros _].
  destruct (exec_failure o); [apply keeps_throw|].
  destruct (stream o) as [|stdout stderr [code|e]|e];
    try apply keeps_throw; try apply keeps_ret.
  apply keeps_bind; [apply forceStopContainer_keeps|intros; apply keeps_throw].
Qed.

Lemma executeWithDocker_keeps `{Builtins} (ctx : ExecutionContext) (o : DockerOracle) :
  keeps f (executeWithDocker ctx o).
Proof.
  unfold executeWithDocker.
  apply keeps_bind; [apply keeps_attempt, createContainer_keeps|intros created].
  destruct created as [id|e]; [|apply keeps_throw].
  apply keeps_try_finally.
  - apply keeps_try_catch; [|intros; apply keeps_throw].
    apply keeps_bind; [apply run_keeps|intros; apply keeps_ret].
  - destruct (String.eqb id ""); [apply keeps_ret|apply destroyContainer_keeps].
Qed.
End DockerFrame.

Section Cache.
Context `{Builtins}.

Lemma strategies_keep_cache (s : string) (ctx : ExecutionContext) (o : AutoOracle) :
  keeps executionCache
    (if String.eqb s "docker" then executeWithDocker ctx (a_docker o)
     else if String.eqb s "vm2" then executeWithVM2 ctx (a_vm o)
     else autoExecute ctx o).
Proof.
  destruct (String.eqb s "docker");
    [apply executeWithDocker_keeps; reflexivity|].
  destruct (String.eqb s "vm2");
    [apply executeWithVM2_keeps; reflexivity|].
  unfold autoExecute. apply keeps_bind.
  - destruct (shouldUseDocker ctx); [|apply keeps_ret].
    unfold healthyGuard. apply keeps_bind; [|intros; apply keeps_ret].
    apply healthCheck_keeps; reflexivity.
  - intros [|]; [|apply executeWithVM2_keeps; reflexivity].
    apply keeps_try_catch; [apply executeWithDocker_keeps; reflexivity|].
    intros; apply executeWithVM2_keeps; reflexivity.
Qed.

(** A call either leaves the cache alone or adds the successful
    result it returns, stamped with the time of storing. *)
Lemma executeCode_cache (s : string) (ctx : ExecutionContext) (o : ExecuteOracle)
    (w : World) :
  (executionCache (snd (executeCode s ctx o w)) = executionCache w
   /\ forall r, fst (executeCode s ctx o w) = Return r -> success r = true ->
        exists e, executionCache w !! generateCacheKey ctx = Some e
                  /\ result e = r)
  \/ (exists r, fst (executeCode s ctx o w) = Return r /\ success r = true
                /\ executionCache (snd (executeCode s ctx o w))
                   = <[generateCacheKey ctx := {| result := r; timestamp := x_store o |}]>
                       (executionCache w)).
Proof.
  unfold executeCode. rewrite bind_run. unfold read.
  set (strat := if String.eqb s "docker" then _ else _).
  assert (Hmiss :
    let m := (strat ≫= fun r =>
               (if success r
                then modify (set_executionCache
                               (insert (generateCacheKey ctx)
                                  {| result := r; timestamp := x_store o |}))
                else ret tt) ≫= fun _ => ret r) in
    (executionCache (snd (m w)) = executionCache w
     /\ forall r, fst (m w) = Return r -> success r = true -> False)
    \/ (exists r, fst (m w) = Return r /\ success r = true
                  /\ executionCache (snd (m w))
                     = <[generateCacheKey ctx := {| result := r; timestamp := x_store o |}]>
                         (executionCache w))).
  { intros m. subst m. rewrite bind_run.
    pose proof (strategies_keep_cache s ctx (x_run o) w) as Hk. fold strat in Hk.
    destruct (strat w) as [[r|e] w1]; cbn [snd] in Hk.
    - rewrite bind_run. destruct (success r) eqn:Hs.
      + right. exists r. cbn. rewrite Hk. auto.
      + left. cbn. split; [exact Hk|]. intros r' Hr' Hs'.
        inversion Hr'; subst. congruence.
    - left. cbn. split; [exact Hk|]. intros r' Hr'. discriminate. }
  cbv zeta in Hmiss.
  destruct (executionCache w !! generateCacheKey ctx) as [entry|] eqn:Hlook.
  - destruct (Z.ltb (x_check o - timestamp entry) cacheTTL).
    + left. cbn. split; [reflexivity|]. intros r Hr _. inversion Hr; subst.
      exists entry. auto.
    + destruct Hmiss as [[Hk Hno]|Hins]; [left|right; exact Hins].
      split; [exact Hk|]. intros r Hr Hs. destruct (Hno r Hr Hs).
  - destruct Hmiss as [[Hk Hno]|Hins]; [left|right; exact Hins].
    split; [exact Hk|]. intros r Hr Hs. destruct (Hno r Hr Hs).
Qed.

Lemma cleanupCache_lookup (now : Z) (w : World) (k : string) (e : CacheEntry) :
  executionCache (snd (cleanupCache now w)) !! k = Some e <->
  executionCache w !! k = Some e /\ ~ (now - timestamp e > cacheTTL).
Proof.
  unfold cleanupCache, modify. cbn [snd executionCache set_executionCache].
  rewrite map_lookup_filter_Some. reflexivity.
Qed.

Lemma reachable_cache_successful (w : World) :
  reachable w -> cache_all_successful w.
Proof.
  induction 1 as [w Hempty|w s ctx o Hr IH|w now Hr IH|w Hr IH|w w' Hr IH Hsame];
    intros k e Hk.
  - rewrite Hempty in Hk. rewrite lookup_empty in Hk. discriminate.
  - destruct (executeCode_cache s ctx o w) as [[Hsame _]|(r & _ & Hs & Hins)].
    + rewrite Hsame in Hk. eapply IH; eassumption.
    + rewrite Hins in Hk.
      destruct (decide (generateCacheKey ctx = k)) as [Heq|Hne].
      * subst k. rewrite lookup_insert_eq in Hk. inversion Hk; subst. exact Hs.
      * rewrite lookup_insert_ne in Hk by exact Hne. eapply IH; eassumption.
  - apply cleanupCache_lookup in Hk. destruct Hk as [Hk _]. eapply IH; eassumption.
  - cbn in Hk. rewrite lookup_empty in Hk. discriminate.
  - rewrite Hsame in Hk. eapply IH; eassumption.
Qed.

Lemma sweeps_lookup (times : list Z) (w : World) (k : string) (e : CacheEntry) :
  executionCache w !! k = Some e ->
  (forall t, In t times -> t - timestamp e <= cacheTTL) ->
  executionCache (sweeps times w) !! k = Some e.
Proof.
  revert w. induction times as [|t times IH]; intros w Hk Hts; [exact Hk|].
  cbn [sweeps fold_left]. apply IH.
  - apply cleanupCache_lookup. split; [exact Hk|].
    specialize (Hts t (or_introl eq_refl)). lia.
  - intros t' Ht'. apply Hts. right; exact Ht'.
Qed.

(** A fresh entry is returned as it is, and nothing else happens. *)
Lemma executeCode_hit (s : string) (ctx : ExecutionContext) (o : ExecuteOracle)
    (w : World) (e : CacheEntry) :
  executionCache w !! generateCacheKey ctx = Some e ->
  x_check o - timestamp e < cacheTTL ->
  executeCode s ctx o w = (Return (result e), w).
Proof.
  intros Hk Hfresh. unfold executeCode. rewrite bind_run. unfold read.
  rewrite Hk. apply Z.ltb_lt in Hfresh. rewrite Hfresh. reflexivity.
Qed.
End Cache.

(** Claim C4, as the code has it.  Every entry of the result cache is
    a successful result, in every state the executor can reach.  When
    a call returns a successful result, that result is in the cache
    under the key of its code and context (stored by this call, or
    already there and fresh); and any later call with the same code
    and context made within the TTL of that entry, whatever its
    strategy and with any number of cache sweeps in between, returns
    that very result and changes nothing: no container is requested. *)
Theorem cache_serves_successful_results `{Builtins} :
  (forall w, reachable w -> cache_all_successful w)
  /\ (forall (w w1 : World) (s1 s2 : string) (ctx : ExecutionContext)
             (o1 o2 : ExecuteOracle) (r1 : ExecutionResult) (times : list Z),
        executeCode s1 ctx o1 w = (Return r1, w1) ->
        success r1 = true ->
        exists e,
          executionCache w1 !! generateCacheKey ctx = Some e
          /\ result e = r1
          /\ (timestamp e = x_store o1
              \/ executionCache w !! generateCacheKey ctx = Some e)
          /\ ((forall t, In t times -> t - timestamp e <= cacheTTL) ->
              x_check o2 - timestamp e < cacheTTL ->
              executeCode s2 ctx o2 (sweeps times w1)
              = (Return r1, sweeps times w1))).
Proof.
  split; [exact reachable_cache_successful|].
  intros w w1 s1 s2 ctx o1 o2 r1 times Hrun Hs.
  assert (He : exists e, executionCache w1 !! generateCacheKey ctx = Some e
                         /\ result e = r1
                         /\ (timestamp e = x_store o1
                             \/ executionCache w !! generateCacheKey ctx = Some e)).
  { destruct (executeCode_cache s1 ctx o1 w) as [[Hsame Hhit]|(r & Hr & _ & Hins)];
      rewrite Hrun in *; cbn [fst snd] in *.
    - destruct (Hhit r1 eq_refl Hs) as (e & Hk & Hres).
      exists e. rewrite Hsame. auto.
    - inversion Hr; subst r. eexists. rewrite Hins, lookup_insert_eq.
      split; [reflexivity|]. cbn. auto. }
  destruct He as (e & Hk & Hres & Hwhen). exists e.
  split; [exact Hk|]. split; [exact Hres|]. split; [exact Hwhen|].
  intros Hts Hfresh. subst r1.
  apply executeCode_hit; [|exact Hfresh].
  apply sweeps_lookup; assumption.
Qed.

(** A vm2 run that succeeds, two sweeps, then a Docker request for
    the same code and context twenty seconds later. *)
Lemma cache_serves_successful_results_run :
  let ctx := Scenario.context "return 1" "javascript" false in
  let o1 := Scenario.execute_oracle true Deadline (Returned (JNum 1)) 100 120 in
  let o2 := Scenario.execute_oracle true Deadline (Returned (JNum 2)) 20000 20010 in
  let w := Scenario.world0 10 in
  let r1 := {| success := true; output := JNum 1; error := JNull; logs := JArr [];
               executionTime := 15; strategy := "vm2"; containerId := None |} in
  let w1 := snd (@executeCode (Scenario.host []) "vm2" ctx o1 w) in
  @reachable (Scenario.host []) w1
  /\ @executeCode (Scenario.host []) "vm2" ctx o1 w = (Return r1, w1)
  /\ success r1 = true
  /\ cache_all_successful w1
  /\ @executeCode (Scenario.host []) "docker" ctx o2
       (sweeps [5000; 10000] w1)
     = (Return r1, sweeps [5000; 10000] w1).
Proof.
  intros ctx o1 o2 w r1 w1.
  assert (Hreach : @reachable (Scenario.host []) w1).
  { apply reach_execute. apply reach_init. reflexivity. }
  assert (Hrun : @executeCode (Scenario.host []) "vm2" ctx o1 w = (Return r1, w1))
    by (vm_compute; reflexivity).
  split; [exact Hreach|]. split; [exact Hrun|]. split; [reflexivity|].
  split.
  - exact (proj1 (cache_serves_successful_results (H := Scenario.host [])) w1 Hreach).
  - destruct (proj2 (cache_serves_successful_results (H := Scenario.host []))
                w w1 "vm2" "docker" ctx o1 o2 r1 [5000; 10000] Hrun eq_refl)
      as (e & Hk & Hres & Hwhen & Hhit).
    vm_compute in Hk. inversion Hk; subst e. apply Hhit.
    + intros t [<-|[<-|[]]]; vm_compute; discriminate.
    + vm_compute; reflexivity.
Defined.

(** The claim as stated fails when the first call is unsuccessful:
    nothing is cached, and the second call with the same code and
    context, well within the TTL, asks for a container of its own. *)
Lemma failed_call_is_run_again :
  let ctx := Scenario.context "return 1" "javascript" false in
  let failing := StreamEnd [] (chars "boom") (inl 1) in
  let o1 := Scenario.execute_oracle true failing (Returned JNull) 100 120 in
  let o2 := Scenario.execute_oracle true failing (Returned JNull) 200 220 in
  let run1 := @executeCode (Scenario.host []) "docker" ctx o1 (Scenario.world0 10) in
  let run2 := @executeCode (Scenario.host []) "docker" ctx o2 (snd run1) in
  (exists r1, fst run1 = Return r1 /\ success r1 = false)
  /\ executionCache (snd run1) = ∅
  /\ x_check o2 - x_store o1 < cacheTTL
  /\ created_count (dockerCalls (snd run1)) = 1%nat
  /\ created_count (dockerCalls (snd run2)) = 2%nat.
Proof.
  intros ctx failing o1 o2 run1 run2.
  split; [eexists; split; vm_compute; reflexivity|].
  repeat split; vm_compute; reflexivity.
Qed.

End CacheSpec.

(** ** Deadlines and the container ceiling *)

Module LifecycleSpec.
Import Props MonadFacts LifecycleFacts DockerManager Interleaving.

(** Claim C3, as the code has it.  When the deadline of a run expires,
    the manager asks the daemon to kill the container before the call
    fails with [EXECUTION_TIMEOUT].  If the kill succeeds the container
    has left the registry by the time the error is returned; if the
    kill fails the failure is logged, the container stays registered,
    and the error is returned all the same.  No other container is
    touched. *)
Theorem timeout_kills_before_failing `{Builtins} (id : string) (o : ExecOracle)
    (w : World) (d : ContainerData) :
  activeContainers w !! id = Some d ->
  exec_failure o = None ->
  stream o = Deadline ->
  exists w',
    executeCode id o w = (Throw "EXECUTION_TIMEOUT", w')
    /\ dockerCalls w' = dockerCalls w ++ [DExec id; DKill id]
    /\ activeContainers w' !! id
       = (if kill_ok o then None
          else Some {| createdAt := createdAt d; lastUsed := exec_time o |})
    /\ forall id', id' <> id -> activeContainers w' !! id' = activeContainers w !! id'.
Proof.
  intros Hd Hfail Hstream.
  cbv [executeCode forceStopContainer mbind M_bind bind read modify docker_call
       try_catch throw ret].
  rewrite Hd, Hfail, Hstream.
  cbn [activeContainers set_activeContainers set_dockerCalls].
  rewrite lookup_insert_eq.
  destruct (kill_ok o); eexists; (split; [reflexivity|]);
    cbn [activeContainers dockerCalls set_activeContainers set_dockerCalls].
  - split; [now rewrite <- app_assoc|].
    split; [apply lookup_delete_eq|].
    intros id' Hne. rewrite lookup_delete_ne by congruence.
    apply lookup_insert_ne. congruence.
  - split; [now rewrite <- app_assoc|].
    split; [apply lookup_insert_eq|].
    intros id' Hne. apply lookup_insert_ne. congruence.
Qed.

(** A deadline that expires on a registered container whose kill
    succeeds. *)
Lemma timeout_kills_before_failing_run :
  let o := Scenario.exec_with Deadline true in
  activeContainers Scenario.one_container !! "c1"
    = Some {| createdAt := 1000; lastUsed := 1000 |}
  /\ exec_failure o = None
  /\ stream o = Deadline
  /\ exists w',
       @executeCode (Scenario.host []) "c1" o Scenario.one_container
         = (Throw "EXECUTION_TIMEOUT", w')
       /\ dockerCalls w' = dockerCalls Scenario.one_container ++ [DExec "c1"; DKill "c1"]
       /\ activeContainers w' !! "c1"
          = (if kill_ok o then None
             else Some {| createdAt := 1000; lastUsed := exec_time o |})
       /\ forall id', id' <> "c1" ->
            activeContainers w' !! id' = activeContainers Scenario.one_container !! id'.
Proof.
  intros o. split; [reflexivity|]. split; [reflexivity|]. split; [reflexivity|].
  exact (timeout_kills_before_failing (H := Scenario.host []) "c1" o Scenario.one_container
           {| createdAt := 1000; lastUsed := 1000 |} eq_refl eq_refl eq_refl).
Defined.

(** The claim as stated fails when the daemon refuses the kill: the
    call fails with [EXECUTION_TIMEOUT] while the container is still
    in the registry and still counts against the ceiling. *)
Lemma timeout_returns_with_container_registered :
  let run := @executeCode (Scenario.host []) "c1"
               (Scenario.exec_with Deadline false) Scenario.one_container in
  fst run = Throw "EXECUTION_TIMEOUT"
  /\ activeContainers (snd run) !! "c1"
     = Some {| createdAt := 1000; lastUsed := 1001 |}
  /\ size (activeContainers (snd run)) = 1%nat
  /\ dockerCalls (snd run) = [DExec "c1"; DKill "c1"].
Proof. intros run. repeat split; vm_compute; reflexivity. Qed.

(** *** The ceiling, one call at a time *)

Lemma createContainer_at_ceiling (lang : string) (o : CreateOracle) (w : World) :
  (maxContainers w <= size (activeContainers w))%nat ->
  createContainer lang o w = (Throw "CONTAINER_LIMIT_EXCEEDED", w).
Proof.
  intros Hfull. apply Nat.leb_le in Hfull.
  cbv [createContainer mbind M_bind bind read]. rewrite Hfull. reflexivity.
Qed.

Lemma createContainer_within_ceiling (lang id : string) (o : CreateOracle)
    (w w' : World) :
  (size (activeContainers w) <= maxContainers w)%nat ->
  createContainer lang o w = (Return id, w') ->
  (size (activeContainers w') <= maxContainers w')%nat.
Proof.
  intros Hinv. cbv [createContainer mbind M_bind bind read].
  destruct (Nat.leb (maxContainers w) (size (activeContainers w))) eqn:Hle;
    [discriminate|].
  apply Nat.leb_gt in Hle.
  cbv [try_catch docker_call modify throw ret mbind M_bind bind].
  destruct (create_outcome o) as [id0|id0|]; try discriminate.
  intros Hrun. inversion Hrun; subst. clear Hrun.
  cbn [activeContainers maxContainers set_activeContainers set_dockerCalls].
  destruct (activeContainers w !! id) as [d|] eqn:Hlook.
  - assert (Hsz : size (<[id := {| createdAt := create_time o;
                                   lastUsed := create_time o |}]> (activeContainers w))
                  = size (activeContainers w)).
    { rewrite <- (insert_delete_id (activeContainers w) id d Hlook) at 2.
      rewrite <- insert_delete_eq.
      rewrite !map_size_insert_None by apply lookup_delete_eq. reflexivity. }
    rewrite Hsz. exact Hinv.
  - rewrite map_size_insert_None by exact Hlook. lia.
Qed.

(** One call is its three segments run back to back. *)
Lemma segments_run_back_to_back (lang : string) (o : CreateOracle) (w : World) :
  let c0 := {| phase := Called; language := lang; oracle := o |} in
  let '(c1, w1) := segment c0 w in
  let '(c2, w2) := segment c1 w1 in
  let '(c3, w3) := segment c2 w2 in
  settled c3 = Some (fst (createContainer lang o w))
  /\ w3 = snd (createContainer lang o w).
Proof.
  cbv [createContainer mbind M_bind bind read segment phase at_phase
       Interleaving.language oracle].
  destruct (Nat.leb (maxContainers w) (size (activeContainers w))).
  - cbn. auto.
  - cbn [phase]. destruct (create_outcome o) as [id|id|] eqn:Hout;
      cbn; rewrite ?Hout; cbn; auto.
Qed.

(** Claim C5 on overlapping calls.  With a ceiling of one, two calls
    that both reach their first suspension point before either is
    resumed both pass the ceiling check and both register: two
    containers are live.  With the default ceiling of ten the same
    happens to eleven calls, so the eleventh creation does not fail. *)
Theorem overlapping_creations_exceed_ceiling :
  (let '(calls, w) :=
     run (Scenario.round_robin 2)
         (Scenario.calls_for ["c1"; "c2"], Scenario.world0 1) in
   map settled calls = [Some (Return "c1"); Some (Return "c2")]
   /\ size (activeContainers w) = 2%nat
   /\ maxContainers w = 1%nat)
  /\ (let '(calls, w) :=
        run (Scenario.round_robin 11)
            (Scenario.calls_for Scenario.eleven_ids, Scenario.world0 10) in
      map settled calls = map (fun id => Some (Return id)) Scenario.eleven_ids
      /\ size (activeContainers w) = 11%nat
      /\ maxContainers w = 10%nat).
Proof. split; vm_compute; repeat split; reflexivity. Qed.

End LifecycleSpec.

(** ** The orchestrator *)

Module OrchestratorFacts.
Import Props MonadFacts FrameFacts LifecycleFacts CacheSpec
       DockerManager MockDataService SandboxService.

Lemma assoc_put_eq (k : string) (v : jsval) (fields : list (string * jsval)) :
  Js.assoc k (Js.put k v fields) = v.
Proof.
  induction fields as [|[k' v'] rest IH]; cbn.
  - now rewrite String.eqb_refl.
  - destruct (String.eqb k k') eqn:Hk; cbn; rewrite ?String.eqb_refl, ?Hk; auto.
Qed.

Lemma assoc_put_ne (k k' : string) (v : jsval) (fields : list (string * jsval)) :
  k' <> k -> Js.assoc k' (Js.put k v fields) = Js.assoc k' fields.
Proof.
  intros Hne. apply String.eqb_neq in Hne.
  induction fields as [|[k0 v0] rest IH]; cbn.
  - now rewrite Hne.
  - destruct (String.eqb k k0) eqn:Hk; cbn.
    + apply String.eqb_eq in Hk. subst k0. now rewrite Hne.
    + destruct (String.eqb k' k0); auto.
Qed.

Lemma get_with_field_eq (o : jsval) (k : string) (v : jsval) :
  get (with_field o k v) k = v.
Proof.
  destruct o; cbn; rewrite ?String.eqb_refl; auto. apply assoc_put_eq.
Qed.

Lemma get_with_field_ne (o : jsval) (k k' : string) (v : jsval) :
  k' <> k -> get (with_field o k v) k' = get o k'.
Proof.
  intros Hne. destruct o; cbn;
    try (apply String.eqb_neq in Hne; now rewrite Hne).
  now apply assoc_put_ne.
Qed.

(** The six fields of the completed directive that are read later. *)
Lemma completeSaveOp_fields (saveOp requestId : jsval)
    (endpointId userId projectId : string) :
  let op := completeSaveOp saveOp requestId endpointId userId projectId in
  get op "collectionId" = Js.or (get saveOp "collectionId") requestId
  /\ get op "endpointId" = Js.or (get saveOp "endpointId") (JStr endpointId)
  /\ get op "userId" = Js.or (get saveOp "userId") (JStr userId)
  /\ get op "data" = get saveOp "data"
  /\ get op "executionId" = get saveOp "executionId".
Proof.
  unfold completeSaveOp. cbv zeta.
  repeat split;
    repeat first
      [ rewrite get_with_field_eq
      | rewrite get_with_field_ne by discriminate ];
    reflexivity.
Qed.

Lemma try_catch_swallow_returns {A} (m : M A) (g : string -> A) (w : World) :
  exists a', fst (try_catch m (fun e => ret (g e)) w) = Return a'.
Proof.
  unfold try_catch. destruct (m w) as [[x|e] w']; eexists; reflexivity.
Qed.

Section Frames.
Context `{Builtins} {B : Type} (f : World -> B).
Hypothesis f_registry : forall g w, f (set_activeContainers g w) = f w.
Hypothesis f_calls : forall g w, f (set_dockerCalls g w) = f w.
Hypothesis f_queue : forall g w, f (set_saveQueue g w) = f w.
Hypothesis f_collections : forall g w, f (set_mockDataCollections g w) = f w.
Hypothesis f_log : forall g w, f (set_executionLog g w) = f w.

Lemma saveFromExecution_keeps (collectionId data userId ctx : jsval)
    (o : SaveOracle) :
  keeps f (saveFromExecution collectionId data userId ctx o).
Proof.
  unfold saveFromExecution.
  destruct collectionId; try apply keeps_throw.
  destruct (collaboratorsWhere userId) as [selected|]; try apply keeps_throw.
  apply keeps_bind; [apply keeps_read|intros found].
  destruct found as [c|]; [|apply keeps_throw].
  destruct (negb _); [apply keeps_throw|].
  destruct (negb _); [apply keeps_throw|].
  apply keeps_bind.
  - destruct (truthy _); [|apply keeps_ret].
    destruct (validateDataAgainstSchema _ _); [apply keeps_ret|apply keeps_throw].
  - intros _. apply keeps_bind; [|intros; apply keeps_ret].
    destruct (update_ok o); [|apply keeps_throw].
    apply keeps_modify; intros; apply f_collections.
Qed.

Lemma applySaveDirective_keeps (endpointId userId : string) (ep : Endpoint)
    (data : ExecutionData) (r : RunResult) (o : SaveOracle) :
  keeps f (applySaveDirective endpointId userId ep data r o).
Proof.
  unfold applySaveDirective.
  apply keeps_try_catch; [|intros; apply keeps_ret]. cbv zeta.
  destruct (_ && _); [|apply keeps_ret].
  apply keeps_bind.
  - destruct (nullish _); [apply keeps_throw|apply keeps_ret].
  - intros _. apply keeps_bind; [apply saveFromExecution_keeps|].
    intros; apply keeps_ret.
Qed.

Lemma processQueue_keeps (userId : string) (pending : list jsval)
    (os : list SaveOracle) :
  keeps f (processQueue userId pending os).
Proof.
  revert os. induction pending as [|saveOp rest IH]; intros os; cbn [processQueue].
  - apply keeps_ret.
  - cbv zeta. apply keeps_bind.
    + apply keeps_try_catch; [|intros; apply keeps_ret].
      apply keeps_bind; [|intros; apply saveFromExecution_keeps].
      destruct (nullish _); [apply keeps_throw|apply keeps_ret].
    + intros r. apply keeps_bind; [apply IH|intros; apply keeps_ret].
Qed.

Lemma processSaveQueue_keeps (userId containerId : string) (os : list SaveOracle) :
  keeps f (processSaveQueue userId containerId os).
Proof.
  unfold processSaveQueue.
  apply keeps_bind; [apply keeps_read|intros queued].
  destruct queued as [pending|]; [|apply keeps_ret].
  apply keeps_bind; [apply processQueue_keeps|intros rs].
  apply keeps_bind; [|intros; apply keeps_ret].
  apply keeps_modify; intros; apply f_queue.
Qed.

Lemma finalizer_keeps (containerId : string) (o : DestroyOracle) :
  keeps f (if String.eqb containerId "" then ret tt
           else modify (set_saveQueue (delete containerId)) ≫= fun _ =>
                destroyContainer containerId o).
Proof.
  destruct (String.eqb containerId ""); [apply keeps_ret|].
  apply keeps_bind; [apply keeps_modify; intros; apply f_queue|intros _].
  apply destroyContainer_keeps; assumption.
Qed.
End Frames.

Section Returns.
Context `{Builtins}.

Lemma applySaveDirective_returns (endpointId userId : string) (ep : Endpoint)
    (data : ExecutionData) (r : RunResult) (o : SaveOracle) (w : World) :
  exists l, fst (applySaveDirective endpointId userId ep data r o w) = Return l.
Proof. unfold applySaveDirective. apply try_catch_swallow_returns. Qed.

Lemma processQueue_returns (userId : string) (pending : list jsval)
    (os : list SaveOracle) (w : World) :
  exists l, fst (processQueue userId pending os w) = Return l.
Proof.
  revert os w. induction pending as [|saveOp rest IH]; intros os w; cbn [processQueue].
  - eexists; reflexivity.
  - cbv zeta. rewrite bind_run.
    match goal with
    | |- context [try_catch ?m (fun e => ret (@?g e)) w] =>
        destruct (try_catch_swallow_returns m g w) as [a Ha];
        destruct (try_catch m (fun e => ret (g e)) w) as [r1 w1]
    end.
    cbn [fst] in Ha. subst r1. rewrite bind_run.
    destruct (IH (tl os) w1) as [l Hl].
    destruct (processQueue userId rest (tl os) w1) as [r2 w2].
    cbn [fst] in Hl. subst r2. eexists; reflexivity.
Qed.

Lemma processSaveQueue_returns (userId containerId : string)
    (os : list SaveOracle) (w : World) :
  exists l, fst (processSaveQueue userId containerId os w) = Return l.
Proof.
  unfold processSaveQueue. rewrite bind_run. unfold read.
  destruct (saveQueue w !! containerId) as [pending|]; [|eexists; reflexivity].
  rewrite bind_run. destruct (processQueue_returns userId pending os w) as [l Hl].
  destruct (processQueue userId pending os w) as [r1 w1].
  cbn [fst] in Hl. subst r1. eexists; reflexivity.
Qed.

Lemma finalizer_returns (containerId : string) (o : DestroyOracle) (w : World) :
  fst ((if String.eqb containerId "" then ret tt
        else modify (set_saveQueue (delete containerId)) ≫= fun _ =>
             destroyContainer containerId o) w) = Return tt.
Proof.
  destruct (String.eqb containerId ""); [reflexivity|].
  rewrite bind_run. unfold modify. apply destroyContainer_returns.
Qed.
End Returns.

End OrchestratorFacts.

Module OrchestratorSpec.
Import Props MonadFacts FrameFacts LifecycleFacts CacheSpec OrchestratorFacts
       DockerManager MockDataService SandboxService.

Section Statistics.
Context `{Builtins}.

(** After the container exists: a returned response has bumped the
    endpoint row, a thrown error has left the table alone. *)
Lemma runAndRespond_endpoints (endpointId userId : string) (ep : Endpoint)
    (data : ExecutionData) (o : RequestOracle) (containerId : string) (w : World) :
  match runAndRespond endpointId userId ep data o containerId w with
  | (Return _, w') =>
      endpoints w' = <[endpointId := bump ep (o_called o)]> (endpoints w)
  | (Throw _, w') => endpoints w' = endpoints w
  end.
Proof.
  unfold runAndRespond. rewrite bind_run.
  pose proof (run_keeps endpoints (fun _ _ => eq_refl) (fun _ _ => eq_refl)
                containerId (o_exec o) w) as H1.
  destruct (DockerManager.executeCode containerId (o_exec o) w) as [[r|e] w1];
    cbn [snd] in H1; [|exact H1].
  cbv zeta. rewrite bind_run.
  pose proof (applySaveDirective_keeps endpoints (fun _ _ => eq_refl)
                endpointId userId ep data r (o_save o) w1) as H2.
  destruct (applySaveDirective_returns endpointId userId ep data r (o_save o) w1)
    as [l1 Hl1].
  destruct (applySaveDirective endpointId userId ep data r (o_save o) w1) as [r2 w2].
  cbn [fst snd] in *. subst r2. rewrite bind_run.
  pose proof (processSaveQueue_keeps endpoints (fun _ _ => eq_refl)
                (fun _ _ => eq_refl) userId containerId (o_queue o) w2) as H3.
  destruct (processSaveQueue_returns userId containerId (o_queue o) w2) as [l2 Hl2].
  destruct (processSaveQueue userId containerId (o_queue o) w2) as [r3 w3].
  cbn [fst snd] in *. subst r3. rewrite bind_run.
  match goal with
  | |- context [logExecution ?rec ?ok w3] =>
      pose proof (logExecution_keeps endpoints rec ok (fun _ _ => eq_refl) w3) as H4;
      pose proof (logExecution_returns rec ok w3) as Hl4;
      destruct (logExecution rec ok w3) as [r4 w4]
  end.
  cbn [fst snd] in *. subst r4. rewrite bind_run. unfold modify, throw, ret.
  destruct (o_update_ok o); cbn [endpoints set_endpoints];
    rewrite H4, H3, H2, H1; reflexivity.
Qed.

End Statistics.


Lemma truthy_get (v : jsval) (k : string) :
  truthy (get v k) = true -> truthy v = true.
Proof. destruct v; cbn; try discriminate; auto. Qed.

(** Claim C1, as the code has it.  When the parsed output carries a
    save directive, the collection id handed to the save operation is
    the id the sandbox reported whenever that is present (truthy), and
    the id of the request only when the sandbox reported none; the same
    holds for the user and endpoint ids.  The item array and the
    execution id are the sandbox's.  The saved result is the only entry
    of the save results, and a failing save leaves them empty. *)
Theorem directive_identifiers_default_to_request `{Builtins}
    (endpointId userId : string) (ep : Endpoint) (data : ExecutionData)
    (r : RunResult) (o : SaveOracle) (w : World) (saveOp : jsval) :
  get (get (parseOutput (run_output r)) "data") "_saveOperation" = saveOp ->
  truthy saveOp = true ->
  nullish (get saveOp "data") = false ->
  applySaveDirective endpointId userId ep data r o w
  = match saveFromExecution
            (if truthy (get saveOp "collectionId")
             then get saveOp "collectionId" else mockDataCollectionId data)
            (get saveOp "data")
            (if truthy (get saveOp "userId")
             then get saveOp "userId" else JStr userId)
            (JObj [ ("endpointId",
                      if truthy (get saveOp "endpointId")
                      then get saveOp "endpointId" else JStr endpointId);
                    ("executionId", get saveOp "executionId") ])
            o w with
    | (Return saved, w') => (Return [saved], w')
    | (Throw _, w') => (Return [], w')
    end.
Proof.
  intros Hop Htruthy Hdata. unfold applySaveDirective, try_catch. cbv zeta.
  rewrite Hop, Htruthy.
  assert (Hd : truthy (get (parseOutput (run_output r)) "data") = true).
  { apply truthy_get with (k := "_saveOperation"). now rewrite Hop. }
  rewrite Hd, (truthy_get _ _ Hd). cbn [andb].
  destruct (completeSaveOp_fields saveOp (mockDataCollectionId data)
              endpointId userId (ep_projectId ep)) as (Hc & He & Hu & Hdt & Hx).
  rewrite Hc, He, Hu, Hdt, Hx, Hdata. unfold Js.or.
  cbv [mbind M_bind bind ret].
  match goal with
  | |- context [saveFromExecution ?a ?b ?c ?d o w] =>
      destruct (saveFromExecution a b c d o w) as [[saved|e] w']
  end; reflexivity.
Qed.

(** A directive that names no collection: the request's id is used. *)
Lemma directive_identifiers_default_to_request_run :
  let saveOp := JObj [ ("data", JArr [JNum 41]); ("executionId", JStr "exec_1") ] in
  let r := {| run_success := true; run_output := Scenario.returns_directive saveOp;
              run_error := JNull; run_logs := JArr [];
              run_executionTime := 39; run_exitCode := 0 |} in
  let w := Scenario.world1 "return 1" in
  let o := {| update_ok := true |} in
  let data := Scenario.request (JStr "col_A") in
  (get (get (@parseOutput (Scenario.host []) (run_output r)) "data") "_saveOperation"
     = saveOp
   /\ truthy saveOp = true
   /\ nullish (get saveOp "data") = false)
  /\ @applySaveDirective (Scenario.host []) "ep_1" Scenario.alice
        (Scenario.endpoint1 "return 1") data r o w
      = match @saveFromExecution (Scenario.host [])
                (JStr "col_A") (JArr [JNum 41]) (JStr Scenario.alice)
                (JObj [ ("endpointId", JStr "ep_1");
                        ("executionId", JStr "exec_1") ]) o w with
        | (Return saved, w') => (Return [saved], w')
        | (Throw _, w') => (Return [], w')
        end.
Proof.
  intros saveOp r w o data.
  split; [repeat split; reflexivity|].
  exact (directive_identifiers_default_to_request (H := Scenario.host [])
           "ep_1" Scenario.alice (Scenario.endpoint1 "return 1") data r o w saveOp
           eq_refl eq_refl eq_refl).
Defined.

(** The claim as stated fails: the request selects collection [col_A],
    the sandbox returns a directive that names [col_B], and the save is
    applied to [col_B]; [col_A] keeps its items. *)
Lemma sandbox_reported_collection_wins :
  let d := Scenario.directive (JStr "col_B") [JNum 41; JNum 42] in
  let payload := Scenario.harness_payload (Scenario.returns_directive d) in
  let w := Scenario.world1 "return 1" in
  let o := Scenario.oracle1 (StreamEnd (Scenario.stdout_of payload) [] (inl 0)) in
  let data := Scenario.request (JStr "col_A") in
  let run := @executeEndpoint (Scenario.host [payload]) "ep_1" Scenario.alice data o w in
  mockDataCollectionId data = JStr "col_A"
  /\ get (completeSaveOp d (mockDataCollectionId data) "ep_1" Scenario.alice "proj_1")
        "collectionId" = JStr "col_B"
  /\ (col_data <$> mockDataCollections w !! "col_B") = Some (JArr [JNum 2])
  /\ (col_data <$> mockDataCollections (snd run) !! "col_B")
      = Some (JArr [JNum 41; JNum 42])
  /\ (col_data <$> mockDataCollections (snd run) !! "col_A") = Some (JArr [JNum 1])
  /\ exists resp, fst run = Return resp /\ resp_success resp = true.
Proof.
  intros d payload w o data run.
  repeat split; try (vm_compute; reflexivity).
  eexists; split; vm_compute; reflexivity.
Qed.

(** Claim C9 at a failing save.  The run succeeds and returns a
    directive for a collection that does not exist, so the save throws
    [COLLECTION_NOT_FOUND].  The response is returned with
    [success = true], but its [savedData] is [null]: the failure is on
    the server console only.  The same directive taken from the save
    queue instead is reported, as an unsuccessful entry of
    [savedData.results]. *)
Theorem failed_save_is_missing_from_response :
  let d := Scenario.directive (JStr "col_gone") [JNum 41] in
  let payload := Scenario.harness_payload (Scenario.returns_directive d) in
  let plain := Scenario.harness_payload (JObj [ ("status", JNum 200) ]) in
  let w := Scenario.world1 "return 1" in
  let queued := set_saveQueue (insert "c1" [d]) w in
  let data := Scenario.request (JStr "col_gone") in
  let run := @executeEndpoint (Scenario.host [payload]) "ep_1" Scenario.alice data
               (Scenario.oracle1 (StreamEnd (Scenario.stdout_of payload) [] (inl 0))) w in
  let sibling := @executeEndpoint (Scenario.host [plain]) "ep_1" Scenario.alice data
                   (Scenario.oracle1 (StreamEnd (Scenario.stdout_of plain) [] (inl 0)))
                   queued in
  fst (@saveFromExecution (Scenario.host [payload]) (JStr "col_gone") (JArr [JNum 41])
         (JStr Scenario.alice)
         (JObj [ ("endpointId", JStr "ep_1"); ("executionId", JStr "exec_1") ])
         {| update_ok := true |} w)
    = Throw "COLLECTION_NOT_FOUND"
  /\ (exists resp, fst run = Return resp
                   /\ resp_success resp = true
                   /\ resp_error resp = JNull
                   /\ resp_savedData resp = JNull)
  /\ (exists resp, fst sibling = Return resp
                   /\ resp_success resp = true
                   /\ resp_savedData resp
                      = savedData [ JObj [ ("success", JBool false);
                                           ("error", JStr "COLLECTION_NOT_FOUND");
                                           ("collectionName", JStr "users") ] ]).
Proof.
  intros d payload plain w queued data run sibling.
  split; [vm_compute; reflexivity|].
  split; eexists; repeat split; vm_compute; reflexivity.
Qed.

End OrchestratorSpec.

(* ===================================================================== *)
(** * Further properties of the engine                                    *)
(* ===================================================================== *)

Module ContainerExtras.
Import Props Props2 MonadFacts LifecycleFacts DockerManager Maintenance.

Lemma destroyContainer_run (id : string) (o : DestroyOracle) (w : World) :
  destroyContainer id o w
  = (Return tt,
     match activeContainers w !! id with
     | None => w
     | Some _ =>
         if stop_ok o
         then set_activeContainers (delete id)
                (set_dockerCalls (fun l => l ++ [DStop id]) w)
         else if remove_ok o
         then set_activeContainers (delete id)
                (set_dockerCalls (fun l => l ++ [DRemove id])
                   (set_dockerCalls (fun l => l ++ [DStop id]) w))
         else set_dockerCalls (fun l => l ++ [DRemove id])
                (set_dockerCalls (fun l => l ++ [DStop id]) w)
     end).
Proof.
  cbv [destroyContainer mbind M_bind bind read try_catch docker_call modify throw ret].
  destruct (activeContainers w !! id); [|reflexivity].
  destruct (stop_ok o); [reflexivity|].
  destruct (remove_ok o); reflexivity.
Qed.

Lemma destroyContainer_registry (id : string) (o : DestroyOracle) (w : World) :
  activeContainers (snd (destroyContainer id o w))
  = if stop_ok o || remove_ok o then delete id (activeContainers w)
    else activeContainers w.
Proof.
  rewrite destroyContainer_run. cbn [snd].
  destruct (activeContainers w !! id) as [d|] eqn:Hd.
  - destruct (stop_ok o); [|destruct (remove_ok o)]; reflexivity.
  - destruct (stop_ok o || remove_ok o); [|reflexivity].
    symmetry. apply delete_id. exact Hd.
Qed.

(** Property X1.
    [destroyContainer] never throws.  The container leaves the registry
    exactly when the daemon honours the stop or, failing that, the
    forced removal; an id that is not registered costs no daemon call
    and changes nothing. *)
Theorem destroyContainer_unregisters (id : string) (o : DestroyOracle) (w : World) :
  let w' := snd (destroyContainer id o w) in
  fst (destroyContainer id o w) = Return tt
  /\ activeContainers w'
     = (if stop_ok o || remove_ok o then delete id (activeContainers w)
        else activeContainers w)
  /\ dockerCalls w'
     = dockerCalls w ++
       match activeContainers w !! id with
       | None => []
       | Some _ => if stop_ok o then [DStop id] else [DStop id; DRemove id]
       end
  /\ (activeContainers w !! id = None -> w' = w).
Proof.
  cbv zeta. split; [rewrite destroyContainer_run; reflexivity|].
  split; [apply destroyContainer_registry|].
  rewrite destroyContainer_run. cbn [snd].
  destruct (activeContainers w !! id) as [d|] eqn:Hd.
  - split; [|discriminate].
    destruct (stop_ok o); [|destruct (remove_ok o)];
      cbn [dockerCalls set_activeContainers set_dockerCalls];
      rewrite <- ?app_assoc; reflexivity.
  - rewrite app_nil_r. split; [reflexivity|intros _; reflexivity].
Qed.

End ContainerExtras.

Module CreationFacts.
Import Props Props2 MonadFacts LifecycleFacts DockerManager.

Lemma createContainer_outcomes_started (lang : string) (o : CreateOracle) (w : World) :
  match createContainer lang o w with
  | (Return id, _) => create_outcome o = Started id
  | (Throw _, _) => True
  end.
Proof.
  cbv [createContainer mbind M_bind bind read].
  destruct (Nat.leb (maxContainers w) (size (activeContainers w))); [exact I|].
  cbv [try_catch docker_call modify throw ret mbind M_bind bind].
  destruct (create_outcome o); cbn; auto.
Qed.

End CreationFacts.

Module LeakExtras.
Import Props Props2 MonadFacts LifecycleFacts DockerManager Maintenance.
Import ContainerExtras.

Lemma destroyContainer_other (id id' : string) (o : DestroyOracle) (w : World) :
  activeContainers w !! id = None ->
  let w' := snd (destroyContainer id' o w) in
  activeContainers w' !! id = None
  /\ List.filter (takes_down id) (dockerCalls w')
     = List.filter (takes_down id) (dockerCalls w).
Proof.
  intros Hid. cbv zeta. rewrite destroyContainer_run. cbn [snd].
  destruct (activeContainers w !! id') as [d|] eqn:Hd'; [|auto].
  assert (Hne : String.eqb id' id = false).
  { apply String.eqb_neq. intros ->. congruence. }
  assert (Hdel : delete id' (activeContainers w) !! id = None).
  { rewrite lookup_delete_ne; [exact Hid|]. intros ->.
    rewrite String.eqb_refl in Hne. discriminate. }
  destruct (stop_ok o); [|destruct (remove_ok o)];
    cbn [activeContainers dockerCalls set_activeContainers set_dockerCalls];
    rewrite ?List.filter_app; cbn [List.filter takes_down]; rewrite ?Hne, ?app_nil_r;
    auto.
Qed.

Lemma destroyAll_other (id : string) (ids : list string)
    (o : string -> DestroyOracle) (w : World) :
  activeContainers w !! id = None ->
  let w' := snd (destroyAll ids o w) in
  activeContainers w' !! id = None
  /\ List.filter (takes_down id) (dockerCalls w')
     = List.filter (takes_down id) (dockerCalls w).
Proof.
  revert w. induction ids as [|id' rest IH]; intros w Hid; cbn [destroyAll].
  - cbn. auto.
  - cbv zeta. rewrite bind_run.
    destruct (destroyContainer_other id id' (o id') w Hid) as [H1 H2].
    rewrite destroyContainer_run in *. cbn [snd] in *.
    destruct (IH _ H1) as [H3 H4]. split; [exact H3|].
    rewrite H4. exact H2.
Qed.

(** Property X2.
    A container that the daemon created but could not start is not
    registered, and what is not registered is never taken down: the
    failed call itself does not remove it, and no later sweep of
    [cleanupOldContainers] stops, removes or kills it. *)
Theorem start_failure_is_never_cleaned_up (lang id : string) (o : CreateOracle)
    (w : World) (maxAge now : Z) (od : string -> DestroyOracle) :
  create_outcome o = StartFailed id ->
  (size (activeContainers w) < maxContainers w)%nat ->
  activeContainers w !! id = None ->
  let w1 := snd (createContainer lang o w) in
  let w2 := snd (cleanupOldContainers maxAge now od w1) in
  fst (createContainer lang o w) = Throw "CONTAINER_CREATION_FAILED"
  /\ dockerCalls w1
     = dockerCalls w ++ [DCreate (getImageForLanguage lang); DStart id]
  /\ activeContainers w2 !! id = None
  /\ List.filter (takes_down id) (dockerCalls w2)
     = List.filter (takes_down id) (dockerCalls w).
Proof.
  intros Hout Hsize Hid.
  assert (Hle : Nat.leb (maxContainers w) (size (activeContainers w)) = false)
    by (apply Nat.leb_gt; exact Hsize).
  assert (Hrun : createContainer lang o w
                 = (Throw "CONTAINER_CREATION_FAILED",
                    set_dockerCalls (fun l => l ++ [DStart id])
                      (set_dockerCalls
                         (fun l => l ++ [DCreate (getImageForLanguage lang)]) w))).
  { cbv [createContainer mbind M_bind bind read]. rewrite Hle.
    cbv [try_catch docker_call modify throw ret mbind M_bind bind].
    rewrite Hout. reflexivity. }
  cbv zeta. rewrite Hrun. cbn [fst snd].
  split; [reflexivity|]. split.
  { cbn [dockerCalls set_dockerCalls]. rewrite <- app_assoc. reflexivity. }
  unfold cleanupOldContainers. rewrite bind_run. unfold read.
  match goal with
  | |- context [destroyAll ?ids od ?w1] =>
      destruct (destroyAll_other id ids od w1 Hid) as [H1 H2]
  end.
  split; [exact H1|]. rewrite H2.
  cbn [dockerCalls set_dockerCalls]. rewrite !List.filter_app.
  cbn [List.filter takes_down]. rewrite !app_nil_r. reflexivity.
Qed.

Lemma start_failure_is_never_cleaned_up_run :
  let o := {| create_outcome := StartFailed "c9"; create_time := 1000 |} in
  let w1 := snd (createContainer "node" o Scenario.one_container) in
  let w2 := snd (cleanupOldContainers 3600000 9999999
                   (fun _ => Scenario.destroy_ok) w1) in
  fst (createContainer "node" o Scenario.one_container)
    = Throw "CONTAINER_CREATION_FAILED"
  /\ dockerCalls w1
     = dockerCalls Scenario.one_container ++ [DCreate "node:18-alpine"; DStart "c9"]
  /\ activeContainers w2 !! "c9" = None
  /\ List.filter (takes_down "c9") (dockerCalls w2)
     = List.filter (takes_down "c9") (dockerCalls Scenario.one_container).
Proof.
  apply (start_failure_is_never_cleaned_up "node" "c9"
           {| create_outcome := StartFailed "c9"; create_time := 1000 |}
           Scenario.one_container 3600000 9999999 (fun _ => Scenario.destroy_ok)).
  - reflexivity.
  - vm_compute. lia.
  - vm_compute. reflexivity.
Defined.

End LeakExtras.

Module MaintenanceExtras.
Import Props Props2 MonadFacts LifecycleFacts DockerManager Maintenance.
Import ContainerExtras.

Lemma destroyAll_returns (ids : list string) (o : string -> DestroyOracle) (w : World) :
  fst (destroyAll ids o w) = Return tt.
Proof.
  revert w. induction ids as [|id rest IH]; intros w; cbn [destroyAll]; [reflexivity|].
  rewrite bind_run, destroyContainer_run. apply IH.
Qed.

Lemma destroyAll_lookup (ids : list string) (o : string -> DestroyOracle)
    (w : World) (id : string) :
  activeContainers (snd (destroyAll ids o w)) !! id
  = if existsb (String.eqb id) ids && (stop_ok (o id) || remove_ok (o id))
    then None else activeContainers w !! id.
Proof.
  revert w. induction ids as [|id' rest IH]; intros w; cbn [destroyAll existsb].
  - reflexivity.
  - rewrite bind_run.
    pose proof (destroyContainer_registry id' (o id') w) as Hreg.
    rewrite destroyContainer_run in *. cbn [snd] in *.
    rewrite IH, Hreg. clear IH Hreg.
    destruct (String.eqb id id') eqn:Heq.
    + apply String.eqb_eq in Heq. subst id'. cbn [orb].
      destruct (stop_ok (o id) || remove_ok (o id)).
      * rewrite lookup_delete_eq. rewrite andb_true_r.
        destruct (existsb _ rest); reflexivity.
      * rewrite !andb_false_r. reflexivity.
    + cbn [orb].
      assert (Hne : id' <> id).
      { intros ->. rewrite String.eqb_refl in Heq. discriminate. }
      destruct (stop_ok (o id') || remove_ok (o id'));
        rewrite ?lookup_delete_ne by exact Hne; reflexivity.
Qed.

Lemma toRemove_spec (now maxAge : Z) (w : World) (id : string) :
  existsb (String.eqb id) (toRemove now maxAge w)
  = match activeContainers w !! id with
    | Some d => expired now maxAge d
    | None => false
    end.
Proof.
  unfold toRemove.
  destruct (existsb _ _) eqn:Hex.
  - apply existsb_exists in Hex. destruct Hex as (id' & Hin & Heq).
    apply String.eqb_eq in Heq. subst id'.
    apply in_map_iff in Hin. destruct Hin as ([k d] & Hk & Hin). cbn in Hk. subst k.
    apply filter_In in Hin. destruct Hin as [Hin Hexp]. cbn in Hexp.
    apply list_elem_of_In, elem_of_map_to_list in Hin. rewrite Hin. auto.
  - destruct (activeContainers w !! id) as [d|] eqn:Hd; [|reflexivity].
    destruct (expired now maxAge d) eqn:Hexp; [|reflexivity].
    exfalso. apply Bool.not_true_iff_false in Hex. apply Hex.
    apply existsb_exists. exists id. split; [|apply String.eqb_refl].
    apply in_map_iff. exists (id, d). split; [reflexivity|].
    apply filter_In. split; [|exact Hexp].
    apply list_elem_of_In, elem_of_map_to_list. exact Hd.
Qed.

Lemma cleanupOldContainers_lookup (maxAge now : Z)
    (o : string -> DestroyOracle) (w : World) (id : string) :
  activeContainers (snd (cleanupOldContainers maxAge now o w)) !! id
  = match activeContainers w !! id with
    | Some d =>
        if Z.ltb maxAge (now - lastUsed d)
           && (stop_ok (o id) || remove_ok (o id))
        then None else Some d
    | None => None
    end.
Proof.
  unfold cleanupOldContainers. rewrite bind_run. unfold read.
  rewrite destroyAll_lookup, toRemove_spec.
  destruct (activeContainers w !! id) as [d|]; reflexivity.
Qed.

(** Property X3.
    A sweep of [cleanupOldContainers] never throws, and afterwards the
    registry holds exactly the containers it held before, less those
    that were idle for more than [maxAge] and that the daemon agreed to
    stop or to remove.  A container used within [maxAge] is kept with
    its time stamps; an expired one the daemon refuses to let go stays
    registered. *)
Theorem cleanupOldContainers_registry (maxAge now : Z)
    (o : string -> DestroyOracle) (w : World) (id : string) :
  fst (cleanupOldContainers maxAge now o w) = Return tt
  /\ activeContainers (snd (cleanupOldContainers maxAge now o w)) !! id
     = match activeContainers w !! id with
       | Some d =>
           if Z.ltb maxAge (now - lastUsed d)
              && (stop_ok (o id) || remove_ok (o id))
           then None else Some d
       | None => None
       end.
Proof.
  split; [|apply cleanupOldContainers_lookup].
  unfold cleanupOldContainers. rewrite bind_run. unfold read.
  apply destroyAll_returns.
Qed.

End MaintenanceExtras.

Module RunExtras.
Import Props Props2 MonadFacts LifecycleFacts DockerManager Maintenance.
Import ContainerExtras MaintenanceExtras.

Section Run.
Context `{Builtins}.

Lemma executeCode_registry (id : string) (o : ExecOracle) (w : World)
    (d : ContainerData) :
  activeContainers w !! id = Some d ->
  activeContainers (snd (executeCode id o w))
  = if timed_out_and_killed o then delete id (activeContainers w)
    else <[id := {| createdAt := createdAt d; lastUsed := exec_time o |}]>
           (activeContainers w).
Proof.
  intros Hd. unfold executeCode, timed_out_and_killed.
  rewrite bind_run. unfold read. rewrite Hd.
  unfold docker_call. rewrite !bind_run. unfold modify.
  destruct (exec_failure o); [reflexivity|].
  destruct (stream o) as [|stdout stderr [code|e]|e]; try reflexivity.
  rewrite bind_run.
  cbv [forceStopContainer mbind M_bind bind read try_catch docker_call modify
       throw ret].
  cbn [activeContainers set_activeContainers set_dockerCalls].
  rewrite lookup_insert_eq.
  destruct (kill_ok o); cbn [snd activeContainers set_activeContainers set_dockerCalls].
  - apply delete_insert_eq.
  - reflexivity.
Qed.

(** Property X4.  [executeCode] on an id that is not registered throws
    CONTAINER_NOT_FOUND and does nothing else.  On a registered
    container it touches no other entry of the registry; its own entry
    keeps the creation time and gets the start of the run as its time
    of last use, whatever the run ends in, unless the run timed out and
    the container was killed, in which case the entry is gone. *)
Theorem executeCode_refreshes_last_use (id : string) (o : ExecOracle) (w : World) :
  match activeContainers w !! id with
  | None => executeCode id o w = (Throw "CONTAINER_NOT_FOUND", w)
  | Some d =>
      let after := activeContainers (snd (executeCode id o w)) in
      after !! id
      = (if timed_out_and_killed o then None
         else Some {| createdAt := createdAt d; lastUsed := exec_time o |})
      /\ forall id', id' <> id -> after !! id' = activeContainers w !! id'
  end.
Proof.
  destruct (activeContainers w !! id) as [d|] eqn:Hd.
  - cbv zeta. rewrite (executeCode_registry id o w d Hd).
    destruct (timed_out_and_killed o); split.
    + apply lookup_delete_eq.
    + intros id' Hne. apply lookup_delete_ne. congruence.
    + apply lookup_insert_eq.
    + intros id' Hne. apply lookup_insert_ne. congruence.
  - unfold executeCode. rewrite bind_run. unfold read. rewrite Hd. reflexivity.
Qed.

(** Property X5.
    A container that has run code within [maxAge] of a sweep is kept by
    the sweep, however long ago it was created and whatever the daemon
    would answer to a stop. *)
Theorem recently_used_survives_sweep (id : string) (o : ExecOracle) (w : World)
    (d : ContainerData) (maxAge now : Z) (od : string -> DestroyOracle) :
  activeContainers w !! id = Some d ->
  timed_out_and_killed o = false ->
  now - exec_time o <= maxAge ->
  activeContainers
    (snd (cleanupOldContainers maxAge now od (snd (executeCode id o w)))) !! id
  = Some {| createdAt := createdAt d; lastUsed := exec_time o |}.
Proof.
  intros Hd Hrun Hage.
  rewrite cleanupOldContainers_lookup, (executeCode_registry id o w d Hd), Hrun,
    lookup_insert_eq.
  cbn [lastUsed].
  assert (Hfresh : Z.ltb maxAge (now - exec_time o) = false)
    by (apply Z.ltb_ge; exact Hage).
  rewrite Hfresh. reflexivity.
Qed.
End Run.

Lemma recently_used_survives_sweep_run :
  let o := Scenario.exec_with (StreamError "socket hang up") true in
  activeContainers
    (snd (cleanupOldContainers 3600000 3601001 (fun _ => Scenario.destroy_ok)
            (snd (@executeCode (Scenario.host []) "c1" o Scenario.one_container))))
    !! "c1"
  = Some {| createdAt := 1000; lastUsed := 1001 |}.
Proof.
  apply (@recently_used_survives_sweep (Scenario.host []) "c1"
           (Scenario.exec_with (StreamError "socket hang up") true)
           Scenario.one_container {| createdAt := 1000; lastUsed := 1000 |}
           3600000 3601001 (fun _ => Scenario.destroy_ok)).
  - reflexivity.
  - reflexivity.
  - vm_compute. discriminate.
Defined.

End RunExtras.

Module CaseFacts.
Import Props Props2 RegexFacts CodeExecutor.

Lemma to_lower_idem (c : ascii) : to_lower (to_lower c) = to_lower c.
Proof. destruct c as [[] [] [] [] [] [] [] []]; reflexivity. Qed.

Lemma is_space_to_lower (c : ascii) : is_space (to_lower c) = is_space c.
Proof. destruct c as [[] [] [] [] [] [] [] []]; reflexivity. Qed.

Lemma quote_to_lower (c : ascii) : quote (to_lower c) = quote c.
Proof. destruct c as [[] [] [] [] [] [] [] []]; reflexivity. Qed.

Lemma ci_to_lower (c x : ascii) : ci c (to_lower x) = ci c x.
Proof. unfold ci. rewrite to_lower_idem. reflexivity. Qed.

Lemma length_chars (s : string) : length (chars s) = String.length s.
Proof. induction s as [|c s IH]; cbn; [reflexivity|]. f_equal. exact IH. Qed.

Lemma alike_length (t t' : text) : alike t t' -> length t = length t'.
Proof.
  intros H. rewrite <- (length_map to_lower t), <- (length_map to_lower t').
  unfold alike in H. rewrite H. reflexivity.
Qed.

Lemma alike_cons (c c' : ascii) (t t' : text) :
  alike (c :: t) (c' :: t') -> to_lower c = to_lower c' /\ alike t t'.
Proof. unfold alike. cbn. intros H. inversion H. auto. Qed.

Lemma case_blind_class (cls : ascii -> bool) (c c' : ascii) :
  (forall x, cls (to_lower x) = cls x) -> to_lower c = to_lower c' -> cls c = cls c'.
Proof. intros Hb Hc. rewrite <- (Hb c), <- (Hb c'), Hc. reflexivity. Qed.

Lemma match_here_many_cons (cls : ascii -> bool) (p : pattern) (c : ascii) (t : text) :
  match_here (Many cls :: p) (c :: t)
  = if cls c
    then match match_here (Many cls :: p) t with
         | Some r => Some r
         | None => match_here p (c :: t)
         end
    else match_here p (c :: t).
Proof. reflexivity. Qed.

Lemma match_here_many_nil (cls : ascii -> bool) (p : pattern) :
  match_here (Many cls :: p) [] = match_here p [].
Proof. reflexivity. Qed.

Lemma match_here_alike (p : pattern) :
  Forall case_blind p ->
  forall t t', alike t t' -> alike_results (match_here p t) (match_here p t').
Proof.
  induction 1 as [|a p Ha Hp IH]; intros t t' Ht.
  - exact Ht.
  - destruct a as [cls|cls]; cbn [case_blind] in Ha.
    + destruct t as [|c t], t' as [|c' t']; try discriminate Ht; [exact I|].
      apply alike_cons in Ht. destruct Ht as [Hc Ht].
      cbn [match_here]. rewrite (case_blind_class cls c c' Ha Hc).
      destruct (cls c'); [apply IH; exact Ht|exact I].
    + revert t' Ht. induction t as [|c t IHt]; intros t' Ht;
        destruct t' as [|c' t']; try discriminate Ht.
      * rewrite match_here_many_nil. apply IH. reflexivity.
      * pose proof Ht as Hfull.
        apply alike_cons in Ht. destruct Ht as [Hc Ht].
        rewrite !match_here_many_cons.
        rewrite (case_blind_class cls c c' Ha Hc).
        specialize (IHt t' Ht). specialize (IH (c :: t) (c' :: t') Hfull).
        destruct (cls c'); [|exact IH].
        destruct (match_here (Many cls :: p) t), (match_here (Many cls :: p) t');
          cbn in IHt; try contradiction; [exact IHt|exact IH].
Qed.

Lemma test_unfold (p : pattern) (t : text) :
  test p t = match match_here p t with
             | Some _ => true
             | None => match t with [] => false | _ :: t' => test p t' end
             end.
Proof. destruct t; reflexivity. Qed.

Lemma test_alike (p : pattern) (t t' : text) :
  Forall case_blind p -> alike t t' -> test p t = test p t'.
Proof.
  intros Hp. revert t'. induction t as [|c t IH]; intros t' Ht;
    destruct t' as [|c' t']; try discriminate Ht;
    pose proof (match_here_alike p Hp _ _ Ht) as Hm.
  - reflexivity.
  - rewrite (test_unfold p (c :: t)), (test_unfold p (c' :: t')).
    apply alike_cons in Ht. destruct Ht as [_ Ht].
    destruct (match_here p (c :: t)), (match_here p (c' :: t'));
      cbn in Hm; try contradiction; [reflexivity|]. apply IH. exact Ht.
Qed.

Lemma count_from_alike (p : pattern) (t t' : text) (k : nat) :
  Forall case_blind p -> alike t t' -> count_from p t k = count_from p t' k.
Proof.
  intros Hp. revert t' k. induction t as [|c t IH]; intros t' k Ht;
    destruct t' as [|c' t']; try discriminate Ht.
  - destruct k; cbn [count_from]; [|reflexivity].
    pose proof (match_here_alike p Hp [] [] Ht) as Hm.
    destruct (match_here p []); reflexivity.
  - pose proof (match_here_alike p Hp _ _ Ht) as Hm.
    pose proof (alike_length _ _ Ht) as Hlen.
    apply alike_cons in Ht. destruct Ht as [_ Ht].
    destruct k; cbn [count_from]; [|apply IH; exact Ht].
    destruct (match_here p (c :: t)) as [r|], (match_here p (c' :: t')) as [r'|];
      cbn in Hm; try contradiction.
    + f_equal. rewrite (alike_length _ _ Hm), Hlen. apply IH. exact Ht.
    + apply IH. exact Ht.
Qed.

Lemma trim_start_alike (t t' : text) :
  alike t t' -> alike (trim_start t) (trim_start t').
Proof.
  revert t'. induction t as [|c t IH]; intros t' Ht;
    destruct t' as [|c' t']; try discriminate Ht; [exact Ht|].
  pose proof Ht as Hfull. apply alike_cons in Ht. destruct Ht as [Hc Ht].
  cbn [trim_start].
  rewrite (case_blind_class is_space c c' is_space_to_lower Hc).
  destruct (is_space c'); [apply IH; exact Ht|exact Hfull].
Qed.

Lemma rev_alike (t t' : text) : alike t t' -> alike (rev t) (rev t').
Proof. unfold alike. intros H. rewrite !map_rev, H. reflexivity. Qed.

Lemma trim_alike (t t' : text) : alike t t' -> alike (trim t) (trim t').
Proof.
  intros H. unfold trim.
  apply rev_alike, trim_start_alike, rev_alike, trim_start_alike, H.
Qed.

Lemma lit_case_blind (s : string) : Forall case_blind (lit s).
Proof.
  unfold lit. induction (chars s) as [|c l IH]; cbn; constructor; [|exact IH].
  cbn. intros x. apply ci_to_lower.
Qed.

Lemma ws_case_blind : case_blind (Many ws).
Proof. cbn. exact is_space_to_lower. Qed.

Lemma quote_case_blind : case_blind (One quote).
Proof. cbn. exact quote_to_lower. Qed.

Ltac blind :=
  repeat first
    [ apply Forall_app; split
    | apply lit_case_blind
    | apply List.Forall_cons; [first [exact ws_case_blind | exact quote_case_blind]|]
    | apply List.Forall_nil ].

Lemma dangerousPatterns_case_blind :
  Forall (Forall case_blind) dangerousPatterns.
Proof.
  unfold dangerousPatterns, call_with_quoted.
  repeat (apply List.Forall_cons; [blind|]). apply List.Forall_nil.
Qed.

Lemma loopPatterns_case_blind :
  Forall (Forall case_blind) loopPatterns.
Proof.
  unfold loopPatterns.
  repeat (apply List.Forall_cons; [blind|]). apply List.Forall_nil.
Qed.

Lemma existsb_test_alike (ps : list pattern) (t t' : text) :
  Forall (Forall case_blind) ps -> alike t t' ->
  existsb (fun p => test p t) ps = existsb (fun p => test p t') ps.
Proof.
  intros Hps Ht. induction Hps as [|p ps Hp _ IH]; cbn; [reflexivity|].
  rewrite (test_alike p t t' Hp Ht), IH. reflexivity.
Qed.

Lemma fold_count_alike (ps : list pattern) (t t' : text) (n : nat) :
  Forall (Forall case_blind) ps -> alike t t' ->
  fold_left (fun count p => (count + count_matches p t)%nat) ps n
  = fold_left (fun count p => (count + count_matches p t')%nat) ps n.
Proof.
  intros Hps Ht. revert n. induction Hps as [|p ps Hp _ IH]; intros n; cbn;
    [reflexivity|].
  unfold count_matches at 2 4. rewrite (count_from_alike p t t' O Hp Ht). apply IH.
Qed.

End CaseFacts.

Module ValidationExtras.
Import Props Props2 RegexFacts CodeExecutor CaseFacts.

(** Property X6.
    The verdict of [validateCode] does not depend on the case of ASCII
    letters: every pattern carries the [i] flag, and length, white
    space and the order of the checks are blind to case. *)
Theorem validateCode_ignores_case (a b : string) :
  same_up_to_case a b -> validateCode a = validateCode b.
Proof.
  intros Hab. unfold same_up_to_case in Hab.
  unfold validateCode, validations.
  assert (Hlen : String.length a = String.length b).
  { rewrite <- !length_chars. apply alike_length. exact Hab. }
  assert (Hd : hasDangerousOperations a = hasDangerousOperations b).
  { unfold hasDangerousOperations.
    apply existsb_test_alike; [apply dangerousPatterns_case_blind|exact Hab]. }
  assert (Hl : hasExcessiveLoops a = hasExcessiveLoops b).
  { unfold hasExcessiveLoops, loopCount. f_equal.
    apply fold_count_alike; [apply loopPatterns_case_blind|exact Hab]. }
  assert (Hb : isBlank a = isBlank b).
  { unfold isBlank. pose proof (trim_alike _ _ Hab) as Ht.
    destruct (trim (chars a)), (trim (chars b)); try discriminate Ht; reflexivity. }
  rewrite Hlen, Hd, Hl, Hb. reflexivity.
Qed.

Lemma validateCode_ignores_case_run :
  validateCode "EVAL('1')" = validateCode "eval('1')".
Proof. apply validateCode_ignores_case. reflexivity. Defined.

End ValidationExtras.

Module BlankFacts.
Import Props Props2 RegexFacts CodeExecutor CaseFacts TextFacts.

Lemma trim_start_nil (t : text) : trim_start t = [] <-> all_space t = true.
Proof.
  unfold all_space. induction t as [|c t IH]; cbn; [tauto|].
  destruct (is_space c); cbn; [exact IH|]. split; discriminate.
Qed.

Lemma all_space_rev (t : text) : all_space (rev t) = all_space t.
Proof.
  unfold all_space. induction t as [|c t IH]; cbn; [reflexivity|].
  rewrite forallb_app, IH. cbn. rewrite andb_true_r. apply andb_comm.
Qed.

Lemma trim_nil (t : text) : trim t = [] <-> all_space t = true.
Proof.
  unfold trim. split.
  - intros Ht.
    assert (Hr : trim_start (rev (trim_start t)) = []).
    { destruct (trim_start (rev (trim_start t))) as [|c l]; [reflexivity|].
      cbn in Ht. destruct (rev l); discriminate. }
    apply trim_start_nil in Hr. rewrite all_space_rev in Hr.
    destruct (trim_start_split t) as (pre & Hpre & Hsplit & Hhead).
    destruct (trim_start t) as [|c u] eqn:Hu.
    + apply trim_start_nil. exact Hu.
    + cbn in Hr. rewrite Hhead in Hr. discriminate.
  - intros Ht. apply trim_start_nil in Ht. rewrite Ht. reflexivity.
Qed.

Lemma ci_solid (c : ascii) :
  is_space (to_lower c) = false ->
  forall x, is_space x = true -> ci c x = false.
Proof.
  intros Hc x Hx. unfold ci. destruct (Ascii.eqb_spec (to_lower x) (to_lower c)) as [E|];
    [|reflexivity].
  rewrite <- E, is_space_to_lower, Hx in Hc. discriminate.
Qed.

Lemma solid_no_match (p : pattern) (t : text) :
  starts_solid p -> all_space t = true -> match_here p t = None.
Proof.
  intros Hp Ht. destruct p as [|[cls|cls] p]; try contradiction.
  cbn in Hp. destruct t as [|c t]; [reflexivity|].
  cbn in Ht. apply andb_true_iff in Ht. destruct Ht as [Hc _].
  cbn. rewrite (Hp c Hc). reflexivity.
Qed.

Lemma solid_no_test (p : pattern) (t : text) :
  starts_solid p -> all_space t = true -> test p t = false.
Proof.
  intros Hp. induction t as [|c t IH]; intros Ht; rewrite test_unfold;
    rewrite (solid_no_match p _ Hp Ht); [reflexivity|].
  apply IH. cbn in Ht. apply andb_true_iff in Ht. tauto.
Qed.

Lemma solid_no_count (p : pattern) (t : text) (k : nat) :
  starts_solid p -> all_space t = true -> count_from p t k = O.
Proof.
  intros Hp. revert k. induction t as [|c t IH]; intros k Ht.
  - destruct k; cbn [count_from]; [|reflexivity].
    rewrite (solid_no_match p _ Hp Ht). reflexivity.
  - assert (Ht' : all_space t = true)
      by (cbn in Ht; apply andb_true_iff in Ht; tauto).
    destruct k; cbn [count_from]; [|apply IH; exact Ht'].
    rewrite (solid_no_match p _ Hp Ht). apply IH. exact Ht'.
Qed.

Ltac solid :=
  unfold starts_solid; cbn [lit chars list_ascii_of_string map app];
  apply ci_solid; reflexivity.

Lemma dangerousPatterns_solid : Forall starts_solid dangerousPatterns.
Proof.
  unfold dangerousPatterns, call_with_quoted.
  repeat (apply List.Forall_cons; [solid|]). apply List.Forall_nil.
Qed.

Lemma loopPatterns_solid : Forall starts_solid loopPatterns.
Proof.
  unfold loopPatterns.
  repeat (apply List.Forall_cons; [solid|]). apply List.Forall_nil.
Qed.

Lemma blank_not_dangerous (code_ : string) :
  all_space (chars code_) = true -> hasDangerousOperations code_ = false.
Proof.
  intros Hb. unfold hasDangerousOperations.
  induction dangerousPatterns_solid as [|p ps Hp _ IH]; cbn; [reflexivity|].
  rewrite (solid_no_test p _ Hp Hb). exact IH.
Qed.

Lemma blank_no_loops (code_ : string) :
  all_space (chars code_) = true -> loopCount code_ = O.
Proof.
  intros Hb. unfold loopCount.
  assert (Hgen : forall ps, Forall starts_solid ps ->
            fold_left (fun count p => (count + count_matches p (chars code_))%nat) ps O
            = O).
  { induction 1 as [|p ps Hp _ IH]; cbn; [reflexivity|].
    unfold count_matches at 2. rewrite (solid_no_count p _ O Hp Hb). exact IH. }
  apply Hgen, loopPatterns_solid.
Qed.

End BlankFacts.

Module BlankExtras.
Import Props Props2 RegexFacts CodeExecutor CaseFacts BlankFacts.

(** Property X7.
    EMPTY_CODE is the verdict on exactly the codes of at most 10000
    characters that consist of white space only (the empty code among
    them): white space trips neither the deny-list nor the loop
    counter, and a longer blank code is turned down for its length
    first. *)
Theorem empty_code_is_blank_code (code_ : string) :
  validateCode code_ = Throw "EMPTY_CODE"
  <-> Z.of_nat (String.length code_) <= maxCodeLength
      /\ all_space (chars code_) = true.
Proof.
  unfold validateCode, validations, first_failure. split.
  - destruct (Z.ltb_spec maxCodeLength (Z.of_nat (String.length code_)));
      [discriminate|].
    destruct (hasDangerousOperations code_); [discriminate|].
    destruct (hasExcessiveLoops code_); [discriminate|].
    unfold isBlank. destruct (trim (chars code_)) eqn:Ht; [|discriminate].
    intros _. split; [assumption|]. apply trim_nil. exact Ht.
  - intros [Hlen Hb].
    destruct (Z.ltb_spec maxCodeLength (Z.of_nat (String.length code_))); [lia|].
    rewrite (blank_not_dangerous code_ Hb).
    unfold hasExcessiveLoops. rewrite (blank_no_loops code_ Hb). cbn.
    unfold isBlank. apply trim_nil in Hb. rewrite Hb. reflexivity.
Qed.

End BlankExtras.

Module LoopExtras.
Import Props Props2 RegexFacts CodeExecutor CaseFacts BlankFacts.

Lemma many_ws_skip (s t r : text) (p : pattern) :
  all_space s = true -> starts_solid p -> match_here p t = Some r ->
  match_here (Many ws :: p) (s ++ t) = Some r.
Proof.
  intros Hs Hp Hm. induction s as [|c s IH]; cbn [app].
  - destruct p as [|[cls|cls] p]; try contradiction. cbn in Hp.
    destruct t as [|c t]; [discriminate Hm|].
    rewrite match_here_many_cons.
    destruct (ws c) eqn:Hc; [|exact Hm].
    cbn in Hm. unfold ws in Hc. rewrite (Hp c Hc) in Hm. discriminate.
  - cbn in Hs. apply andb_true_iff in Hs. destruct Hs as [Hc Hs].
    rewrite match_here_many_cons. unfold ws at 1. rewrite Hc, (IH Hs). reflexivity.
Qed.

Ltac step_lit := rewrite ?chars_app, <- ?app_assoc; rewrite match_here_lit.
Ltac step_ws :=
  rewrite ?chars_app, <- ?app_assoc;
  match goal with
  | |- match_here ([Many ws] ++ ?p) (chars ?s ++ ?t) = Some ?r =>
      change ([Many ws] ++ p) with (Many ws :: p);
      apply many_ws_skip; [assumption|solid|]
  end.

Lemma endless_while_found (pre post s1 s2 s3 : string) :
  blank s1 -> blank s2 -> blank s3 ->
  hasDangerousOperations (pre +:+ endless_while s1 s2 s3 +:+ post) = true.
Proof.
  unfold blank. intros H1 H2 H3.
  apply (ValidationFacts.dangerous_of_pattern
           (lit "while" ++ [Many ws] ++ lit "(" ++ [Many ws] ++ lit "true"
              ++ [Many ws] ++ lit ")")).
  { unfold dangerousPatterns. do 9 right. left. reflexivity. }
  rewrite chars_app. apply test_suffix. apply test_here with (r := chars post).
  unfold endless_while.
  step_lit. step_ws. step_lit. step_ws. step_lit. step_ws.
  rewrite <- (app_nil_r (lit ")")). rewrite match_here_lit. reflexivity.
Qed.

Lemma endless_for_found (pre post s1 s2 s3 s4 : string) :
  blank s1 -> blank s2 -> blank s3 -> blank s4 ->
  hasDangerousOperations (pre +:+ endless_for s1 s2 s3 s4 +:+ post) = true.
Proof.
  unfold blank. intros H1 H2 H3 H4.
  apply (ValidationFacts.dangerous_of_pattern
           (lit "for" ++ [Many ws] ++ lit "(" ++ [Many ws] ++ lit ";" ++ [Many ws]
              ++ lit ";" ++ [Many ws] ++ lit ")")).
  { unfold dangerousPatterns. do 10 right. left. reflexivity. }
  rewrite chars_app. apply test_suffix. apply test_here with (r := chars post).
  unfold endless_for.
  step_lit. step_ws. step_lit. step_ws. step_lit. step_ws. step_lit. step_ws.
  rewrite <- (app_nil_r (lit ")")). rewrite match_here_lit. reflexivity.
Qed.

(** Property X8.
    A code that contains [while(true)] or [for(;;)] is rejected, in
    any letter case and with any amount of white space (blanks, tabs,
    line breaks) between the tokens: with DANGEROUS_OPERATIONS_DETECTED,
    or with CODE_TOO_LONG when it is also longer than 10000
    characters. *)
Theorem endless_loops_are_rejected (code_ pre post s1 s2 s3 s4 : string) :
  blank s1 -> blank s2 -> blank s3 -> blank s4 ->
  same_up_to_case code_ (pre +:+ endless_while s1 s2 s3 +:+ post)
  \/ same_up_to_case code_ (pre +:+ endless_for s1 s2 s3 s4 +:+ post) ->
  validateCode code_ = Throw "CODE_TOO_LONG"
  \/ validateCode code_ = Throw "DANGEROUS_OPERATIONS_DETECTED".
Proof.
  intros H1 H2 H3 H4 Hcode.
  assert (Hd : hasDangerousOperations code_ = true).
  { destruct Hcode as [Hc|Hc]; unfold same_up_to_case in Hc;
      unfold hasDangerousOperations;
      rewrite (existsb_test_alike _ _ _ dangerousPatterns_case_blind Hc).
    - apply endless_while_found; assumption.
    - apply endless_for_found; assumption. }
  unfold validateCode, validations, first_failure.
  destruct (Z.ltb _ _); [left; reflexivity|].
  rewrite Hd. right; reflexivity.
Qed.

Lemma endless_loops_are_rejected_run :
  validateCode "let n = 0; WHILE  ( True ) { n++ }" = Throw "CODE_TOO_LONG"
  \/ validateCode "let n = 0; WHILE  ( True ) { n++ }"
     = Throw "DANGEROUS_OPERATIONS_DETECTED".
Proof.
  apply (endless_loops_are_rejected "let n = 0; WHILE  ( True ) { n++ }"
           "let n = 0; " " { n++ }" "  " " " " " "").
  - reflexivity.
  - reflexivity.
  - reflexivity.
  - reflexivity.
  - left. reflexivity.
Defined.

End LoopExtras.

(** ** What validation rejects: loop heads and deny-listed spellings *)

Module LoopFacts.
Import Props Props2 RegexFacts CodeExecutor CaseFacts BlankFacts LoopExtras.

Lemma count_from_skip (p : pattern) (m rest : text) :
  count_from p (m ++ rest) (length m) = count_from p rest 0.
Proof. induction m as [|c m IH]; [reflexivity|exact IH]. Qed.

Lemma holds_later (piece : text -> Prop) (n : nat) (pre t : text) :
  holds piece n t -> holds piece n (pre ++ t).
Proof.
  destruct n as [|n]; [trivial|].
  intros (before & h & after & -> & Hh & Hrest).
  exists (pre ++ before), h, after. rewrite <- app_assoc. auto.
Qed.

Lemma holds_weaken (piece piece' : text -> Prop) (n : nat) (t : text) :
  (forall h, piece h -> piece' h) -> holds piece n t -> holds piece' n t.
Proof.
  intros Hp. revert t. induction n as [|n IH]; intros t; [trivial|].
  intros (before & h & after & -> & Hh & Hrest).
  exists before, h, after. auto.
Qed.

(** Heads of either keyword are so many [for] heads and so many
    [while] heads. *)
Lemma loop_heads_split (n : nat) (t : text) :
  holds loop_head n t ->
  exists a b, n = (a + b)%nat
              /\ holds (loop_head_of "for") a t
              /\ holds (loop_head_of "while") b t.
Proof.
  revert t. induction n as [|n IH]; intros t.
  - intros _. exists O, O. cbn. auto.
  - intros (before & h & after & -> & Hh & Hrest).
    destruct (IH after Hrest) as (a & b & -> & Ha & Hb).
    destruct Hh as [Hfor|Hwhile].
    + exists (S a), b. split; [reflexivity|]. split.
      * exists before, h, after. auto.
      * rewrite app_assoc. apply holds_later. exact Hb.
    + exists a, (S b). split; [lia|]. split.
      * rewrite app_assoc. apply holds_later. exact Ha.
      * exists before, h, after. auto.
Qed.

Section Keyword.
Variables (k0 : ascii) (ktail : string).
Hypothesis k0_solid : is_space (to_lower k0) = false.
Hypothesis k0_paren : ci k0 "(" = false.
Hypothesis k0_tail : avoids k0 (chars ktail).

Lemma avoids_matched (x y : ascii) :
  ci x y = true -> ci k0 x = false -> ci k0 y = false.
Proof.
  unfold ci. intros Hxy Hx. apply Ascii.eqb_eq in Hxy.
  rewrite Hxy. exact Hx.
Qed.

(** A head at the start of the text is matched, and the match ends
    where the head ends. *)
Lemma head_matches (h after : text) :
  loop_head_of (String k0 ktail) h ->
  match_here (head_pattern (String k0 ktail)) (h ++ after) = Some after.
Proof.
  intros (s & Hs & ->). unfold head_pattern.
  rewrite <- !app_assoc. rewrite match_here_lit.
  change ([Many ws] ++ lit "(") with (Many ws :: lit "(").
  apply many_ws_skip; [exact Hs|solid|reflexivity].
Qed.

(** What a literal has matched holds none of the letter [k0] when the
    literal holds none. *)
Lemma lit_matched (s : string) (p : pattern) (t rest : text) :
  avoids k0 (chars s) ->
  match_here (lit s ++ p) t = Some rest ->
  exists m t', t = m ++ t' /\ avoids k0 m /\ match_here p t' = Some rest.
Proof.
  unfold lit, chars, avoids. revert t.
  induction s as [|x s IH]; intros t Hs Hm.
  - exists [], t. split; [reflexivity|]. split; [constructor|exact Hm].
  - cbn [list_ascii_of_string map app] in *.
    destruct t as [|y t]; [discriminate Hm|].
    cbn [match_here] in Hm. destruct (ci x y) eqn:Hxy; [|discriminate Hm].
    inversion Hs as [|? ? Hx Hs']; subst.
    destruct (IH t Hs' Hm) as (m & t' & -> & Hclean & Hrest).
    exists (y :: m), t'. split; [reflexivity|]. split; [|exact Hrest].
    constructor; [|exact Hclean]. exact (avoids_matched x y Hxy Hx).
Qed.

Lemma spaces_paren_matched (t rest : text) :
  match_here (Many ws :: lit "(") t = Some rest ->
  exists m, t = m ++ rest /\ avoids k0 m.
Proof.
  assert (Hone : forall c t', match_here (lit "(") (c :: t') = Some rest ->
                               c :: t' = [c] ++ rest /\ avoids k0 [c]).
  { intros c t' Hm. cbn in Hm. destruct (ci "(" c) eqn:Hc; [|discriminate Hm].
    inversion Hm; subst. split; [reflexivity|].
    constructor; [|constructor]. exact (avoids_matched "(" c Hc k0_paren). }
  induction t as [|c t IH]; intros Hm.
  - discriminate Hm.
  - rewrite match_here_many_cons in Hm.
    destruct (ws c) eqn:Hc.
    + destruct (match_here (Many ws :: lit "(") t) as [r|] eqn:Hstar.
      * inversion Hm; subst r. destruct (IH eq_refl) as (m & -> & Hclean).
        exists (c :: m). split; [reflexivity|].
        constructor; [|exact Hclean]. apply ci_solid; assumption.
      * destruct (Hone c t Hm) as [E Hclean]. exists [c]. auto.
    + destruct (Hone c t Hm) as [E Hclean]. exists [c]. auto.
Qed.

(** A match of the head pattern covers, after its first character, no
    further [k0]: no other match begins inside it. *)
Lemma head_match_inv (c : ascii) (t rest : text) :
  match_here (head_pattern (String k0 ktail)) (c :: t) = Some rest ->
  exists m, t = m ++ rest /\ avoids k0 m.
Proof.
  unfold head_pattern. intros Hm.
  change (lit (String k0 ktail)) with (One (ci k0) :: lit ktail) in Hm.
  cbn [app match_here] in Hm.
  destruct (ci k0 c); [|discriminate Hm].
  destruct (lit_matched ktail _ t rest k0_tail Hm) as (m1 & t' & -> & H1 & Hm').
  destruct (spaces_paren_matched t' rest Hm') as (m2 & -> & H2).
  exists (m1 ++ m2). rewrite <- app_assoc. split; [reflexivity|].
  apply Forall_app. split; assumption.
Qed.

Lemma no_head_in_nil (n : nat) :
  ~ holds (loop_head_of (String k0 ktail)) (S n) [].
Proof.
  intros (before & h & after & Ht & (s & _ & ->) & _).
  destruct before; discriminate Ht.
Qed.

(** Heads of a text are heads of what follows a stretch without
    [k0]. *)
Lemma heads_after (m rest : text) (n : nat) :
  avoids k0 m ->
  holds (loop_head_of (String k0 ktail)) n (m ++ rest) ->
  holds (loop_head_of (String k0 ktail)) n rest.
Proof.
  destruct n as [|n]; [trivial|].
  intros Hclean (before & h & after & Ht & Hh & Hrest).
  revert before Ht. induction Hclean as [|x m Hx _ IH]; intros before Ht.
  - exists before, h, after. auto.
  - destruct before as [|b before].
    + exfalso. destruct Hh as (s & _ & ->). cbn in Ht. inversion Ht; subst x.
      rewrite ci_refl in Hx. discriminate.
    + cbn in Ht. inversion Ht; subst b. apply (IH before). assumption.
Qed.

(** Every head is counted. *)
Lemma heads_counted_upto (len : nat) :
  forall (t : text) (n : nat), (length t <= len)%nat ->
    holds (loop_head_of (String k0 ktail)) n t ->
    (n <= count_from (head_pattern (String k0 ktail)) t 0)%nat.
Proof.
  induction len as [|len IH]; intros t n Hlen Hn.
  - destruct t as [|c t]; [|cbn in Hlen; lia].
    destruct n as [|n]; [lia|]. exfalso. exact (no_head_in_nil n Hn).
  - destruct n as [|n]; [lia|].
    destruct t as [|c t1]; [exfalso; exact (no_head_in_nil n Hn)|].
    cbn [count_from].
    destruct (match_here (head_pattern (String k0 ktail)) (c :: t1))
      as [rest|] eqn:Hm.
    + destruct (head_match_inv c t1 rest Hm) as (m & -> & Hclean).
      replace (Nat.pred (length (c :: m ++ rest) - length rest)) with (length m)
        by (cbn [length]; rewrite length_app; lia).
      rewrite count_from_skip.
      assert (Hshort : (length rest <= len)%nat).
      { cbn [length] in Hlen. rewrite length_app in Hlen. lia. }
      destruct Hn as (before & h & after & Ht & Hh & Hrest).
      destruct before as [|b before].
      * cbn [app] in Ht. rewrite Ht, (head_matches h after Hh) in Hm.
        inversion Hm; subst rest. apply le_n_S. apply IH; assumption.
      * cbn [app] in Ht. inversion Ht as [[Hb Ht1]].
        assert (Hall : holds (loop_head_of (String k0 ktail)) (S n) rest).
        { apply (heads_after m); [exact Hclean|].
          exists before, h, after. auto. }
        specialize (IH rest (S n) Hshort Hall). lia.
    + destruct Hn as (before & h & after & Ht & Hh & Hrest).
      destruct before as [|b before].
      * cbn [app] in Ht. rewrite Ht, (head_matches h after Hh) in Hm.
        discriminate Hm.
      * cbn [app] in Ht. inversion Ht as [[Hb Ht1]].
        apply IH; [apply le_S_n; subst t1; exact Hlen|].
        exists before, h, after. auto.
Qed.
End Keyword.

Lemma for_heads_counted (n : nat) (t : text) :
  holds (loop_head_of "for") n t ->
  (n <= count_matches (head_pattern "for") t)%nat.
Proof.
  intros Hn. unfold count_matches.
  apply (heads_counted_upto "f" "or") with (len := length t); try reflexivity; auto.
  repeat constructor.
Qed.

Lemma while_heads_counted (n : nat) (t : text) :
  holds (loop_head_of "while") n t ->
  (n <= count_matches (head_pattern "while") t)%nat.
Proof.
  intros Hn. unfold count_matches.
  apply (heads_counted_upto "w" "hile") with (len := length t); try reflexivity; auto.
  repeat constructor.
Qed.

(** The loop count is at least the number of loop heads in the code. *)
Lemma loop_heads_counted (n : nat) (code_ : string) :
  loop_heads n code_ -> (n <= loopCount code_)%nat.
Proof.
  intros (lower & Hcase & Hn).
  unfold loopCount. unfold same_up_to_case in Hcase.
  rewrite (fold_count_alike _ _ _ O loopPatterns_case_blind Hcase).
  destruct (loop_heads_split n (chars lower) Hn) as (a & b & -> & Ha & Hb).
  apply for_heads_counted in Ha. apply while_heads_counted in Hb.
  change loopPatterns with [head_pattern "for"; head_pattern "while"].
  cbn [fold_left]. lia.
Qed.

(** The deny-list finds its spellings in any letter case. *)
Lemma deny_listed_found (code_ : string) :
  deny_listed code_ -> hasDangerousOperations code_ = true.
Proof.
  intros (lower & Hcase & Hfound). unfold hasDangerousOperations.
  unfold same_up_to_case in Hcase.
  rewrite (existsb_test_alike _ _ _ dangerousPatterns_case_blind Hcase).
  destruct Hfound as [Hfs|[Hfs|[Hev|Hfn]]].
  - apply (ValidationFacts.dangerous_of_pattern (call_with_quoted "require" "fs"));
      [cbn; auto|now apply test_quoted_call_occurs].
  - apply (ValidationFacts.dangerous_of_pattern (call_with_quoted "import" "fs"));
      [cbn; auto 20|now apply test_quoted_call_occurs].
  - apply (ValidationFacts.dangerous_of_pattern (lit "eval("));
      [cbn; auto 20|now apply test_lit_occurs].
  - apply (ValidationFacts.dangerous_of_pattern (lit "Function("));
      [cbn; auto 20|now apply test_lit_occurs].
Qed.

End LoopFacts.

Module ValidationSpec.
Import CodeExecutor SandboxService Props Props2 RegexFacts ValidationFacts LoopFacts.

(** Claim C6, as the code has it.  Validation rejects every code that
    is longer than the maximum length of 10,000 characters, that
    contains one of the deny-listed spellings [require('fs')],
    [import('fs')] (with any of the three quote characters), [eval(] or
    [Function(] in any letter case, or that contains more than five
    loop heads ([for] or [while], white space if any, an opening
    parenthesis, in any letter case).  The error it throws names the
    check that failed, not the construct: CODE_TOO_LONG for a code that
    is too long, DANGEROUS_OPERATIONS_DETECTED for a shorter code with
    a deny-listed spelling, and otherwise the first check in order
    that the code fails.  An [executeEndpoint] request for an endpoint
    with such code throws before any container is requested: the
    registry is as it was and the daemon has received no further
    create call. *)
Theorem validation_rejects_before_allocation `{Builtins}
    (endpointId userId : string) (data : ExecutionData) (o : RequestOracle)
    (w : World) (ep : Endpoint) :
  endpoints w !! endpointId = Some ep ->
  ( maxCodeLength < Z.of_nat (String.length (ep_code ep))
    \/ deny_listed (ep_code ep)
    \/ (exists n, loop_heads n (ep_code ep) /\ (5 < n)%nat) ) ->
  exists err msg w',
    validateCode (ep_code ep) = Throw err /\
    names_offence err (ep_code ep) /\
    (maxCodeLength < Z.of_nat (String.length (ep_code ep)) ->
       err = "CODE_TOO_LONG") /\
    (Z.of_nat (String.length (ep_code ep)) <= maxCodeLength ->
       deny_listed (ep_code ep) -> err = "DANGEROUS_OPERATIONS_DETECTED") /\
    executeEndpoint endpointId userId data o w = (Throw msg, w') /\
    activeContainers w' = activeContainers w /\
    created_count (dockerCalls w') = created_count (dockerCalls w) /\
    (msg = "RATE_LIMIT_EXCEEDED" \/ msg = "ENDPOINT_ACCESS_DENIED"
     \/ msg = "SANDBOX_VALIDATION_FAILED: " +:+ err).
Proof.
  intros Hep Hbad.
  assert (Hchecks : maxCodeLength < Z.of_nat (String.length (ep_code ep))
                    \/ hasDangerousOperations (ep_code ep) = true
                    \/ hasExcessiveLoops (ep_code ep) = true).
  { destruct Hbad as [Hlen|[Hdeny|(n & Hn & Hmany)]].
    - left; exact Hlen.
    - right; left. apply deny_listed_found. exact Hdeny.
    - right; right. unfold hasExcessiveLoops. apply Nat.ltb_lt.
      apply loop_heads_counted in Hn. lia. }
  destruct (validateCode_rejects _ Hchecks) as (err & Hval & Hname).
  destruct (executeEndpoint_invalid endpointId userId data o w ep err Hep Hval)
    as (msg & w' & Hrun & Hac & Hcount & Hmsg).
  exists err, msg, w'. repeat split; try assumption.
  - intros Hlong. apply Z.ltb_lt in Hlong.
    unfold validateCode, validations, first_failure in Hval.
    rewrite Hlong in Hval. congruence.
  - intros Hshort Hdeny. apply Z.ltb_ge in Hshort.
    apply deny_listed_found in Hdeny.
    unfold validateCode, validations, first_failure in Hval.
    rewrite Hshort, Hdeny in Hval. congruence.
Qed.

(** The 60,000 character scenario. *)
Lemma validation_rejects_60000_characters :
  endpoints (Scenario.world1 Scenario.long_code) !! "ep_1"
    = Some (Scenario.endpoint1 Scenario.long_code)
  /\ maxCodeLength < Z.of_nat (String.length Scenario.long_code)
  /\ exists err msg w',
       validateCode Scenario.long_code = Throw err /\
       names_offence err Scenario.long_code /\
       (maxCodeLength < Z.of_nat (String.length Scenario.long_code) ->
          err = "CODE_TOO_LONG") /\
       (Z.of_nat (String.length Scenario.long_code) <= maxCodeLength ->
          deny_listed Scenario.long_code -> err = "DANGEROUS_OPERATIONS_DETECTED") /\
       @executeEndpoint (Scenario.host []) "ep_1" Scenario.alice
         (Scenario.request JUndefined) (Scenario.oracle1 DockerManager.Deadline)
         (Scenario.world1 Scenario.long_code) = (Throw msg, w') /\
       activeContainers w' = activeContainers (Scenario.world1 Scenario.long_code) /\
       created_count (dockerCalls w')
         = created_count (dockerCalls (Scenario.world1 Scenario.long_code)) /\
       (msg = "RATE_LIMIT_EXCEEDED" \/ msg = "ENDPOINT_ACCESS_DENIED"
        \/ msg = "SANDBOX_VALIDATION_FAILED: " +:+ err).
Proof.
  split; [reflexivity|].
  split; [vm_compute; reflexivity|].
  apply (validation_rejects_before_allocation (H := Scenario.host [])
           "ep_1" Scenario.alice (Scenario.request JUndefined)
           (Scenario.oracle1 DockerManager.Deadline)
           (Scenario.world1 Scenario.long_code)
           (Scenario.endpoint1 Scenario.long_code)).
  - reflexivity.
  - left. vm_compute; reflexivity.
Defined.

(** Codes that use [eval], build a function from text or load a
    filesystem module pass validation when they are not written the
    way the deny-list spells them: a blank before the parenthesis, or
    the [fs/promises] module.  A request for such an endpoint goes on
    to create a container.  And the error for a listed spelling is the
    same whichever construct was found. *)
Lemma unlisted_spellings_pass_validation :
  let spaced_eval := "return eval ('1 + 1')" in
  let spaced_function := "return new Function ('return 1')()" in
  let fs_promises := "return require('fs/promises').readFile('/etc/passwd')" in
  let run := @executeEndpoint (Scenario.host []) "ep_1" Scenario.alice
               (Scenario.request JUndefined) (Scenario.oracle1 DockerManager.Deadline)
               (Scenario.world1 spaced_eval) in
  calls "eval" spaced_eval
  /\ validateCode spaced_eval = Return true
  /\ calls "Function" spaced_function
  /\ validateCode spaced_function = Return true
  /\ Props.occurs "require('fs/promises')" fs_promises
  /\ validateCode fs_promises = Return true
  /\ created_count (dockerCalls (snd run))
     = S (created_count (dockerCalls (Scenario.world1 spaced_eval)))
  /\ validateCode "return eval('1 + 1')" = Throw "DANGEROUS_OPERATIONS_DETECTED"
  /\ validateCode "return require('fs')" = Throw "DANGEROUS_OPERATIONS_DETECTED".
Proof.
  cbv zeta. split.
  { exists "return ", " ", "'1 + 1')". split; reflexivity. }
  split; [vm_compute; reflexivity|]. split.
  { exists "return new ", " ", "'return 1')()". split; reflexivity. }
  split; [vm_compute; reflexivity|]. split.
  { exists "return ", ".readFile('/etc/passwd')". reflexivity. }
  split; [vm_compute; reflexivity|].
  split; [vm_compute; reflexivity|].
  split; vm_compute; reflexivity.
Qed.

(** Six loop heads in a short code without a deny-listed spelling. *)
Example six_loops_are_too_many :
  let code_ := "for (a of x) {} FOR(b of x) {} while (c) {} for  (d of x) {} While(e) {} for (f of x) {}" in
  loop_heads 6 code_
  /\ validateCode code_ = Throw "EXCESSIVE_LOOPS_DETECTED".
Proof.
  cbv zeta. split; [|vm_compute; reflexivity].
  exists "for (a of x) {} for(b of x) {} while (c) {} for  (d of x) {} while(e) {} for (f of x) {}".
  split; [reflexivity|].
  exists [], (chars "for ("), (chars "a of x) {} for(b of x) {} while (c) {} for  (d of x) {} while(e) {} for (f of x) {}").
  split; [reflexivity|]. split; [left; exists (chars " "); split; reflexivity|].
  exists (chars "a of x) {} "), (chars "for("), (chars "b of x) {} while (c) {} for  (d of x) {} while(e) {} for (f of x) {}").
  split; [reflexivity|]. split; [left; exists []; split; reflexivity|].
  exists (chars "b of x) {} "), (chars "while ("), (chars "c) {} for  (d of x) {} while(e) {} for (f of x) {}").
  split; [reflexivity|]. split; [right; exists (chars " "); split; reflexivity|].
  exists (chars "c) {} "), (chars "for  ("), (chars "d of x) {} while(e) {} for (f of x) {}").
  split; [reflexivity|]. split; [left; exists (chars "  "); split; reflexivity|].
  exists (chars "d of x) {} "), (chars "while("), (chars "e) {} for (f of x) {}").
  split; [reflexivity|]. split; [right; exists []; split; reflexivity|].
  exists (chars "e) {} "), (chars "for ("), (chars "f of x) {}").
  split; [reflexivity|]. split; [left; exists (chars " "); split; reflexivity|].
  exact I.
Qed.

End ValidationSpec.


Module RateLimitExtras.
Import Props Props2 MonadFacts SandboxService.

Lemma checkRateLimit_stored (userId : string) (now : Z) (w : World) (s : UserStats) :
  executionStats w !! userId = Some s ->
  now <= resetTime s ->
  checkRateLimit userId now w
  = if Z.ltb (count s) maxExecutionsPerUser
    then (Return tt,
          set_executionStats
            (insert userId {| count := count s + 1; resetTime := resetTime s |})
            (set_executionStats (insert userId s) w))
    else (Throw "RATE_LIMIT_EXCEEDED", set_executionStats (insert userId s) w).
Proof.
  intros Hs Hnow.
  assert (Hwin : Z.ltb (resetTime s) now = false) by (apply Z.ltb_ge; exact Hnow).
  cbv [checkRateLimit mbind M_bind bind read modify throw ret].
  rewrite Hs, Hwin.
  destruct (Z.ltb_spec (count s) maxExecutionsPerUser) as [Hlt|Hge].
  - assert (Hle : Z.leb maxExecutionsPerUser (count s) = false)
      by (apply Z.leb_gt; exact Hlt).
    rewrite Hle. reflexivity.
  - assert (Hle : Z.leb maxExecutionsPerUser (count s) = true)
      by (apply Z.leb_le; exact Hge).
    rewrite Hle. reflexivity.
Qed.

Lemma checkRateLimit_opens (userId : string) (now : Z) (w : World) :
  match executionStats w !! userId with
  | Some s => resetTime s < now
  | None => True
  end ->
  fst (checkRateLimit userId now w) = Return tt
  /\ executionStats (snd (checkRateLimit userId now w)) !! userId
     = Some {| count := 1; resetTime := now + 3600000 |}.
Proof.
  intros Hopen.
  cbv [checkRateLimit mbind M_bind bind read modify throw ret].
  destruct (executionStats w !! userId) as [s|].
  - apply Z.ltb_lt in Hopen. rewrite Hopen. cbn.
    split; [reflexivity|]. apply lookup_insert_eq.
  - assert (Hwin : Z.ltb (now + 3600000) now = false) by (apply Z.ltb_ge; lia).
    cbn [resetTime count]. rewrite Hwin. cbn.
    split; [reflexivity|]. apply lookup_insert_eq.
Qed.

Lemma verdict_shift (used : Z) (n : nat) :
  map (verdict (used + 1)) (seq 0 n) = map (verdict used) (seq 1 n).
Proof.
  rewrite <- seq_shift, map_map. apply map_ext. intros i. unfold verdict.
  replace (used + 1 + Z.of_nat i) with (used + Z.of_nat (S i)) by lia. reflexivity.
Qed.

Lemma verdict_full (used : Z) (n m : nat) :
  maxExecutionsPerUser <= used ->
  map (verdict used) (seq m n) = map (fun _ => Throw "RATE_LIMIT_EXCEEDED") (seq m n).
Proof.
  intros Hfull. apply map_ext. intros i. unfold verdict.
  destruct (Z.ltb_spec (used + Z.of_nat i) maxExecutionsPerUser); [lia|reflexivity].
Qed.

(** Within one window the counter decides: call number [i] of a run
    passes exactly when the counter it started from plus [i] is below
    the limit. *)
Lemma rate_checks_window (userId : string) (times : list Z) :
  forall (w : World) (s : UserStats),
  executionStats w !! userId = Some s ->
  Forall (fun t => t <= resetTime s) times ->
  fst (rate_checks userId times w)
  = map (verdict (count s)) (seq 0 (length times)).
Proof.
  induction times as [|t rest IH]; intros w s Hs Hts; [reflexivity|].
  apply List.Forall_cons_iff in Hts. destruct Hts as [Ht Hrest].
  cbn [rate_checks length seq map].
  rewrite (checkRateLimit_stored userId t w s Hs Ht).
  destruct (Z.ltb_spec (count s) maxExecutionsPerUser) as [Hlt|Hge].
  - match goal with
    | |- context [rate_checks userId rest ?w1] =>
        specialize (IH w1 {| count := count s + 1; resetTime := resetTime s |});
        destruct (rate_checks userId rest w1) as [rs w2]
    end.
    cbn [fst] in *. rewrite IH; [|apply lookup_insert_eq|exact Hrest].
    cbn [count]. rewrite verdict_shift. f_equal.
    unfold verdict. replace (count s + Z.of_nat 0) with (count s) by lia.
    apply Z.ltb_lt in Hlt. rewrite Hlt. reflexivity.
  - match goal with
    | |- context [rate_checks userId rest ?w1] =>
        specialize (IH w1 s);
        destruct (rate_checks userId rest w1) as [rs w2]
    end.
    cbn [fst] in *. rewrite IH; [|apply lookup_insert_eq|exact Hrest].
    rewrite (verdict_full (count s) _ 0 Hge), (verdict_full (count s) _ 1 Hge).
    rewrite <- seq_shift, map_map. f_equal.
    unfold verdict. replace (count s + Z.of_nat 0) with (count s) by lia.
    apply Z.ltb_ge in Hge. rewrite Hge. reflexivity.
Qed.

(** Property X9.
    The hourly quota.  A call by a user without a counter, or after
    the user's window has run out, opens a window of one hour.  Of the
    calls made from then until the window closes, that call included,
    the first 1000 pass and every later one is refused with
    RATE_LIMIT_EXCEEDED. *)
Theorem hourly_quota (userId : string) (t0 : Z) (rest : list Z) (w : World) :
  match executionStats w !! userId with
  | Some s => resetTime s < t0
  | None => True
  end ->
  Forall (fun t => t <= t0 + 3600000) rest ->
  fst (rate_checks userId (t0 :: rest) w)
  = map (verdict 0) (seq 0 (S (length rest))).
Proof.
  intros Hopen Hrest. cbn [rate_checks].
  destruct (checkRateLimit_opens userId t0 w Hopen) as [Hr Hs].
  destruct (checkRateLimit userId t0 w) as [r w1]. cbn [fst snd] in Hr, Hs. subst r.
  pose proof (rate_checks_window userId rest w1 _ Hs Hrest) as Hwin.
  destruct (rate_checks userId rest w1) as [rs w2]. cbn [fst] in *.
  rewrite Hwin. cbn [count seq map]. f_equal.
  change 1 with (0 + 1). rewrite verdict_shift. reflexivity.
Qed.

Lemma hourly_quota_run :
  fst (rate_checks "user_alice" [5000; 5001; 3605000] (Scenario.world0 10))
  = map (verdict 0) (seq 0 3).
Proof.
  apply (hourly_quota "user_alice" 5000 [5001; 3605000] (Scenario.world0 10)).
  - vm_compute. exact I.
  - repeat constructor; lia.
Defined.

(** Property X10.
    A refused call changes nothing: the only error of [checkRateLimit]
    is RATE_LIMIT_EXCEEDED, it is raised only inside a window whose
    counter has reached the limit, and the counters are then as they
    were. *)
Theorem refused_call_costs_nothing (userId : string) (now : Z) (w : World)
    (e : string) :
  fst (checkRateLimit userId now w) = Throw e ->
  e = "RATE_LIMIT_EXCEEDED"
  /\ executionStats (snd (checkRateLimit userId now w)) = executionStats w
  /\ exists s, executionStats w !! userId = Some s
               /\ maxExecutionsPerUser <= count s /\ now <= resetTime s.
Proof.
  cbv [checkRateLimit mbind M_bind bind read modify throw ret].
  destruct (executionStats w !! userId) as [s|] eqn:Hs.
  - destruct (Z.ltb_spec (resetTime s) now) as [Hold|Hin]; cbn; [discriminate|].
    destruct (Z.leb_spec maxExecutionsPerUser (count s)) as [Hfull|Hfree]; cbn;
      [|discriminate].
    intros He. inversion He. split; [reflexivity|].
    split; [apply insert_id; exact Hs|]. exists s. auto.
  - assert (Hwin : Z.ltb (now + 3600000) now = false) by (apply Z.ltb_ge; lia).
    cbn [resetTime count]. rewrite Hwin. cbn. discriminate.
Qed.

Lemma refused_call_costs_nothing_run :
  "RATE_LIMIT_EXCEEDED" = "RATE_LIMIT_EXCEEDED"
  /\ executionStats (snd (checkRateLimit "user_alice" 5000 Examples.at_limit))
     = executionStats Examples.at_limit
  /\ exists s, executionStats Examples.at_limit !! "user_alice" = Some s
               /\ maxExecutionsPerUser <= count s /\ 5000 <= resetTime s.
Proof.
  apply (refused_call_costs_nothing "user_alice" 5000 Examples.at_limit
           "RATE_LIMIT_EXCEEDED").
  reflexivity.
Defined.

End RateLimitExtras.

Module PathFacts.
Import Props Props2 MonadFacts FrameFacts LifecycleFacts CacheSpec OrchestratorFacts
       DockerManager MockDataService SandboxService.

Section Paths.
Context `{Builtins}.

(** [runAndRespond], step by step. *)
Lemma runAndRespond_cases (endpointId userId : string) (ep : Endpoint)
    (data : ExecutionData) (o : RequestOracle) (containerId : string) (w : World) :
  runAndRespond endpointId userId ep data o containerId w
  = match DockerManager.executeCode containerId (o_exec o) w with
    | (Throw e, w1) => (Throw e, w1)
    | (Return r, w1) =>
        let '(r2, w2) := applySaveDirective endpointId userId ep data r (o_save o) w1 in
        let saved1 := match r2 with Return l => l | Throw _ => [] end in
        let '(r3, w3) := processSaveQueue userId containerId (o_queue o) w2 in
        let saved2 := match r3 with Return l => l | Throw _ => [] end in
        let w4 :=
          snd (logExecution
                 (log_record endpointId userId
                    (if run_success r then 200 else 500)
                    (if run_success r then run_output r else JNull)
                    (if run_success r then JNull else run_error r)
                    (Some containerId) (Some (length (saved1 ++ saved2))))
                 (o_log_ok o) w3) in
        if o_update_ok o
        then (Return {| resp_success := run_success r;
                        resp_data := if run_success r
                                     then parseOutput (run_output r) else JNull;
                        resp_error := run_error r;
                        resp_logs := Js.or (run_logs r) (JArr []);
                        resp_executionTime := o_done o - o_start o;
                        resp_savedData := savedData (saved1 ++ saved2) |},
              set_endpoints (insert endpointId (bump ep (o_called o))) w4)
        else (Throw "prisma.endpoint.update", w4)
    end.
Proof.
  unfold runAndRespond. rewrite bind_run.
  destruct (DockerManager.executeCode containerId (o_exec o) w) as [[r|e] w1];
    [|reflexivity].
  cbv zeta. rewrite bind_run.
  destruct (applySaveDirective_returns endpointId userId ep data r (o_save o) w1)
    as [l1 Hl1].
  destruct (applySaveDirective endpointId userId ep data r (o_save o) w1) as [r2 w2].
  cbn [fst] in Hl1. subst r2. rewrite bind_run.
  destruct (processSaveQueue_returns userId containerId (o_queue o) w2) as [l2 Hl2].
  destruct (processSaveQueue userId containerId (o_queue o) w2) as [r3 w3].
  cbn [fst] in Hl2. subst r3. rewrite bind_run.
  match goal with
  | |- context [logExecution ?rec ?ok w3] =>
      pose proof (logExecution_returns rec ok w3) as Hl4;
      destruct (logExecution rec ok w3) as [r4 w4]
  end.
  cbn [fst snd] in *. subst r4. rewrite bind_run.
  destruct (o_update_ok o); reflexivity.
Qed.

(** [executeEndpoint], path by path. *)
Lemma executeEndpoint_cases (endpointId userId : string) (data : ExecutionData)
    (o : RequestOracle) (w : World) :
  let finalizer := fun containerId : string =>
    if String.eqb containerId "" then ret tt
    else modify (set_saveQueue (delete containerId)) ≫= fun _ =>
         destroyContainer containerId (o_destroy o) in
  executeEndpoint endpointId userId data o w
  = match checkRateLimit userId (o_now o)
            (set_dockerCalls (fun l => l ++ [DInfo]) w) with
    | (Throw e, w1) => (Throw e, w1)
    | (Return _, w1) =>
        match endpoints w1 !! endpointId with
        | None => (Throw "ENDPOINT_NOT_FOUND", w1)
        | Some ep =>
            if negb (hasAccess (ep_project ep) userId)
            then (Throw "ENDPOINT_ACCESS_DENIED", w1)
            else
              match CodeExecutor.validateCode (ep_code ep) with
              | Throw e =>
                  (Throw ("SANDBOX_VALIDATION_FAILED: " +:+ e),
                   snd (logExecution
                          (log_record endpointId userId 400 JNull
                             (JStr ("SANDBOX_VALIDATION_FAILED: " +:+ e)) None None)
                          (o_log_ok o) w1))
              | Return _ =>
                  match createContainer "node" (o_create o) w1 with
                  | (Throw e, w2) =>
                      (Throw e,
                       snd (logExecution
                              (log_record endpointId userId 500 JNull (JStr e)
                                 None None)
                              (o_log_ok o) w2))
                  | (Return containerId, w2) =>
                      match runAndRespond endpointId userId ep data o containerId w2 with
                      | (Return resp, w3) =>
                          (Return resp, snd (finalizer containerId w3))
                      | (Throw e, w3) =>
                          (Throw e,
                           snd (finalizer containerId
                                  (snd (logExecution
                                          (log_record endpointId userId 500 JNull
                                             (JStr e) (Some containerId) None)
                                          (o_log_ok o) w3))))
                      end
                  end
              end
        end
    end.
Proof.
  cbv zeta. unfold executeEndpoint.
  destruct (healthCheck_run (o_info_ok o) w) as [h Hh].
  rewrite (bind_return _ _ _ _ _ Hh).
  rewrite bind_run.
  destruct (checkRateLimit userId (o_now o)
              (set_dockerCalls (fun l => l ++ [DInfo]) w)) as [[[]|e] w1];
    [|reflexivity].
  rewrite bind_run. unfold read.
  destruct (endpoints w1 !! endpointId) as [ep|]; [|reflexivity].
  destruct (negb (hasAccess (ep_project ep) userId)); [reflexivity|].
  destruct (CodeExecutor.validateCode (ep_code ep)) as [ok|err].
  2:{ rewrite bind_run.
      match goal with
      | |- context [logExecution ?rec ?ok w1] =>
          pose proof (logExecution_returns rec ok w1) as Hl2;
          destruct (logExecution rec ok w1) as [r2 w2]
      end.
      cbn [fst snd] in *. subst r2. reflexivity. }
  rewrite bind_run. unfold CodeExecutor.attempt.
  destruct (createContainer "node" (o_create o) w1) as [[containerId|e] w2].
  2:{ rewrite bind_run.
      match goal with
      | |- context [logExecution ?rec ?ok w2] =>
          pose proof (logExecution_returns rec ok w2) as Hl3;
          destruct (logExecution rec ok w2) as [r3 w3]
      end.
      cbn [fst snd] in *. subst r3. reflexivity. }
  unfold try_finally, try_catch.
  destruct (runAndRespond endpointId userId ep data o containerId w2) as [[resp|e] w3].
  - match goal with
    | |- context [(if String.eqb containerId "" then ?a else ?b) w3] =>
        pose proof (finalizer_returns containerId (o_destroy o) w3) as Hl4;
        destruct ((if String.eqb containerId "" then a else b) w3) as [r4 w4]
    end.
    cbn [fst snd] in *. subst r4. reflexivity.
  - rewrite bind_run.
    match goal with
    | |- context [logExecution ?rec ?ok w3] =>
        pose proof (logExecution_returns rec ok w3) as Hl5;
        destruct (logExecution rec ok w3) as [r5 w5]
    end.
    cbn [fst snd] in *. subst r5. unfold throw.
    match goal with
    | |- context [(if String.eqb containerId "" then ?a else ?b) w5] =>
        pose proof (finalizer_returns containerId (o_destroy o) w5) as Hl4;
        destruct ((if String.eqb containerId "" then a else b) w5) as [r4 w4]
    end.
    cbn [fst snd] in *. subst r4. reflexivity.
Qed.
End Paths.

End PathFacts.

Module QuotaExtras.
Import Props Props2 MonadFacts FrameFacts LifecycleFacts CacheSpec OrchestratorFacts
       PathFacts DockerManager MockDataService SandboxService.

Section Untouched.
Context `{Builtins} {B : Type} (f : World -> B).
Hypothesis f_registry : forall g w, f (set_activeContainers g w) = f w.
Hypothesis f_calls : forall g w, f (set_dockerCalls g w) = f w.
Hypothesis f_queue : forall g w, f (set_saveQueue g w) = f w.
Hypothesis f_collections : forall g w, f (set_mockDataCollections g w) = f w.
Hypothesis f_log : forall g w, f (set_executionLog g w) = f w.
Hypothesis f_endpoints : forall g w, f (set_endpoints g w) = f w.

Lemma runAndRespond_keeps (endpointId userId : string) (ep : Endpoint)
    (data : ExecutionData) (o : RequestOracle) (containerId : string) :
  keeps f (runAndRespond endpointId userId ep data o containerId).
Proof.
  unfold runAndRespond.
  apply keeps_bind; [apply run_keeps; assumption|intros r]. cbv zeta.
  apply keeps_bind; [apply applySaveDirective_keeps; assumption|intros l1].
  apply keeps_bind; [apply processSaveQueue_keeps; assumption|intros l2].
  apply keeps_bind; [apply logExecution_keeps; assumption|intros _].
  apply keeps_bind; [|intros; apply keeps_ret].
  destruct (o_update_ok o); [|apply keeps_throw].
  apply keeps_modify. intros; apply f_endpoints.
Qed.

(** What the orchestrator does after the rate check leaves [f] alone. *)
Lemma executeEndpoint_after_rate_check (endpointId userId : string)
    (data : ExecutionData) (o : RequestOracle) (w : World) :
  f (snd (executeEndpoint endpointId userId data o w))
  = f (snd (checkRateLimit userId (o_now o)
              (set_dockerCalls (fun l => l ++ [DInfo]) w))).
Proof.
  pose proof (executeEndpoint_cases endpointId userId data o w) as Hcases.
  cbv zeta in Hcases. rewrite Hcases. clear Hcases.
  destruct (checkRateLimit userId (o_now o)
              (set_dockerCalls (fun l => l ++ [DInfo]) w)) as [[[]|e] w1];
    [|reflexivity].
  cbn [snd].
  destruct (endpoints w1 !! endpointId) as [ep|]; [|reflexivity].
  destruct (negb (hasAccess (ep_project ep) userId)); [reflexivity|].
  destruct (CodeExecutor.validateCode (ep_code ep)) as [ok|err]; cbn [snd].
  2:{ apply logExecution_keeps; assumption. }
  pose proof (createContainer_keeps f f_registry f_calls "node" (o_create o) w1) as H2.
  destruct (createContainer "node" (o_create o) w1) as [[containerId|e] w2];
    cbn [snd] in *.
  2:{ rewrite <- H2. apply logExecution_keeps; assumption. }
  pose proof (runAndRespond_keeps endpointId userId ep data o containerId w2) as H3.
  destruct (runAndRespond endpointId userId ep data o containerId w2) as [[resp|e] w3];
    cbn [snd] in *.
  - rewrite <- H2, <- H3.
    apply (finalizer_keeps f f_registry f_calls f_queue containerId (o_destroy o) w3).
  - rewrite <- H2, <- H3.
    match goal with
    | |- context [logExecution ?rec ?ok w3] =>
        rewrite <- (logExecution_keeps f rec ok f_log w3)
    end.
    apply (finalizer_keeps f f_registry f_calls f_queue containerId (o_destroy o)).
Qed.
End Untouched.

Lemma checkRateLimit_reads_counters (userId : string) (now : Z) (w1 w2 : World) :
  executionStats w1 = executionStats w2 ->
  fst (checkRateLimit userId now w1) = fst (checkRateLimit userId now w2)
  /\ executionStats (snd (checkRateLimit userId now w1))
     = executionStats (snd (checkRateLimit userId now w2)).
Proof.
  intros Hs.
  cbv [checkRateLimit mbind M_bind bind read modify throw ret].
  rewrite Hs.
  destruct (executionStats w2 !! userId) as [s|]; cbn [snd fst];
    repeat match goal with
           | |- context [if ?b then _ else _] => destruct b
           end;
    cbn [fst snd executionStats set_executionStats]; rewrite ?Hs; auto.
Qed.

(** Property X11.
    A request is charged to the caller's quota before anything about
    it is looked at.  The counters [executeEndpoint] leaves are those
    that [checkRateLimit] alone leaves, and a refusal by the rate check
    is the error of the request: a request for an unknown endpoint,
    without access, with code that fails validation, or whose run
    fails, uses up one execution of the window like a successful one. *)
Theorem request_is_charged_first `{Builtins} (endpointId userId : string)
    (data : ExecutionData) (o : RequestOracle) (w : World) :
  executionStats (snd (executeEndpoint endpointId userId data o w))
  = executionStats (snd (checkRateLimit userId (o_now o) w))
  /\ forall e, fst (checkRateLimit userId (o_now o) w) = Throw e ->
               fst (executeEndpoint endpointId userId data o w) = Throw e.
Proof.
  destruct (checkRateLimit_reads_counters userId (o_now o)
              (set_dockerCalls (fun l => l ++ [DInfo]) w) w eq_refl) as [Hfst Hstats].
  split.
  - rewrite (executeEndpoint_after_rate_check executionStats); try reflexivity.
    exact Hstats.
  - intros e He. rewrite <- Hfst in He.
    pose proof (executeEndpoint_cases endpointId userId data o w) as Hcases.
    cbv zeta in Hcases. rewrite Hcases.
    destruct (checkRateLimit userId (o_now o)
                (set_dockerCalls (fun l => l ++ [DInfo]) w)) as [[[]|e'] w1];
      cbn [fst] in He |- *; [discriminate|]. inversion He. reflexivity.
Qed.

End QuotaExtras.

Module QueueExtras.
Import Props Props2 MonadFacts FrameFacts LifecycleFacts CacheSpec OrchestratorFacts
       PathFacts QuotaExtras DockerManager MockDataService SandboxService.

Section Queue.
Context `{Builtins}.

Lemma processSaveQueue_queue (userId containerId : string)
    (os : list SaveOracle) (w : World) :
  saveQueue (snd (processSaveQueue userId containerId os w))
  = delete containerId (saveQueue w).
Proof.
  unfold processSaveQueue. rewrite bind_run. unfold read.
  destruct (saveQueue w !! containerId) as [pending|] eqn:Hq.
  - rewrite bind_run.
    pose proof (processQueue_keeps saveQueue (fun _ _ => eq_refl)
                  userId pending os w) as Hk.
    destruct (processQueue_returns userId pending os w) as [l Hl].
    destruct (processQueue userId pending os w) as [r1 w1].
    cbn [fst snd] in *. subst r1. rewrite bind_run. unfold modify, ret.
    cbn [snd saveQueue set_saveQueue]. rewrite Hk. reflexivity.
  - unfold ret. cbn [snd]. symmetry. apply delete_id. exact Hq.
Qed.

Lemma processSaveQueue_empty (userId containerId : string)
    (os : list SaveOracle) (w : World) :
  saveQueue w !! containerId = None ->
  fst (processSaveQueue userId containerId os w) = Return [].
Proof.
  intros Hq. unfold processSaveQueue. rewrite bind_run. unfold read.
  rewrite Hq. reflexivity.
Qed.

Lemma finalizer_queue (containerId : string) (o : DestroyOracle) (w : World) :
  saveQueue (snd ((if String.eqb containerId "" then ret tt
                   else modify (set_saveQueue (delete containerId)) ≫= fun _ =>
                        destroyContainer containerId o) w))
  = if String.eqb containerId "" then saveQueue w
    else delete containerId (saveQueue w).
Proof.
  destruct (String.eqb containerId ""); [reflexivity|].
  rewrite bind_run. unfold modify.
  rewrite (destroyContainer_keeps saveQueue (fun _ _ => eq_refl) (fun _ _ => eq_refl)).
  reflexivity.
Qed.

Lemma runAndRespond_queue (endpointId userId : string) (ep : Endpoint)
    (data : ExecutionData) (o : RequestOracle) (containerId : string) (w : World) :
  saveQueue (snd (runAndRespond endpointId userId ep data o containerId w))
  = saveQueue w
  \/ saveQueue (snd (runAndRespond endpointId userId ep data o containerId w))
     = delete containerId (saveQueue w).
Proof.
  rewrite runAndRespond_cases.
  pose proof (run_keeps saveQueue (fun _ _ => eq_refl) (fun _ _ => eq_refl)
                containerId (o_exec o) w) as H1.
  destruct (DockerManager.executeCode containerId (o_exec o) w) as [[r|e] w1];
    cbn [snd] in H1; [|left; exact H1].
  right.
  pose proof (applySaveDirective_keeps saveQueue (fun _ _ => eq_refl)
                endpointId userId ep data r (o_save o) w1) as H2.
  destruct (applySaveDirective endpointId userId ep data r (o_save o) w1) as [r2 w2].
  cbn [snd] in H2.
  pose proof (processSaveQueue_queue userId containerId (o_queue o) w2) as H3.
  destruct (processSaveQueue userId containerId (o_queue o) w2) as [r3 w3].
  cbn [snd] in H3. cbv zeta.
  match goal with
  | |- context [logExecution ?rec ?ok w3] =>
      pose proof (logExecution_keeps saveQueue rec ok (fun _ _ => eq_refl) w3) as H4
  end.
  destruct (o_update_ok o); cbn [snd saveQueue set_endpoints];
    rewrite H4, H3, H2, H1; reflexivity.
Qed.

(** Property X12.
    Nothing in the service puts an entry on the save queue.  A request
    leaves the queue as it was, or as it was less the entry of the
    container that served it. *)
Theorem save_queue_never_grows (endpointId userId : string)
    (data : ExecutionData) (o : RequestOracle) (w : World) :
  saveQueue (snd (executeEndpoint endpointId userId data o w)) = saveQueue w
  \/ exists containerId,
       create_outcome (o_create o) = Started containerId
       /\ saveQueue (snd (executeEndpoint endpointId userId data o w))
          = delete containerId (saveQueue w).
Proof.
  pose proof (executeEndpoint_cases endpointId userId data o w) as Hcases.
  cbv zeta in Hcases. rewrite Hcases. clear Hcases.
  pose proof (checkRateLimit_keeps saveQueue userId (o_now o) (fun _ _ => eq_refl)
                (set_dockerCalls (fun l => l ++ [DInfo]) w)) as H1.
  destruct (checkRateLimit userId (o_now o)
              (set_dockerCalls (fun l => l ++ [DInfo]) w)) as [[[]|e] w1];
    cbn [snd] in H1; [|left; exact H1].
  change (saveQueue w1 = saveQueue w) in H1.
  destruct (endpoints w1 !! endpointId) as [ep|]; [|left; exact H1].
  destruct (negb (hasAccess (ep_project ep) userId)); [left; exact H1|].
  destruct (CodeExecutor.validateCode (ep_code ep)) as [ok|err]; cbn [snd].
  2:{ left. rewrite (logExecution_keeps saveQueue); [exact H1|reflexivity]. }
  pose proof (createContainer_keeps saveQueue (fun _ _ => eq_refl)
                (fun _ _ => eq_refl) "node" (o_create o) w1) as H2.
  pose proof (CreationFacts.createContainer_outcomes_started
                "node" (o_create o) w1) as Hid.
  destruct (createContainer "node" (o_create o) w1) as [[containerId|e] w2];
    cbn [snd] in *.
  2:{ left. rewrite (logExecution_keeps saveQueue); [congruence|reflexivity]. }
  pose proof (runAndRespond_queue endpointId userId ep data o containerId w2) as H3.
  destruct (runAndRespond endpointId userId ep data o containerId w2) as [[resp|e] w3];
    cbn [snd] in *.
  - rewrite finalizer_queue.
    destruct (String.eqb containerId "").
    + destruct H3 as [H3|H3]; [left; congruence|].
      right. exists containerId. split; [exact Hid|congruence].
    + right. exists containerId. split; [exact Hid|].
      destruct H3 as [H3|H3]; rewrite H3, H2, H1; [reflexivity|].
      apply delete_id. apply lookup_delete_eq.
  - rewrite finalizer_queue.
    match goal with
    | |- context [logExecution ?rec ?ok w3] =>
        pose proof (logExecution_keeps saveQueue rec ok (fun _ _ => eq_refl) w3) as H4;
        destruct (logExecution rec ok w3) as [r4 w4]
    end.
    cbn [snd] in *. rewrite <- H4 in H3.
    destruct (String.eqb containerId "").
    + destruct H3 as [H3|H3]; [left; congruence|].
      right. exists containerId. split; [exact Hid|congruence].
    + right. exists containerId. split; [exact Hid|].
      destruct H3 as [H3|H3]; rewrite H3, H2, H1; [reflexivity|].
      apply delete_id. apply lookup_delete_eq.
Qed.
End Queue.

End QueueExtras.

Module AuditExtras.
Import Props Props2 MonadFacts FrameFacts LifecycleFacts CacheSpec OrchestratorFacts
       PathFacts QuotaExtras QueueExtras DockerManager MockDataService SandboxService.

Section Audit.
Context `{Builtins}.

Lemma logExecution_log (r : LogRecord) (ok : bool) (w : World) :
  executionLog (snd (logExecution r ok w))
  = executionLog w ++ (if ok then [r] else []).
Proof. unfold logExecution. destruct ok; cbn; [reflexivity|]. now rewrite app_nil_r. Qed.

Lemma finalizer_log (containerId : string) (o : DestroyOracle) (w : World) :
  executionLog (snd ((if String.eqb containerId "" then ret tt
                      else modify (set_saveQueue (delete containerId)) ≫= fun _ =>
                           destroyContainer containerId o) w))
  = executionLog w.
Proof.
  apply (finalizer_keeps executionLog (fun _ _ => eq_refl) (fun _ _ => eq_refl)
           (fun _ _ => eq_refl) containerId o w).
Qed.

Lemma applySaveDirective_at_most_one (endpointId userId : string) (ep : Endpoint)
    (data : ExecutionData) (r : RunResult) (o : SaveOracle) (w : World) :
  match fst (applySaveDirective endpointId userId ep data r o w) with
  | Return l => (length l <= 1)%nat
  | Throw _ => False
  end.
Proof.
  unfold applySaveDirective, try_catch. cbv zeta.
  match goal with
  | |- context [(if ?c then ?a else ?b) w] =>
      destruct c; [|cbn; lia]
  end.
  rewrite bind_run.
  destruct (nullish _); unfold throw, ret; cbn [fst]; [cbn; lia|].
  rewrite bind_run.
  match goal with
  | |- context [saveFromExecution ?a ?b ?c ?d o w] =>
      destruct (saveFromExecution a b c d o w) as [[v|e] w']
  end; cbn; lia.
Qed.

(** The run came back: what [runAndRespond] then writes to the log and
    hands to the caller. *)
Lemma runAndRespond_returned (endpointId userId : string) (ep : Endpoint)
    (data : ExecutionData) (o : RequestOracle) (containerId : string)
    (w w1 : World) (r : RunResult) :
  DockerManager.executeCode containerId (o_exec o) w = (Return r, w1) ->
  exists saved : list jsval,
    let row := log_record endpointId userId
                 (if run_success r then 200 else 500)
                 (if run_success r then run_output r else JNull)
                 (if run_success r then JNull else run_error r)
                 (Some containerId) (Some (length saved)) in
    (saveQueue w !! containerId = None -> (length saved <= 1)%nat)
    /\ executionLog (snd (runAndRespond endpointId userId ep data o containerId w))
       = executionLog w ++ (if o_log_ok o then [row] else [])
    /\ fst (runAndRespond endpointId userId ep data o containerId w)
       = if o_update_ok o
         then Return {| resp_success := run_success r;
                        resp_data := if run_success r
                                     then parseOutput (run_output r) else JNull;
                        resp_error := run_error r;
                        resp_logs := Js.or (run_logs r) (JArr []);
                        resp_executionTime := o_done o - o_start o;
                        resp_savedData := savedData saved |}
         else Throw "prisma.endpoint.update".
Proof.
  intros Hrun. rewrite runAndRespond_cases.
  pose proof (run_keeps executionLog (fun _ _ => eq_refl) (fun _ _ => eq_refl)
                containerId (o_exec o) w) as L1.
  pose proof (run_keeps saveQueue (fun _ _ => eq_refl) (fun _ _ => eq_refl)
                containerId (o_exec o) w) as Q1.
  rewrite Hrun in *. cbn [snd] in L1, Q1.
  pose proof (applySaveDirective_keeps executionLog (fun _ _ => eq_refl)
                endpointId userId ep data r (o_save o) w1) as L2.
  pose proof (applySaveDirective_keeps saveQueue (fun _ _ => eq_refl)
                endpointId userId ep data r (o_save o) w1) as Q2.
  pose proof (applySaveDirective_at_most_one endpointId userId ep data r (o_save o) w1)
    as N2.
  destruct (applySaveDirective endpointId userId ep data r (o_save o) w1) as [[l1|e] w2];
    cbn [fst snd] in *; [|contradiction].
  pose proof (processSaveQueue_keeps executionLog (fun _ _ => eq_refl)
                (fun _ _ => eq_refl) userId containerId (o_queue o) w2) as L3.
  pose proof (processSaveQueue_empty userId containerId (o_queue o) w2) as N3.
  destruct (processSaveQueue_returns userId containerId (o_queue o) w2) as [l2 Hl2].
  destruct (processSaveQueue userId containerId (o_queue o) w2) as [r3 w3].
  cbn [fst snd] in *. subst r3. cbv zeta.
  exists (l1 ++ l2). split; [|split].
  - intros Hq. rewrite Q2, Q1 in N3. specialize (N3 Hq). inversion N3.
    rewrite app_nil_r. exact N2.
  - rewrite <- L1, <- L2, <- L3.
    destruct (o_update_ok o); cbn [snd executionLog set_endpoints];
      apply logExecution_log.
  - destruct (o_update_ok o); reflexivity.
Qed.

(** What a request that returns a response has gone through. *)
Lemma returned_request (endpointId userId : string)
    (data : ExecutionData) (o : RequestOracle) (w w' : World) (resp : Response) :
  executeEndpoint endpointId userId data o w = (Return resp, w') ->
  exists ep containerId row,
    endpoints w !! endpointId = Some ep
    /\ hasAccess (ep_project ep) userId = true
    /\ create_outcome (o_create o) = Started containerId
    /\ endpoints w' = <[endpointId := bump ep (o_called o)]> (endpoints w)
    /\ executionLog w' = executionLog w ++ (if o_log_ok o then [row] else [])
    /\ log_endpointId row = endpointId
    /\ log_userId row = userId
    /\ log_statusCode row = (if resp_success resp then 200 else 500)
    /\ log_error row = (if resp_success resp then JNull else resp_error resp)
    /\ log_sandboxId row = Some containerId.
Proof.
  pose proof (executeEndpoint_cases endpointId userId data o w) as Hcases.
  cbv zeta in Hcases. rewrite Hcases. clear Hcases.
  pose proof (checkRateLimit_keeps executionLog userId (o_now o) (fun _ _ => eq_refl)
                (set_dockerCalls (fun l => l ++ [DInfo]) w)) as L1.
  pose proof (checkRateLimit_keeps endpoints userId (o_now o) (fun _ _ => eq_refl)
                (set_dockerCalls (fun l => l ++ [DInfo]) w)) as E1.
  destruct (checkRateLimit userId (o_now o)
              (set_dockerCalls (fun l => l ++ [DInfo]) w)) as [[[]|e] w1];
    cbn [snd] in L1, E1; [|discriminate].
  change (executionLog w1 = executionLog w) in L1.
  change (endpoints w1 = endpoints w) in E1.
  rewrite E1.
  destruct (endpoints w !! endpointId) as [ep|] eqn:Hep; [|discriminate].
  destruct (hasAccess (ep_project ep) userId) eqn:Hacc; cbn [negb]; [|discriminate].
  destruct (CodeExecutor.validateCode (ep_code ep)) as [ok|err]; [|discriminate].
  pose proof (createContainer_keeps executionLog (fun _ _ => eq_refl)
                (fun _ _ => eq_refl) "node" (o_create o) w1) as L2.
  pose proof (createContainer_keeps endpoints (fun _ _ => eq_refl)
                (fun _ _ => eq_refl) "node" (o_create o) w1) as E2.
  pose proof (CreationFacts.createContainer_outcomes_started
                "node" (o_create o) w1) as Hid.
  destruct (createContainer "node" (o_create o) w1) as [[containerId|e] w2];
    cbn [snd] in *; [|discriminate].
  pose proof (OrchestratorSpec.runAndRespond_endpoints
                endpointId userId ep data o containerId w2) as E3.
  destruct (DockerManager.executeCode containerId (o_exec o) w2) as [[r|e] wr] eqn:Hrun.
  2:{ rewrite runAndRespond_cases, Hrun. discriminate. }
  destruct (runAndRespond_returned endpointId userId ep data o containerId w2 wr r Hrun)
    as (saved & _ & Hlog & Hfst).
  cbv zeta in Hlog, Hfst.
  destruct (runAndRespond endpointId userId ep data o containerId w2) as [[resp'|e'] w3];
    cbn [fst snd] in *; [|discriminate].
  intros Hret. inversion Hret; subst resp' w'. clear Hret.
  destruct (o_update_ok o); [|discriminate]. inversion Hfst; subst resp. clear Hfst.
  exists ep, containerId. eexists.
  split; [reflexivity|]. split; [exact Hacc|]. split; [exact Hid|].
  split.
  { rewrite (finalizer_keeps endpoints (fun _ _ => eq_refl) (fun _ _ => eq_refl)
               (fun _ _ => eq_refl) containerId (o_destroy o) w3).
    rewrite E3, E2, E1. reflexivity. }
  split; [rewrite finalizer_log, Hlog, L2, L1; reflexivity|].
  cbn. repeat split.
Qed.

(** Property X13.
    A request that returns a response is logged exactly once (when the
    log can be written), for its endpoint and user, under the id of
    the container that served it, with status 200 or 500 after the
    success flag of the response; an unsuccessful response is logged
    with its error. *)
Theorem returned_response_is_logged_once (endpointId userId : string)
    (data : ExecutionData) (o : RequestOracle) (w w' : World) (resp : Response) :
  executeEndpoint endpointId userId data o w = (Return resp, w') ->
  exists row,
    executionLog w' = executionLog w ++ (if o_log_ok o then [row] else [])
    /\ log_endpointId row = endpointId
    /\ log_userId row = userId
    /\ log_statusCode row = (if resp_success resp then 200 else 500)
    /\ log_error row = (if resp_success resp then JNull else resp_error resp)
    /\ exists containerId,
         log_sandboxId row = Some containerId
         /\ create_outcome (o_create o) = Started containerId.
Proof.
  intros Hret.
  destruct (returned_request endpointId userId data o w w' resp Hret)
    as (ep & containerId & row & _ & _ & Hid & _ & Hlog & H1 & H2 & H3 & H4 & H5).
  exists row. repeat split; try assumption.
  exists containerId. split; assumption.
Qed.

(** Property X14.
    Without entries on the save queue, a response carries at most one
    save result: [savedData] is [null], or counts one result. *)
Theorem response_has_at_most_one_save (endpointId userId : string)
    (data : ExecutionData) (o : RequestOracle) (w w' : World) (resp : Response) :
  saveQueue w = ∅ ->
  executeEndpoint endpointId userId data o w = (Return resp, w') ->
  resp_savedData resp = JNull
  \/ exists v, resp_savedData resp
               = JObj [ ("count", JNum 1); ("results", JArr [v]) ].
Proof.
  intros Hempty.
  pose proof (executeEndpoint_cases endpointId userId data o w) as Hcases.
  cbv zeta in Hcases. rewrite Hcases. clear Hcases.
  pose proof (checkRateLimit_keeps saveQueue userId (o_now o) (fun _ _ => eq_refl)
                (set_dockerCalls (fun l => l ++ [DInfo]) w)) as Q1.
  destruct (checkRateLimit userId (o_now o)
              (set_dockerCalls (fun l => l ++ [DInfo]) w)) as [[[]|e] w1];
    cbn [snd] in Q1; [|discriminate].
  change (saveQueue w1 = saveQueue w) in Q1.
  destruct (endpoints w1 !! endpointId) as [ep|]; [|discriminate].
  destruct (negb (hasAccess (ep_project ep) userId)); [discriminate|].
  destruct (CodeExecutor.validateCode (ep_code ep)) as [ok|err]; [|discriminate].
  pose proof (createContainer_keeps saveQueue (fun _ _ => eq_refl)
                (fun _ _ => eq_refl) "node" (o_create o) w1) as Q2.
  destruct (createContainer "node" (o_create o) w1) as [[containerId|e] w2];
    cbn [snd] in *; [|discriminate].
  assert (Hq : saveQueue w2 !! containerId = None).
  { rewrite Q2, Q1, Hempty. apply lookup_empty. }
  destruct (DockerManager.executeCode containerId (o_exec o) w2) as [[r|e] wr] eqn:Hrun.
  2:{ rewrite runAndRespond_cases, Hrun. discriminate. }
  destruct (runAndRespond_returned endpointId userId ep data o containerId w2 wr r Hrun)
    as (saved & Hlen & _ & Hfst).
  cbv zeta in Hfst. specialize (Hlen Hq).
  destruct (runAndRespond endpointId userId ep data o containerId w2) as [[resp'|e'] w3];
    cbn [fst snd] in *; [|discriminate].
  intros Hret. inversion Hret; subst resp' w'. clear Hret.
  destruct (o_update_ok o); [|discriminate]. inversion Hfst; subst resp. clear Hfst.
  cbn [resp_savedData].
  destruct saved as [|v [|v' rest]]; [left; reflexivity| |cbn in Hlen; lia].
  right. exists v. reflexivity.
Qed.
End Audit.

End AuditExtras.

Module AuditRuns.
Import Props Props2 DockerManager MockDataService SandboxService.

Lemma returned_response_is_logged_once_run :
  let w := Scenario.world1 "return 1" in
  let o := Scenario.oracle1 (StreamEnd [] (chars "boom") (inl 1)) in
  let run := @executeEndpoint (Scenario.host []) "ep_1" Scenario.alice
               (Scenario.request JUndefined) o w in
  exists row,
    executionLog (snd run) = executionLog w ++ [row]
    /\ log_endpointId row = "ep_1"
    /\ log_userId row = Scenario.alice
    /\ log_statusCode row = 500
    /\ log_error row = JStr "boom"
    /\ exists containerId,
         log_sandboxId row = Some containerId
         /\ create_outcome (o_create o) = Started containerId.
Proof.
  intros w o run.
  apply (AuditExtras.returned_response_is_logged_once (H := Scenario.host [])
           "ep_1" Scenario.alice (Scenario.request JUndefined) o w (snd run)
           {| resp_success := false; resp_data := JNull; resp_error := JStr "boom";
              resp_logs := JArr []; resp_executionTime := 100;
              resp_savedData := JNull |}).
  vm_compute. reflexivity.
Defined.

Lemma response_has_at_most_one_save_run :
  let d := Scenario.directive (JStr "col_B") [JNum 41; JNum 42] in
  let payload := Scenario.harness_payload (Scenario.returns_directive d) in
  let w := Scenario.world1 "return 1" in
  let o := Scenario.oracle1 (StreamEnd (Scenario.stdout_of payload) [] (inl 0)) in
  let run := @executeEndpoint (Scenario.host [payload]) "ep_1" Scenario.alice
               (Scenario.request (JStr "col_A")) o w in
  let resp := match fst run with
              | Return resp => resp
              | Throw _ => Examples.no_response
              end in
  resp_savedData resp = JNull
  \/ exists v, resp_savedData resp
               = JObj [ ("count", JNum 1); ("results", JArr [v]) ].
Proof.
  intros d payload w o run resp.
  apply (AuditExtras.response_has_at_most_one_save (H := Scenario.host [payload])
           "ep_1" Scenario.alice (Scenario.request (JStr "col_A")) o w (snd run) resp).
  - reflexivity.
  - vm_compute. reflexivity.
Defined.

End AuditRuns.

Module RejectionExtras.
Import Props Props2 MonadFacts FrameFacts LifecycleFacts CacheSpec OrchestratorFacts
       PathFacts QuotaExtras QueueExtras AuditExtras
       DockerManager MockDataService SandboxService.

Section Rejections.
Context `{Builtins}.

Lemma checkRateLimit_stats (userId : string) (now : Z) (w : World) :
  let run := checkRateLimit userId now w in
  (forall other, other <> userId ->
     executionStats (snd run) !! other = executionStats w !! other)
  /\ (fst run = Return tt ->
        executionStats (snd run) !! userId
        = Some (charge now (executionStats w !! userId)))
  /\ (fst run = Throw "RATE_LIMIT_EXCEEDED" ->
        executionStats (snd run) = executionStats w).
Proof.
  cbv zeta. unfold charge.
  cbv [checkRateLimit mbind M_bind bind read modify throw ret].
  destruct (executionStats w !! userId) as [s|] eqn:Hs; cbn [fst snd].
  - destruct (Z.ltb (resetTime s) now).
    + cbn [count resetTime]. change (Z.leb maxExecutionsPerUser 0) with false. cbn [fst snd executionStats set_executionStats].
      split; [|split].
      * intros other Hne. rewrite !lookup_insert_ne by congruence. reflexivity.
      * intros _. apply lookup_insert_eq.
      * discriminate.
    + destruct (Z.leb maxExecutionsPerUser (count s));
        cbn [fst snd executionStats set_executionStats]; (split; [|split]).
      * intros other Hne. rewrite lookup_insert_ne by congruence. reflexivity.
      * discriminate.
      * intros _. apply insert_id. exact Hs.
      * intros other Hne. rewrite !lookup_insert_ne by congruence. reflexivity.
      * intros _. apply lookup_insert_eq.
      * discriminate.
  - cbn [resetTime].
    destruct (Z.ltb (now + 3600000) now); cbn [count resetTime];
      change (Z.leb maxExecutionsPerUser 0) with false;
      cbn [fst snd executionStats set_executionStats]; (split; [|split]);
      try discriminate.
    + intros other Hne. rewrite lookup_insert_ne by congruence. reflexivity.
    + intros _. apply lookup_insert_eq.
    + intros other Hne. rewrite lookup_insert_ne by congruence. reflexivity.
    + intros _. apply lookup_insert_eq.
Qed.

(** Property X15.
    A request that is turned away by the rate check, for an unknown
    endpoint or for lack of access leaves no trace but the health
    probe and the charge to the caller's quota: no row in the
    execution log, no container, no change to endpoints, collections,
    the result cache or the save queue.  The counters are left as the
    rate check leaves them: those of other users are untouched; a
    request refused by the rate check changes none; a request that
    passed the rate check and was then turned away has been counted
    against the caller. *)
Theorem turned_away_leaves_no_trace (endpointId userId : string)
    (data : ExecutionData) (o : RequestOracle) (w : World) :
  fst (checkRateLimit userId (o_now o) w) = Throw "RATE_LIMIT_EXCEEDED"
  \/ match endpoints w !! endpointId with
     | Some ep => hasAccess (ep_project ep) userId = false
     | None => True
     end ->
  let run := executeEndpoint endpointId userId data o w in
  (fst run = Throw "RATE_LIMIT_EXCEEDED"
   \/ fst run = Throw "ENDPOINT_NOT_FOUND"
   \/ fst run = Throw "ENDPOINT_ACCESS_DENIED")
  /\ executionLog (snd run) = executionLog w
  /\ dockerCalls (snd run) = dockerCalls w ++ [DInfo]
  /\ activeContainers (snd run) = activeContainers w
  /\ endpoints (snd run) = endpoints w
  /\ mockDataCollections (snd run) = mockDataCollections w
  /\ executionStats (snd run)
     = executionStats (snd (checkRateLimit userId (o_now o) w))
  /\ (forall other, other <> userId ->
        executionStats (snd run) !! other = executionStats w !! other)
  /\ (fst run = Throw "RATE_LIMIT_EXCEEDED" ->
        executionStats (snd run) = executionStats w)
  /\ (fst run <> Throw "RATE_LIMIT_EXCEEDED" ->
        executionStats (snd run) !! userId
        = Some (charge (o_now o) (executionStats w !! userId)))
  /\ maxContainers (snd run) = maxContainers w
  /\ executionCache (snd run) = executionCache w
  /\ sandboxLogs (snd run) = sandboxLogs w
  /\ saveQueue (snd run) = saveQueue w.
Proof.
  intros Hwhy. cbv zeta.
  pose proof (executeEndpoint_cases endpointId userId data o w) as Hcases.
  cbv zeta in Hcases. rewrite Hcases. clear Hcases.
  set (w0 := set_dockerCalls (fun l => l ++ [DInfo]) w).
  destruct (checkRateLimit_reads_counters userId (o_now o) w0 w eq_refl)
    as [Hfst Hsnd].
  destruct (checkRateLimit_stats userId (o_now o) w) as (Hothers & Hcharge & Hfull).
  cbv zeta in Hothers, Hcharge, Hfull.
  rewrite <- Hsnd in Hothers, Hcharge, Hfull. rewrite <- Hfst in Hcharge, Hfull.
  rewrite <- Hsnd. clear Hsnd.
  pose proof (checkRateLimit_result userId (o_now o) w0) as Hres.
  pose proof (checkRateLimit_keeps executionLog userId (o_now o)
                (fun _ _ => eq_refl) w0) as K1.
  pose proof (checkRateLimit_keeps dockerCalls userId (o_now o)
                (fun _ _ => eq_refl) w0) as K2.
  pose proof (checkRateLimit_keeps activeContainers userId (o_now o)
                (fun _ _ => eq_refl) w0) as K3.
  pose proof (checkRateLimit_keeps endpoints userId (o_now o)
                (fun _ _ => eq_refl) w0) as K4.
  pose proof (checkRateLimit_keeps mockDataCollections userId (o_now o)
                (fun _ _ => eq_refl) w0) as K5.
  pose proof (checkRateLimit_keeps maxContainers userId (o_now o)
                (fun _ _ => eq_refl) w0) as K6.
  pose proof (checkRateLimit_keeps executionCache userId (o_now o)
                (fun _ _ => eq_refl) w0) as K7.
  pose proof (checkRateLimit_keeps sandboxLogs userId (o_now o)
                (fun _ _ => eq_refl) w0) as K8.
  pose proof (checkRateLimit_keeps saveQueue userId (o_now o)
                (fun _ _ => eq_refl) w0) as K9.
  destruct (checkRateLimit userId (o_now o) w0) as [[[]|e] w1];
    cbn [fst snd] in *.
  - destruct Hwhy as [Hwhy|Hwhy]; [rewrite <- Hfst in Hwhy; discriminate|].
    change (endpoints w0) with (endpoints w) in K4. rewrite K4.
    destruct (endpoints w !! endpointId) as [ep|].
    + rewrite Hwhy. cbn [negb fst snd]. rewrite K1, K2, K3, K5, K6, K7, K8, K9.
      repeat split; auto; discriminate.
    + cbn [fst snd]. rewrite K1, K2, K3, K5, K6, K7, K8, K9.
      repeat split; auto; discriminate.
  - destruct Hres as [Hres|Hres]; [discriminate|]. inversion Hres; subst e.
    rewrite K1, K2, K3, K4, K5, K6, K7, K8, K9.
    repeat split; auto. intros Hne. contradiction Hne. reflexivity.
Qed.

(** Property X16.
    When the update of the endpoint row fails after the run has come
    back, the request is logged twice: first with the status of the
    run, then, by the error path, with status 500 and the error of the
    update, which is also what the request throws. *)
Theorem failed_update_is_logged_twice (endpointId userId : string)
    (data : ExecutionData) (o : RequestOracle) (w w1 w2 w3 : World)
    (ep : Endpoint) (ok : bool) (containerId : string) (r : RunResult) :
  checkRateLimit userId (o_now o) (set_dockerCalls (fun l => l ++ [DInfo]) w)
    = (Return tt, w1) ->
  endpoints w !! endpointId = Some ep ->
  hasAccess (ep_project ep) userId = true ->
  CodeExecutor.validateCode (ep_code ep) = Return ok ->
  createContainer "node" (o_create o) w1 = (Return containerId, w2) ->
  DockerManager.executeCode containerId (o_exec o) w2 = (Return r, w3) ->
  o_log_ok o = true ->
  o_update_ok o = false ->
  let run := executeEndpoint endpointId userId data o w in
  fst run = Throw "prisma.endpoint.update"
  /\ exists saves,
       executionLog (snd run)
       = executionLog w
         ++ [ log_record endpointId userId
                (if run_success r then 200 else 500)
                (if run_success r then run_output r else JNull)
                (if run_success r then JNull else run_error r)
                (Some containerId) (Some saves);
              log_record endpointId userId 500 JNull
                (JStr "prisma.endpoint.update") (Some containerId) None ].
Proof.
  intros Hrate Hep Hacc Hval Hcreate Hrun Hlog Hupd. cbv zeta.
  pose proof (executeEndpoint_cases endpointId userId data o w) as Hcases.
  cbv zeta in Hcases. rewrite Hcases. clear Hcases.
  pose proof (checkRateLimit_keeps executionLog userId (o_now o) (fun _ _ => eq_refl)
                (set_dockerCalls (fun l => l ++ [DInfo]) w)) as L1.
  pose proof (checkRateLimit_keeps endpoints userId (o_now o) (fun _ _ => eq_refl)
                (set_dockerCalls (fun l => l ++ [DInfo]) w)) as E1.
  rewrite Hrate in *. cbn [snd] in L1, E1.
  change (executionLog w1 = executionLog w) in L1.
  change (endpoints w1 = endpoints w) in E1.
  rewrite E1, Hep, Hacc, Hval. cbn [negb].
  pose proof (createContainer_keeps executionLog (fun _ _ => eq_refl)
                (fun _ _ => eq_refl) "node" (o_create o) w1) as L2.
  rewrite Hcreate in *. cbn [snd] in L2.
  destruct (runAndRespond_returned endpointId userId ep data o containerId w2 w3 r Hrun)
    as (saved & _ & Hrows & Hfst).
  cbv zeta in Hrows, Hfst. rewrite Hupd in Hfst. rewrite Hlog in Hrows.
  destruct (runAndRespond endpointId userId ep data o containerId w2) as [[resp|e] w4];
    cbn [fst snd] in *; [discriminate|].
  inversion Hfst; subst e. split; [reflexivity|].
  exists (length saved).
  rewrite finalizer_log, logExecution_log, Hlog, Hrows, L2, L1.
  rewrite <- app_assoc. reflexivity.
Qed.
End Rejections.

Lemma turned_away_leaves_no_trace_run :
  let w := Scenario.world1 "return 1" in
  let run := @executeEndpoint (Scenario.host []) "ep_1" "user_mallory"
               (Scenario.request JUndefined) (Scenario.oracle1 Deadline) w in
  executionStats w !! "user_mallory" = None
  /\ (executionStats (snd run) !! "user_mallory"
      = Some {| count := 1;
                resetTime := o_now (Scenario.oracle1 Deadline) + 3600000 |})
  /\ (fst run = Throw "RATE_LIMIT_EXCEEDED"
      \/ fst run = Throw "ENDPOINT_NOT_FOUND"
      \/ fst run = Throw "ENDPOINT_ACCESS_DENIED")
  /\ executionLog (snd run) = executionLog w
  /\ dockerCalls (snd run) = dockerCalls w ++ [DInfo]
  /\ activeContainers (snd run) = activeContainers w
  /\ endpoints (snd run) = endpoints w
  /\ mockDataCollections (snd run) = mockDataCollections w
  /\ executionStats (snd run)
     = executionStats (snd (checkRateLimit "user_mallory"
                              (o_now (Scenario.oracle1 Deadline)) w))
  /\ (forall other, other <> "user_mallory" ->
        executionStats (snd run) !! other = executionStats w !! other)
  /\ (fst run = Throw "RATE_LIMIT_EXCEEDED" ->
        executionStats (snd run) = executionStats w)
  /\ (fst run <> Throw "RATE_LIMIT_EXCEEDED" ->
        executionStats (snd run) !! "user_mallory"
        = Some (charge (o_now (Scenario.oracle1 Deadline))
                  (executionStats w !! "user_mallory")))
  /\ maxContainers (snd run) = maxContainers w
  /\ executionCache (snd run) = executionCache w
  /\ sandboxLogs (snd run) = sandboxLogs w
  /\ saveQueue (snd run) = saveQueue w.
Proof.
  split; [reflexivity|]. split; [vm_compute; reflexivity|].
  apply (turned_away_leaves_no_trace (H := Scenario.host []) "ep_1" "user_mallory"
           (Scenario.request JUndefined) (Scenario.oracle1 Deadline)
           (Scenario.world1 "return 1")).
  right. reflexivity.
Defined.

Lemma failed_update_is_logged_twice_run :
  let w := Scenario.world1 "return 1" in
  let o := Examples.update_fails (StreamEnd [] (chars "boom") (inl 1)) in
  let run := @executeEndpoint (Scenario.host []) "ep_1" Scenario.alice
               (Scenario.request JUndefined) o w in
  fst run = Throw "prisma.endpoint.update"
  /\ exists saves,
       executionLog (snd run)
       = executionLog w
         ++ [ log_record "ep_1" Scenario.alice 500 JNull (JStr "boom")
                (Some "c1") (Some saves);
              log_record "ep_1" Scenario.alice 500 JNull
                (JStr "prisma.endpoint.update") (Some "c1") None ].
Proof.
  intros w o run.
  eapply (failed_update_is_logged_twice (H := Scenario.host []) "ep_1" Scenario.alice
            (Scenario.request JUndefined) o w _ _ _ (Scenario.endpoint1 "return 1")
            true "c1"
            {| run_success := false; run_output := JNull; run_error := JStr "boom";
               run_logs := JArr []; run_executionTime := 39; run_exitCode := 1 |}).
  - vm_compute. reflexivity.
  - reflexivity.
  - reflexivity.
  - reflexivity.
  - vm_compute. reflexivity.
  - vm_compute. reflexivity.
  - reflexivity.
  - reflexivity.
Defined.

End RejectionExtras.

Module HistoryExtras.
Import Props Props2 MonadFacts FrameFacts OrchestratorFacts PathFacts AuditExtras
       DockerManager MockDataService SandboxService Monitoring.

Lemma in_firstn {A} (n : nat) (l : list A) (x : A) : In x (firstn n l) -> In x l.
Proof.
  revert l. induction n as [|n IH]; intros [|y l]; cbn; try tauto.
  intros [->|Hx]; [left; reflexivity|right; apply IH; exact Hx].
Qed.

Lemma getExecutionHistory_run (endpointId userId : string) (limit : nat) (w : World) :
  getExecutionHistory endpointId userId limit w
  = (match endpoints w !! endpointId with
     | Some ep =>
         if hasAccess (ep_project ep) userId
         then Return (map history_entry
                        (firstn limit
                           (rev (List.filter
                                   (fun r => String.eqb (log_endpointId r) endpointId)
                                   (executionLog w)))))
         else Throw "ACCESS_DENIED"
     | None => Throw "ACCESS_DENIED"
     end, w).
Proof.
  cbv [getExecutionHistory mbind M_bind bind read throw ret].
  destruct (endpoints w !! endpointId) as [ep|]; [|reflexivity].
  unfold hasAccess, project_visibility. cbn [is_string]. rewrite orb_false_r.
  destruct (String.eqb (ownerId (ep_project ep)) userId); cbn [negb andb orb];
    [reflexivity|].
  destruct (Nat.eqb _ 0); reflexivity.
Qed.

(** Property X17.
    The history of an endpoint is open to exactly the users who may
    execute it: the owner of the project and its collaborators.  The
    query changes nothing, returns at most [limit] entries, and each of
    them is a logged execution of this endpoint. *)
Theorem history_is_for_those_who_may_execute (endpointId userId : string)
    (limit : nat) (w : World) :
  let run := getExecutionHistory endpointId userId limit w in
  snd run = w
  /\ match fst run with
     | Return h =>
         (exists ep, endpoints w !! endpointId = Some ep
                     /\ hasAccess (ep_project ep) userId = true)
         /\ (length h <= limit)%nat
         /\ Forall (fun e => exists row, In row (executionLog w)
                                         /\ log_endpointId row = endpointId
                                         /\ e = history_entry row) h
     | Throw e =>
         e = "ACCESS_DENIED"
         /\ match endpoints w !! endpointId with
            | Some ep => hasAccess (ep_project ep) userId = false
            | None => True
            end
     end.
Proof.
  cbv zeta. rewrite getExecutionHistory_run. cbn [fst snd].
  split; [reflexivity|].
  destruct (endpoints w !! endpointId) as [ep|]; [|auto].
  destruct (hasAccess (ep_project ep) userId) eqn:Hacc; [|auto].
  split; [exists ep; auto|]. split.
  - rewrite length_map, length_firstn. lia.
  - apply List.Forall_forall. intros e He.
    apply in_map_iff in He. destruct He as (row & <- & Hrow).
    apply in_firstn in Hrow. apply in_rev in Hrow.
    apply filter_In in Hrow. destruct Hrow as [Hin Heq].
    apply String.eqb_eq in Heq. exists row. auto.
Qed.

(** Property X18.
    A request that has returned a response is the first entry of the
    endpoint's history for the same user, with the status and error it
    was logged with; the entries after it are the history as it was
    before the request. *)
Theorem latest_execution_heads_history `{Builtins} (endpointId userId : string)
    (data : ExecutionData) (o : RequestOracle) (w w' : World) (resp : Response)
    (limit : nat) :
  executeEndpoint endpointId userId data o w = (Return resp, w') ->
  o_log_ok o = true ->
  exists earlier,
    fst (getExecutionHistory endpointId userId limit w) = Return earlier
    /\ fst (getExecutionHistory endpointId userId (S limit) w')
       = Return ({| he_statusCode := if resp_success resp then 200 else 500;
                    he_error := if resp_success resp then JNull
                                else resp_error resp |} :: earlier).
Proof.
  intros Hret Hlog.
  destruct (returned_request endpointId userId data o w w' resp Hret)
    as (ep & containerId & row & Hep & Hacc & _ & Hends & Hrows
        & Hrow1 & _ & Hrow3 & Hrow4 & _).
  rewrite Hlog in Hrows.
  rewrite !getExecutionHistory_run. cbn [fst].
  rewrite Hends, lookup_insert_eq, Hep. cbn [bump ep_project]. rewrite Hacc.
  eexists. split; [reflexivity|].
  rewrite Hrows, List.filter_app. cbn [List.filter].
  rewrite Hrow1, String.eqb_refl, rev_app_distr. cbn [rev app firstn map].
  unfold history_entry at 1. rewrite Hrow3, Hrow4. reflexivity.
Qed.

Lemma latest_execution_heads_history_run :
  let w := Scenario.world1 "return 1" in
  let o := Scenario.oracle1 (StreamEnd [] (chars "boom") (inl 1)) in
  let run := @executeEndpoint (Scenario.host []) "ep_1" Scenario.alice
               (Scenario.request JUndefined) o w in
  exists earlier,
    fst (getExecutionHistory "ep_1" Scenario.alice 20 w) = Return earlier
    /\ fst (getExecutionHistory "ep_1" Scenario.alice 21 (snd run))
       = Return ({| he_statusCode := 500; he_error := JStr "boom" |} :: earlier).
Proof.
  intros w o run.
  apply (latest_execution_heads_history (H := Scenario.host [])
           "ep_1" Scenario.alice (Scenario.request JUndefined) o w (snd run)
           {| resp_success := false; resp_data := JNull; resp_error := JStr "boom";
              resp_logs := JArr []; resp_executionTime := 100;
              resp_savedData := JNull |} 20).
  - vm_compute. reflexivity.
  - reflexivity.
Defined.

End HistoryExtras.

Module MonitoringExtras.
Import Props Props2 MonadFacts FrameFacts DockerManager SandboxService Monitoring.

(** Property X19.
    The health report of the sandbox service never says UNHEALTHY.
    When the daemon answers, the report is HEALTHY and carries the
    size and ceiling of the registry, the number of users with a
    counter and the number of queue entries; when the daemon does not
    answer, the report of the container manager has no [containers]
    field and the health check throws. *)
Theorem sandbox_health_is_healthy_or_throws (info_ok : bool) (w : World) :
  let run := Monitoring.healthCheck info_ok w in
  dockerCalls (snd run) = dockerCalls w ++ [DInfo]
  /\ match fst run with
     | Return r =>
         info_ok = true
         /\ sh_status r = "HEALTHY"
         /\ sh_activeContainers r = size (activeContainers w)
         /\ sh_maxContainers r = maxContainers w
         /\ sh_totalUsers r = size (executionStats w)
         /\ sh_totalExecutions r = totalExecutions (executionStats w)
         /\ sh_rateLimit r = 1000
         /\ sh_pendingSaves r = size (saveQueue w)
     | Throw _ => info_ok = false
     end.
Proof.
  cbv zeta. unfold Monitoring.healthCheck, DockerManager.healthCheck, docker_call.
  destruct info_ok; cbn; repeat split; reflexivity.
Qed.

Lemma totalExecutions_insert (stats : gmap string UserStats) (u : string)
    (s : UserStats) :
  totalExecutions (<[u := s]> stats)
  = totalExecutions stats
    - match stats !! u with Some old => count old | None => 0 end
    + count s.
Proof.
  unfold totalExecutions.
  assert (Hcomm : forall (m : gmap string UserStats) (j1 j2 : string)
                         (z1 z2 : UserStats) (y : Z),
            j1 <> j2 -> m !! j1 = Some z1 -> m !! j2 = Some z2 ->
            y + count z2 + count z1 = y + count z1 + count z2)
    by (intros; lia).
  destruct (stats !! u) as [old|] eqn:Hu.
  - rewrite (map_fold_delete_L _ 0 u old stats (Hcomm stats) Hu).
    rewrite <- insert_delete_eq.
    rewrite (map_fold_insert_L _ 0 u s (delete u stats) (Hcomm _)
               (lookup_delete_eq _ _)).
    lia.
  - rewrite (map_fold_insert_L _ 0 u s stats (Hcomm _) Hu). lia.
Qed.

(** Property X20.
    [totalExecutions] of the health report is the sum of the counters
    of the windows that are open, not a count of executions: a rate
    check that passes inside a window raises it by one, a refused one
    leaves it, and a check that opens a new window replaces what the
    user had run up in the old one by one. *)
Theorem total_executions_follow_the_windows (userId : string) (now : Z) (w : World) :
  totalExecutions (executionStats (snd (checkRateLimit userId now w)))
  = totalExecutions (executionStats w)
    + match executionStats w !! userId with
      | Some s =>
          if Z.ltb (resetTime s) now then 1 - count s
          else if Z.leb maxExecutionsPerUser (count s) then 0
          else 1
      | None => 1
      end.
Proof.
  cbv [checkRateLimit mbind M_bind bind read modify throw ret].
  destruct (executionStats w !! userId) as [s|] eqn:Hs.
  - destruct (Z.ltb (resetTime s) now); cbn [count resetTime].
    + change (Z.leb maxExecutionsPerUser 0) with false.
      cbn [snd executionStats set_executionStats].
      rewrite !totalExecutions_insert, lookup_insert_eq, Hs. cbn [count]. lia.
    + destruct (Z.leb maxExecutionsPerUser (count s));
        cbn [snd executionStats set_executionStats];
        rewrite !totalExecutions_insert, ?lookup_insert_eq, Hs; cbn [count]; lia.
  - assert (Hwin : Z.ltb (now + 3600000) now = false) by (apply Z.ltb_ge; lia).
    cbn [resetTime count]. rewrite Hwin. cbn [resetTime count].
    change (Z.leb maxExecutionsPerUser 0) with false.
    cbn [snd executionStats set_executionStats count resetTime].
    rewrite totalExecutions_insert, Hs. cbn [count]. lia.
Qed.

End MonitoringExtras.

Module SaveExtras.
Import Props Props2 MonadFacts FrameFacts OrchestratorFacts
       DockerManager MockDataService SandboxService.

Section Save.
Context `{Builtins}.

Lemma canEditWith_string (p : Project) (uid : string) :
  canEditWith p (JStr uid) (fun u => String.eqb u uid) = canEditCollection p uid.
Proof. reflexivity. Qed.

Lemma canEditWith_true (p : Project) (userId : jsval) (selected : string -> bool) :
  canEditWith p userId selected = true ->
  userId = JStr (ownerId p)
  \/ exists collab, In collab (collaborators p)
                    /\ selected (collab_userId collab) = true
                    /\ canEdit collab = true.
Proof.
  unfold canEditWith. intros Hedit. apply orb_true_iff in Hedit.
  destruct Hedit as [Hown|Hcol].
  - left. destruct userId; try discriminate.
    apply String.eqb_eq in Hown. now subst.
  - right. apply existsb_exists in Hcol. destruct Hcol as (collab & Hin & Hcan).
    apply filter_In in Hin. destruct Hin as [Hin Hsel]. exists collab. auto.
Qed.

Lemma saveFromExecution_cases (collectionId data userId ctx : jsval)
    (o : SaveOracle) (w : World) :
  match saveFromExecution collectionId data userId ctx o w with
  | (Throw _, w') => w' = w
  | (Return v, w') =>
      exists cid selected c,
        collectionId = JStr cid
        /\ collaboratorsWhere userId = Some selected
        /\ mockDataCollections w !! cid = Some c
        /\ canEditWith (col_project c) userId selected = true
        /\ isArray data = true
        /\ (truthy (col_schema c) = true ->
            validateDataAgainstSchema data (col_schema c) = [])
        /\ update_ok o = true
        /\ w' = set_mockDataCollections (insert cid (saved_row c data userId)) w
        /\ v = JObj
             [ ("success", JBool true);
               ("message",
                 JStr ("Saved " +:+ num_to_string (Z.of_nat (items_length data))
                         +:+ " items to " +:+ col_name c));
               ("collection",
                 JObj [ ("id", JStr cid);
                        ("name", JStr (col_name c));
                        ("itemCount", JNum (Z.of_nat (items_length data)));
                        ("version", JNum (col_version (saved_row c data userId))) ]);
               ("executionContext", ctx);
               ("metadata",
                 JObj [ ("saveCount", JNum (col_saveCount (saved_row c data userId)));
                        ("version", JNum (col_version (saved_row c data userId))) ]) ]
  end.
Proof.
  unfold saveFromExecution.
  destruct collectionId as [| | | |cid| |]; try reflexivity.
  destruct (collaboratorsWhere userId) as [selected|] eqn:Hsel; [|reflexivity].
  cbv [mbind M_bind bind read modify throw ret].
  destruct (mockDataCollections w !! cid) as [c|] eqn:Hc; [|reflexivity].
  destruct (canEditWith (col_project c) userId selected) eqn:Hedit; cbn [negb];
    [|reflexivity].
  destruct (isArray data) eqn:Harr; cbn [negb]; [|reflexivity].
  destruct (truthy (col_schema c)) eqn:Hschema.
  - destruct (validateDataAgainstSchema data (col_schema c)) as [|e errs] eqn:Hval;
      [|reflexivity].
    destruct (update_ok o) eqn:Hup; [|reflexivity].
    exists cid, selected, c. repeat split; auto.
  - destruct (update_ok o) eqn:Hup; [|reflexivity].
    exists cid, selected, c. repeat split; auto. intros Ht. congruence.
Qed.

(** Property X21.
    A save is all or nothing, and it is made only when the edit test
    of the service passes.  When [saveFromExecution] throws, nothing
    has changed.  When it returns, the caller named an existing
    collection, the data is an array that passes the schema of the
    collection if it has one, and the given user id is the id of the
    project's owner or the collaborator rows selected by the user-id
    filter include one with edit rights.  For a user id that is a
    string these are the rows of that user; for [undefined] the filter
    is dropped, and for a filter object it is whatever the filter
    admits, so the test can then pass on the edit rights of another
    collaborator.  Exactly the named collection row has changed: it
    holds the new data, its version and save counter are each one
    higher (a missing version counts as 1), and it records the given
    user id as the one who saved. *)
Theorem save_is_all_or_nothing (collectionId data userId ctx : jsval)
    (o : SaveOracle) (w : World) :
  match saveFromExecution collectionId data userId ctx o w with
  | (Throw _, w') => w' = w
  | (Return v, w') =>
      exists cid selected c,
        collectionId = JStr cid
        /\ collaboratorsWhere userId = Some selected
        /\ mockDataCollections w !! cid = Some c
        /\ (userId = JStr (ownerId (col_project c))
            \/ exists collab, In collab (collaborators (col_project c))
                              /\ selected (collab_userId collab) = true
                              /\ canEdit collab = true)
        /\ (forall uid, userId = JStr uid ->
              canEditCollection (col_project c) uid = true)
        /\ (userId = JUndefined ->
              existsb canEdit (collaborators (col_project c)) = true)
        /\ isArray data = true
        /\ (truthy (col_schema c) = true ->
              validateDataAgainstSchema data (col_schema c) = [])
        /\ mockDataCollections w' !! cid = Some (saved_row c data userId)
        /\ (forall other, other <> cid ->
              mockDataCollections w' !! other = mockDataCollections w !! other)
        /\ col_version c < col_version (saved_row c data userId)
        /\ col_saveCount (saved_row c data userId) = col_saveCount c + 1
        /\ col_lastSavedBy (saved_row c data userId) = userId
        /\ get v "success" = JBool true
        /\ get (get v "collection") "version"
           = JNum (col_version (saved_row c data userId))
  end.
Proof.
  pose proof (saveFromExecution_cases collectionId data userId ctx o w) as Hcases.
  destruct (saveFromExecution collectionId data userId ctx o w) as [[v|e] w'];
    [|exact Hcases].
  destruct Hcases as (cid & selected & c & -> & Hsel & Hc & Hedit & Harr & Hsch & _ & -> & ->).
  exists cid, selected, c.
  split; [reflexivity|]. split; [exact Hsel|]. split; [exact Hc|].
  split; [apply canEditWith_true; exact Hedit|].
  split.
  { intros uid ->. cbn in Hsel. inversion Hsel; subst selected.
    rewrite <- canEditWith_string. exact Hedit. }
  split.
  { intros ->. cbn in Hsel. inversion Hsel; subst selected.
    unfold canEditWith in Hedit. cbn [orb] in Hedit.
    rewrite <- Hedit. clear Hedit.
    induction (collaborators (col_project c)) as [|x l IH]; [reflexivity|].
    cbn [List.filter existsb]. now rewrite IH. }
  split; [exact Harr|]. split; [exact Hsch|].
  split; [cbn; apply lookup_insert_eq|].
  split; [intros other Hne; cbn; apply lookup_insert_ne; congruence|].
  split; [cbn [saved_row col_version]; destruct (Z.eqb_spec (col_version c) 0); lia|].
  repeat split.
Qed.

(** A save made for no user at all: with [undefined] for the user id
    the collaborator filter is dropped, and the edit rights of any
    collaborator of the project let the save through. *)
Example save_with_undefined_user :
  let w := set_mockDataCollections
             (insert "col_T" Examples.team_collection) (Scenario.world0 10) in
  let run := @saveFromExecution (Scenario.host []) (JStr "col_T") (JArr [JNum 9])
               JUndefined (JObj []) {| update_ok := true |} w in
  (exists v, fst run = Return v /\ get v "success" = JBool true)
  /\ (col_data <$> mockDataCollections (snd run) !! "col_T") = Some (JArr [JNum 9])
  /\ (col_lastSavedBy <$> mockDataCollections (snd run) !! "col_T") = Some JUndefined.
Proof.
  intros w run. split; [eexists; split; vm_compute; reflexivity|].
  split; vm_compute; reflexivity.
Qed.

(** The same with a filter object for the user id: [{ not: '' }]
    admits every collaborator row, and the save is recorded under the
    filter object. *)
Example save_with_filter_object :
  let w := set_mockDataCollections
             (insert "col_T" Examples.team_collection) (Scenario.world0 10) in
  let nobody := JObj [ ("not", JStr EmptyString) ] in
  let run := @saveFromExecution (Scenario.host []) (JStr "col_T") (JArr [JNum 9])
               nobody (JObj []) {| update_ok := true |} w in
  (exists v, fst run = Return v /\ get v "success" = JBool true)
  /\ (col_lastSavedBy <$> mockDataCollections (snd run) !! "col_T") = Some nobody.
Proof.
  intros w nobody run. split; [eexists; split; vm_compute; reflexivity|].
  vm_compute; reflexivity.
Qed.

(** Property X22.
    The edit rights that count for a directive returned by the sandbox
    are those of the user the directive names.  A directive that names
    the owner of the collection's project is carried out, and recorded
    as saved by that owner, whoever made the request. *)
Theorem directive_is_authorised_as_its_own_user
    (endpointId userId : string) (ep : Endpoint) (data : ExecutionData)
    (r : RunResult) (o : SaveOracle) (w : World) (saveOp : jsval)
    (owner cid : string) (items : list jsval) (c : Collection) :
  get (get (parseOutput (run_output r)) "data") "_saveOperation" = saveOp ->
  get saveOp "userId" = JStr owner -> owner <> "" ->
  get saveOp "collectionId" = JStr cid -> cid <> "" ->
  get saveOp "data" = JArr items ->
  mockDataCollections w !! cid = Some c ->
  ownerId (col_project c) = owner ->
  truthy (col_schema c) = false ->
  update_ok o = true ->
  let run := applySaveDirective endpointId userId ep data r o w in
  (exists v, fst run = Return [v] /\ get v "success" = JBool true)
  /\ mockDataCollections (snd run) !! cid
     = Some (saved_row c (JArr items) (JStr owner)).
Proof.
  intros Hop Huser Howner Hcid Hcid_ne Hdata Hc Hown Hschema Hup. cbv zeta.
  assert (Hto : truthy saveOp = true).
  { apply OrchestratorSpec.truthy_get with (k := "userId"). rewrite Huser. cbn.
    apply String.eqb_neq in Howner. now rewrite Howner. }
  assert (Htd : truthy (get (parseOutput (run_output r)) "data") = true).
  { apply OrchestratorSpec.truthy_get with (k := "_saveOperation"). now rewrite Hop. }
  unfold applySaveDirective, try_catch. cbv zeta.
  rewrite Hop, Hto, Htd, (OrchestratorSpec.truthy_get _ _ Htd). cbn [andb].
  destruct (completeSaveOp_fields saveOp (mockDataCollectionId data)
              endpointId userId (ep_projectId ep)) as (Hc1 & He1 & Hu1 & Hd1 & Hx1).
  rewrite Hc1, He1, Hu1, Hd1, Hx1, Huser, Hcid, Hdata. unfold Js.or.
  apply String.eqb_neq in Howner, Hcid_ne.
  cbn [truthy nullish]. rewrite Howner, Hcid_ne. cbn [negb].
  assert (Hedit : canEditCollection (col_project c) owner = true).
  { unfold canEditCollection. rewrite Hown, String.eqb_refl. reflexivity. }
  cbv [saveFromExecution collaboratorsWhere mbind M_bind bind read modify throw ret].
  rewrite Hc, canEditWith_string, Hedit, Hschema, Hup. cbn [negb isArray fst snd].
  split.
  - eexists. split; [reflexivity|]. reflexivity.
  - cbn. apply lookup_insert_eq.
Qed.
End Save.

Lemma directive_is_authorised_as_its_own_user_run :
  let d := JObj [ ("userId", JStr Scenario.alice); ("collectionId", JStr "col_S");
                  ("data", JArr [JNum 7]) ] in
  let r := {| run_success := true; run_output := Scenario.returns_directive d;
              run_error := JNull; run_logs := JArr [];
              run_executionTime := 39; run_exitCode := 0 |} in
  let run := @applySaveDirective (Scenario.host []) "ep_1" "user_bob"
               Examples.shared_endpoint (Scenario.request JUndefined) r
               {| update_ok := true |} Examples.shared_world in
  hasAccess Examples.shared_project "user_bob" = true
  /\ canEditCollection Examples.shared_project "user_bob" = false
  /\ (exists v, fst run = Return [v] /\ get v "success" = JBool true)
  /\ mockDataCollections (snd run) !! "col_S"
     = Some (saved_row Examples.shared_collection (JArr [JNum 7])
               (JStr Scenario.alice)).
Proof.
  intros d r run. split; [reflexivity|]. split; [reflexivity|].
  apply (directive_is_authorised_as_its_own_user (H := Scenario.host [])
           "ep_1" "user_bob" Examples.shared_endpoint
           (Scenario.request JUndefined) r {| update_ok := true |}
           Examples.shared_world d
           Scenario.alice "col_S" [JNum 7] Examples.shared_collection);
    try reflexivity; discriminate.
Defined.

End SaveExtras.

Module HelperExtras.
Import Props Props2 OrchestratorFacts SandboxService ExecutionContextHelpers.


End HelperExtras.

Module CacheExtras.
Import Props Props2 MonadFacts LifecycleFacts CacheSpec DockerManager CodeExecutor.

Section Cache.
Context `{Builtins}.

Lemma generateCacheKey_fields (ctx1 ctx2 : ExecutionContext) :
  code ctx1 = code ctx2 -> mockData ctx1 = mockData ctx2 ->
  environment ctx1 = environment ctx2 -> request ctx1 = request ctx2 ->
  generateCacheKey ctx1 = generateCacheKey ctx2.
Proof. unfold generateCacheKey. intros -> -> -> ->. reflexivity. Qed.

(** Property X25.
    The cache does not tell strategies, languages, timeouts or
    isolation demands apart: its key is made of the code, the mock
    data, the environment and the request only.  After a vm2 run has
    returned a value, a call within the time to live for a context
    that agrees on those four gets that vm2 result back (marked
    [strategy = vm2], without container id) and nothing is run, even
    if it asks for the Docker strategy or for isolation. *)
Theorem cached_result_ignores_the_strategy (strategy2 : string)
    (ctx1 ctx2 : ExecutionContext) (o1 o2 : ExecuteOracle) (w : World) (v : jsval) :
  code ctx1 = code ctx2 -> mockData ctx1 = mockData ctx2 ->
  environment ctx1 = environment ctx2 -> request ctx1 = request ctx2 ->
  executionCache w !! generateCacheKey ctx1 = None ->
  vm_completion (a_vm (x_run o1)) = Returned v ->
  x_check o2 - x_store o1 < cacheTTL ->
  let first := executeCode "vm2" ctx1 o1 w in
  let second := executeCode strategy2 ctx2 o2 (snd first) in
  fst second = fst first
  /\ snd second = snd first
  /\ exists r, fst first = Return r
               /\ strategy r = "vm2" /\ containerId r = None /\ output r = v.
Proof.
  intros Hcode Hmock Henv Hreq Hmiss Hvm Hfresh. cbv zeta.
  pose proof (generateCacheKey_fields ctx1 ctx2 Hcode Hmock Henv Hreq) as Hkey.
  assert (Hfirst : executeCode "vm2" ctx1 o1 w
                   = (Return {| success := true; output := v; error := JNull;
                                logs := JArr [];
                                executionTime := vm_end (a_vm (x_run o1))
                                                 - vm_start (a_vm (x_run o1));
                                strategy := "vm2"; containerId := None |},
                      set_executionCache
                        (insert (generateCacheKey ctx1)
                           {| result :=
                                {| success := true; output := v; error := JNull;
                                   logs := JArr [];
                                   executionTime := vm_end (a_vm (x_run o1))
                                                    - vm_start (a_vm (x_run o1));
                                   strategy := "vm2"; containerId := None |};
                              timestamp := x_store o1 |})
                        (set_sandboxLogs
                           (fun l => l ++ map console_line (vm_console (a_vm (x_run o1))))
                           w))).
  { unfold executeCode. rewrite bind_run. unfold read. rewrite Hmiss.
    cbn [String.eqb Ascii.eqb Bool.eqb].
    unfold executeWithVM2. rewrite !bind_run. unfold modify. rewrite Hvm.
    reflexivity. }
  rewrite Hfirst. cbn [fst snd].
  set (entry := {| result := _; timestamp := x_store o1 |}).
  set (w1 := set_executionCache _ _).
  pose proof (executeCode_hit strategy2 ctx2 o2 w1 entry) as Hhit.
  rewrite Hhit.
  - cbn [fst snd result]. split; [reflexivity|]. split; [reflexivity|].
    eexists. split; [reflexivity|]. cbn. auto.
  - rewrite <- Hkey. subst w1. cbn. apply lookup_insert_eq.
  - cbn [timestamp]. exact Hfresh.
Qed.
End Cache.

Lemma cached_result_ignores_the_strategy_run :
  let ctx1 := Scenario.context "return 1" "javascript" false in
  let ctx2 := Scenario.context "return 1" "python" true in
  let o1 := Scenario.execute_oracle true Deadline (Returned (JNum 1)) 100 110 in
  let o2 := Scenario.execute_oracle true Deadline (Returned (JNum 1)) 20000 20010 in
  let first := @executeCode (Scenario.host []) "vm2" ctx1 o1 (Scenario.world0 10) in
  let second := @executeCode (Scenario.host []) "docker" ctx2 o2 (snd first) in
  fst second = fst first
  /\ snd second = snd first
  /\ exists r, fst first = Return r
               /\ strategy r = "vm2" /\ containerId r = None /\ output r = JNum 1.
Proof.
  apply (cached_result_ignores_the_strategy (H := Scenario.host []) "docker"
           (Scenario.context "return 1" "javascript" false)
           (Scenario.context "return 1" "python" true)
           (Scenario.execute_oracle true Deadline (Returned (JNum 1)) 100 110)
           (Scenario.execute_oracle true Deadline (Returned (JNum 1)) 20000 20010)
           (Scenario.world0 10) (JNum 1));
    reflexivity.
Defined.

End CacheExtras.

Module ReleaseExtras.
Import Props Props2 MonadFacts FrameFacts LifecycleFacts CacheSpec OrchestratorFacts
       PathFacts ContainerExtras RunExtras
       DockerManager CodeExecutor MockDataService SandboxService.

Lemma createContainer_run (lang : string) (o : CreateOracle) (w : World) :
  createContainer lang o w
  = if Nat.leb (maxContainers w) (size (activeContainers w))
    then (Throw "CONTAINER_LIMIT_EXCEEDED", w)
    else
      let w1 := set_dockerCalls
                  (fun l => l ++ [DCreate (getImageForLanguage lang)]) w in
      match create_outcome o with
      | Started id =>
          (Return id,
           set_activeContainers
             (insert id {| createdAt := create_time o; lastUsed := create_time o |})
             (set_dockerCalls (fun l => l ++ [DStart id]) w1))
      | StartFailed id =>
          (Throw "CONTAINER_CREATION_FAILED",
           set_dockerCalls (fun l => l ++ [DStart id]) w1)
      | CreateFailed => (Throw "CONTAINER_CREATION_FAILED", w1)
      end.
Proof.
  cbv [createContainer mbind M_bind bind read].
  destruct (Nat.leb (maxContainers w) (size (activeContainers w))); [reflexivity|].
  cbv [try_catch docker_call modify throw ret mbind M_bind bind].
  destruct (create_outcome o); reflexivity.
Qed.

Section Release.
Context `{Builtins}.

(** Run in a container that was just registered, then destroy it: the
    registry is back to what it was before the registration. *)
Lemma run_then_destroy (id : string) (d0 : ContainerData) (o : ExecOracle)
    (od : DestroyOracle) (w wx : World) :
  activeContainers w !! id = Some d0 ->
  activeContainers wx = activeContainers (snd (DockerManager.executeCode id o w)) ->
  stop_ok od || remove_ok od = true ->
  activeContainers (snd (destroyContainer id od wx)) = delete id (activeContainers w).
Proof.
  intros Hd Hwx Hok.
  rewrite (destroyContainer_registry id od wx), Hok, Hwx,
    (executeCode_registry id o w d0 Hd).
  destruct (timed_out_and_killed o).
  - apply delete_delete_eq.
  - apply delete_insert_eq.
Qed.
End Release.

End ReleaseExtras.

Module ReleaseSpec.
Import Props Props2 MonadFacts FrameFacts LifecycleFacts CacheSpec OrchestratorFacts
       PathFacts ContainerExtras RunExtras ReleaseExtras
       DockerManager CodeExecutor MockDataService SandboxService.

Section Release.
Context `{Builtins}.

Lemma runAndRespond_registry (endpointId userId : string) (ep : Endpoint)
    (data : ExecutionData) (o : RequestOracle) (containerId : string) (w : World) :
  activeContainers (snd (runAndRespond endpointId userId ep data o containerId w))
  = activeContainers (snd (DockerManager.executeCode containerId (o_exec o) w)).
Proof.
  rewrite runAndRespond_cases.
  destruct (DockerManager.executeCode containerId (o_exec o) w) as [[r|e] w1];
    [|reflexivity].
  pose proof (applySaveDirective_keeps activeContainers (fun _ _ => eq_refl)
                endpointId userId ep data r (o_save o) w1) as H2.
  destruct (applySaveDirective endpointId userId ep data r (o_save o) w1) as [r2 w2].
  pose proof (processSaveQueue_keeps activeContainers (fun _ _ => eq_refl)
                (fun _ _ => eq_refl) userId containerId (o_queue o) w2) as H3.
  destruct (processSaveQueue userId containerId (o_queue o) w2) as [r3 w3].
  cbn [snd] in *. cbv zeta.
  match goal with
  | |- context [logExecution ?rec ?ok w3] =>
      pose proof (logExecution_keeps activeContainers rec ok (fun _ _ => eq_refl) w3)
        as H4
  end.
  destruct (o_update_ok o); cbn [snd activeContainers set_endpoints];
    rewrite H4, H3, H2; reflexivity.
Qed.


(** Property X27.
    A request gives back the container it takes.  When the daemon
    hands out a fresh id and honours the stop or the forced removal,
    the registry after [executeEndpoint] is the registry before it,
    whatever the request ends in. *)
Theorem request_releases_its_container (endpointId userId : string)
    (data : ExecutionData) (o : RequestOracle) (w : World) (id : string) :
  create_outcome (o_create o) = Started id ->
  id <> "" ->
  activeContainers w !! id = None ->
  stop_ok (o_destroy o) || remove_ok (o_destroy o) = true ->
  activeContainers (snd (executeEndpoint endpointId userId data o w))
  = activeContainers w.
Proof.
  intros Hout Hid Hfresh Hok.
  pose proof (executeEndpoint_cases endpointId userId data o w) as Hcases.
  cbv zeta in Hcases. rewrite Hcases. clear Hcases.
  pose proof (checkRateLimit_keeps activeContainers userId (o_now o)
                (fun _ _ => eq_refl)
                (set_dockerCalls (fun l => l ++ [DInfo]) w)) as R1.
  destruct (checkRateLimit userId (o_now o)
              (set_dockerCalls (fun l => l ++ [DInfo]) w)) as [[[]|e] w1];
    cbn [snd] in R1; [|exact R1].
  change (activeContainers w1 = activeContainers w) in R1.
  destruct (endpoints w1 !! endpointId) as [ep|]; [|exact R1].
  destruct (negb (hasAccess (ep_project ep) userId)); [exact R1|].
  destruct (CodeExecutor.validateCode (ep_code ep)) as [ok|err]; cbn [snd].
  { rewrite createContainer_run, Hout. cbv zeta.
    destruct (Nat.leb (maxContainers w1) (size (activeContainers w1))).
    { cbn [snd]. rewrite (logExecution_keeps activeContainers); [exact R1|reflexivity]. }
    set (w2 := set_activeContainers _ _).
    assert (Hd : activeContainers w2 !! id
                 = Some {| createdAt := create_time (o_create o);
                           lastUsed := create_time (o_create o) |})
      by (subst w2; cbn; apply lookup_insert_eq).
    assert (Hreg2 : delete id (activeContainers w2) = activeContainers w).
    { subst w2. cbn. rewrite delete_insert_eq, R1. apply delete_id. exact Hfresh. }
    pose proof (runAndRespond_registry endpointId userId ep data o id w2) as R3.
    apply String.eqb_neq in Hid. rewrite Hid.
    destruct (runAndRespond endpointId userId ep data o id w2) as [[resp|e] w3];
      cbn [snd] in *; rewrite bind_run; unfold modify.
    - rewrite (run_then_destroy id _ (o_exec o) (o_destroy o) w2 _ Hd); auto.
    - match goal with
      | |- context [logExecution ?rec ?ok w3] =>
          pose proof (logExecution_keeps activeContainers rec ok
                        (fun _ _ => eq_refl) w3) as R4;
          destruct (logExecution rec ok w3) as [r4 w4]
      end.
      cbn [snd] in *.
      rewrite (run_then_destroy id _ (o_exec o) (o_destroy o) w2 _ Hd); auto.
      cbn. congruence. }
  rewrite (logExecution_keeps activeContainers); [exact R1|reflexivity].
Qed.
End Release.


Lemma request_releases_its_container_run :
  activeContainers
    (snd (@executeEndpoint (Scenario.host []) "ep_1" Scenario.alice
            (Scenario.request JUndefined) (Scenario.oracle1 Deadline)
            (Scenario.world1 "return 1")))
  = activeContainers (Scenario.world1 "return 1").
Proof.
  apply (request_releases_its_container (H := Scenario.host []) "ep_1" Scenario.alice
           (Scenario.request JUndefined) (Scenario.oracle1 Deadline)
           (Scenario.world1 "return 1") "c1").
  - reflexivity.
  - discriminate.
  - reflexivity.
  - reflexivity.
Defined.

End ReleaseSpec.

Module HarnessExtras.
Import Props Props2 MonadFacts LifecycleFacts TextFacts DockerManager.

Lemma printed_stdout_complete (calls : list (ConsoleCall * string)) :
  complete_lines (printed_stdout calls).
Proof.
  induction calls as [|[[m|m|m] t] rest IH]; cbn [printed_stdout];
    [left; reflexivity|now apply complete_lines_app_line|exact IH..].
Qed.

Section Harness.
Context `{Builtins}.

(** Property X28.
    The value a script returns makes the round trip through the
    harness of [wrapCode] and the parser of [executeCode]: the run is
    successful, carries the intercepted console calls as its logs and
    has no error.  Its output is the returned value when that is
    truthy; for a falsy value ([0], [false], the empty string, [null])
    the output is the whole report of the harness instead.  The script
    is taken to have written nothing to stderr, and the host's
    [JSON.parse] to read back the report that [JSON.stringify] printed
    on one line. *)
Theorem returned_value_comes_back (id : string) (o : ExecOracle) (w : World)
    (d : ContainerData) (calls : list (ConsoleCall * string)) (v : jsval)
    (trace : text) :
  let report := result_report v (JArr (harness_logs calls)) in
  activeContainers w !! id = Some d ->
  exec_failure o = None ->
  stream o = wrapCode {| h_calls := calls; h_completion := Returned v;
                         h_trace := trace |} ->
  quiet calls ->
  JSON_parse (JSON_stringify report) = Some report ->
  compact_object_text (JSON_stringify report) = true ->
  exists r,
    fst (executeCode id o w) = Return r
    /\ run_success r = true
    /\ run_output r = (if truthy v then v else report)
    /\ run_error r = JNull
    /\ run_logs r = JArr (harness_logs calls)
    /\ run_exitCode r = 0.
Proof.
  intros report Hd Hfail Hstream Hquiet Hround Hcompact.
  unfold wrapCode in Hstream. cbn [h_completion h_calls] in Hstream.
  fold report in Hstream. unfold quiet in Hquiet. rewrite Hquiet in Hstream.
  destruct (json_line_compact (JSON_stringify report) (printed_stdout calls)
              Hcompact (printed_stdout_complete calls)) as [Hline Hne].
  set (stdout := printed_stdout calls ++ line (JSON_stringify report)) in *.
  assert (Hparse : JSON_parse (str (json_line (trim stdout))) = Some report).
  { rewrite Hline. unfold str, chars. now rewrite string_of_list_ascii_of_string. }
  rewrite (executeCode_stream_end id o w d stdout [] 0 Hd Hfail Hstream).
  eexists. split; [reflexivity|]. cbn [run_success run_output run_error run_logs
                                       run_exitCode].
  unfold parse_stderr. cbn [trim rev trim_start].
  unfold parse_stdout.
  destruct (trim stdout) as [|c t] eqn:Ht; [congruence|].
  rewrite Hparse. cbn [nullish report result_report].
  cbn [p_success p_output p_error p_logs get assoc String.eqb Ascii.eqb Bool.eqb
       is_false negb truthy].
  unfold Js.or. cbn [truthy]. repeat split.
Qed.

(** Property X29.
    Text on stderr that parses as JSON fails the run, whatever the
    exit code and the report on stdout say: the run is unsuccessful,
    its error is the [error] field of the parsed value or else the
    whole of stderr, and its logs are replaced by the [logs] field of
    the parsed value or else by the empty list. *)
Theorem parsable_stderr_fails_the_run (id : string) (o : ExecOracle) (w : World)
    (d : ContainerData) (stdout stderr : text) (code : Z) (parsed : jsval) :
  activeContainers w !! id = Some d ->
  exec_failure o = None ->
  stream o = StreamEnd stdout stderr (inl code) ->
  trim stderr <> [] ->
  JSON_parse (str (json_line (trim stderr))) = Some parsed ->
  nullish parsed = false ->
  exists r,
    fst (executeCode id o w) = Return r
    /\ run_success r = false
    /\ run_error r = Js.or (get parsed "error") (JStr (str (trim stderr)))
    /\ run_logs r = Js.or (get parsed "logs") (JArr [])
    /\ run_exitCode r = code.
Proof.
  intros Hd Hfail Hstream Hne Hparse Hnn.
  rewrite (executeCode_stream_end id o w d stdout stderr code Hd Hfail Hstream).
  eexists. split; [reflexivity|].
  cbn [run_success run_output run_error run_logs run_exitCode].
  unfold parse_stderr.
  destruct (trim stderr) as [|c t] eqn:Ht; [congruence|].
  rewrite Hparse, Hnn. cbn. auto.
Qed.
End Harness.

Lemma returned_value_comes_back_run :
  let calls := [ (ConsoleLog "starting", "2026-01-01T00:00:00.000Z") ] in
  let report := result_report (JNum 0) (JArr (harness_logs calls)) in
  let host := Scenario.host [report] in
  let o := Scenario.exec_with
             (@wrapCode host {| h_calls := calls; h_completion := Returned (JNum 0);
                                h_trace := [] |}) true in
  exists r,
    fst (@executeCode host "c1" o Scenario.one_container) = Return r
    /\ run_success r = true
    /\ run_output r = report
    /\ run_error r = JNull
    /\ run_logs r = JArr (harness_logs calls)
    /\ run_exitCode r = 0.
Proof.
  intros calls report host o.
  apply (returned_value_comes_back (H := host) "c1" o Scenario.one_container
           {| createdAt := 1000; lastUsed := 1000 |} calls (JNum 0) []).
  - reflexivity.
  - reflexivity.
  - reflexivity.
  - reflexivity.
  - vm_compute. reflexivity.
  - vm_compute. reflexivity.
Defined.

Lemma parsable_stderr_fails_the_run_run :
  let calls := [ (ConsoleWarn "42", "2026-01-01T00:00:00.000Z") ] in
  let report := result_report (JNum 7) (JArr (harness_logs calls)) in
  let host := Scenario.host [report; JNum 42] in
  let run := @wrapCode host {| h_calls := calls; h_completion := Returned (JNum 7);
                               h_trace := [] |} in
  let o := Scenario.exec_with run true in
  run = StreamEnd (line (@JSON_stringify host report)) (line "42") (inl 0)
  /\ exists r,
       fst (@executeCode host "c1" o Scenario.one_container) = Return r
       /\ run_success r = false
       /\ run_error r = JStr "42"
       /\ run_logs r = JArr []
       /\ run_exitCode r = 0.
Proof.
  intros calls report host run o. split; [reflexivity|].
  apply (parsable_stderr_fails_the_run (H := host) "c1" o Scenario.one_container
           {| createdAt := 1000; lastUsed := 1000 |}
           (line (@JSON_stringify host report)) (line "42") 0 (JNum 42)).
  - reflexivity.
  - reflexivity.
  - reflexivity.
  - vm_compute. discriminate.
  - vm_compute. reflexivity.
  - reflexivity.
Defined.

End HarnessExtras.

Module ControllerExtras.
Import Props Props2 MonadFacts FrameFacts PathFacts QuotaExtras
       DockerManager MockDataService SandboxService ExecuteController.

(** Property X30.
    The controller answers a request that the rate check refuses with
    status 400 under the error label SANDBOX_VALIDATION_FAILED, the
    label it gives to every error of the service; the message is
    RATE_LIMIT_EXCEEDED. *)
Theorem rate_limited_request_is_answered_400 `{Builtins} (endpointId userId : string)
    (data : ExecutionData) (o : RequestOracle) (w : World) (e : string) :
  fst (checkRateLimit userId (o_now o) w) = Throw e ->
  respond (fst (executeEndpoint endpointId userId data o w))
  = Bad400 "SANDBOX_VALIDATION_FAILED" "RATE_LIMIT_EXCEEDED".
Proof.
  intros He.
  set (w0 := set_dockerCalls (fun l => l ++ [DInfo]) w).
  destruct (checkRateLimit_reads_counters userId (o_now o) w0 w eq_refl) as [Hfst _].
  pose proof (checkRateLimit_result userId (o_now o) w0) as Hres.
  rewrite Hfst, He in Hres. destruct Hres as [Hres|Hres]; [discriminate|].
  pose proof (executeEndpoint_cases endpointId userId data o w) as Hcases.
  cbv zeta in Hcases. rewrite Hcases. fold w0.
  rewrite <- Hfst in He.
  destruct (checkRateLimit userId (o_now o) w0) as [[[]|e'] w1];
    cbn [fst] in He; [discriminate|].
  inversion He; subst e'. inversion Hres; subst e. reflexivity.
Qed.

Lemma rate_limited_request_is_answered_400_run :
  respond (fst (@executeEndpoint (Scenario.host []) "ep_1" Scenario.alice
                  (Scenario.request JUndefined)
                  (Examples.update_fails Deadline) Examples.at_limit))
  = Bad400 "SANDBOX_VALIDATION_FAILED" "RATE_LIMIT_EXCEEDED".
Proof.
  apply (rate_limited_request_is_answered_400 (H := Scenario.host [])
           "ep_1" Scenario.alice (Scenario.request JUndefined)
           (Examples.update_fails Deadline) Examples.at_limit "RATE_LIMIT_EXCEEDED").
  reflexivity.
Defined.

End ControllerExtras.

